(** * Arludent AI microservice: follow-up analysis, session store, agent loop, tools

    A shallow embedding of the Python sources
    - [app/api/seguimiento.py]        (follow-up analysis entry point),
    - [app/services/openai_service.py] (LLM service used by the analysis),
    - [app/services/agent_service.py] (sessions and the conversational agent),
    - [app/utils/helpers.py], [app/core/config.py],
    - [app/tools/backend_tools.py], [app/utils/http_client.py] (tool catalog).

    Python values that come out of [json.loads] or [response.json()] are the
    inductive type [json]; Python [str] is a list of Unicode code points, so
    that [len] counts characters as Python does; exceptions are values of
    [exc] carried by the [outcome] monad; the session table is a [gmap]. *)

From Stdlib Require Import ZArith NArith QArith Ascii String List Lia.
From stdpp Require Import base option list gmap.

Set Warnings "-register-all".
Open Scope Z_scope.
Close Scope Q_scope.

(** ** Python strings *)

(** A Python [str]: its sequence of code points. *)
Abbreviation pystr := (list N).

Module PyStr.

Fixpoint bytes (s : string) : list N :=
  match s with
  | EmptyString => []
  | String c r => N_of_ascii c :: bytes r
  end.

(** UTF-8 decoding of the bytes of a source literal. *)
Fixpoint utf8_decode (bs : list N) : pystr :=
  match bs with
  | [] => []
  | b0 :: r0 =>
    if (b0 <? 128)%N then b0 :: utf8_decode r0
    else if (b0 <? 224)%N then
      match r0 with
      | b1 :: r1 => ((b0 mod 32) * 64 + b1 mod 64)%N :: utf8_decode r1
      | _ => []
      end
    else if (b0 <? 240)%N then
      match r0 with
      | b1 :: b2 :: r2 =>
        ((b0 mod 16) * 4096 + (b1 mod 64) * 64 + b2 mod 64)%N :: utf8_decode r2
      | _ => []
      end
    else
      match r0 with
      | b1 :: b2 :: b3 :: r3 =>
        ((b0 mod 8) * 262144 + (b1 mod 64) * 4096 + (b2 mod 64) * 64 + b3 mod 64)%N
          :: utf8_decode r3
      | _ => []
      end
  end.

(** A string literal of the source, as a Python [str]. *)
Definition lit (s : string) : pystr := utf8_decode (bytes s).

Definition eqb (a b : pystr) : bool := bool_decide (a = b).

(** [len(s)] *)
Definition len (s : pystr) : Z := Z.of_nat (length s).

(** [sep.join(parts)] *)
Fixpoint join (sep : pystr) (parts : list pystr) : pystr :=
  match parts with
  | [] => []
  | [p] => p
  | p :: rest => p ++ sep ++ join sep rest
  end.

(** [s.startswith(p)] *)
Fixpoint startswith (p s : pystr) : bool :=
  match p, s with
  | [], _ => true
  | a :: p', b :: s' => (a =? b)%N && startswith p' s'
  | _ :: _, [] => false
  end.

(** [str(n)] for an [int]. *)
Definition digit (d : N) : N := (48 + d)%N.

Fixpoint digits_of_pos (fuel : nat) (n : N) (acc : pystr) : pystr :=
  match fuel with
  | O => acc
  | S fuel' =>
    let acc' := digit (n mod 10) :: acc in
    if (n / 10 =? 0)%N then acc' else digits_of_pos fuel' (n / 10) acc'
  end.

Definition of_N (n : N) : pystr := digits_of_pos (S (N.to_nat (N.log2 n))) n [].

Definition of_Z (z : Z) : pystr :=
  if z <? 0 then 45%N :: of_N (Z.to_N (- z)) else of_N (Z.to_N z).

End PyStr.

Notation "'u8' s" := (PyStr.lit s%string) (at level 9, s at level 0, only parsing).

(** ** Values decoded from JSON *)

(** What [json.loads] and [response.json()] return: [None], [bool], [int],
    [float], [str], [list], and [dict] with string keys (insertion order
    kept; the first binding of a key is the one in force). *)
Inductive json : Type :=
| JNull
| JBool (b : bool)
| JInt (z : Z)
| JFloat (q : Q)
| JStr (s : pystr)
| JArr (items : list json)
| JObj (fields : list (pystr * json)).

Module Dict.

Fixpoint lookup (k : pystr) (d : list (pystr * json)) : option json :=
  match d with
  | [] => None
  | (k', v) :: r => if PyStr.eqb k k' then Some v else lookup k r
  end.

(** [d[k] = v] *)
Fixpoint set (k : pystr) (v : json) (d : list (pystr * json)) : list (pystr * json) :=
  match d with
  | [] => [(k, v)]
  | (k', v') :: r => if PyStr.eqb k k' then (k, v) :: r else (k', v') :: set k v r
  end.

End Dict.

(** ** Exceptions *)

Inductive exc_class :=
| JSONDecodeError
| ValidationError
| AttributeError
| TypeError
| KeyError
| IndexError
| HTTPException (status_code : Z)
| PlainException          (* [raise Exception(msg)] *)
| LibraryError (name : pystr).  (* any other subclass of [Exception] raised by a library *)

(** An exception object: its class and [str(e)]. *)
Record exc := Exc { exc_cls : exc_class; exc_str : pystr }.

Inductive outcome (A : Type) : Type :=
| Return (a : A)
| Raise (e : exc).
Arguments Return {A} a.
Arguments Raise {A} e.

#[global] Instance outcome_ret : MRet outcome := fun A a => Return a.
#[global] Instance outcome_bind : MBind outcome := fun A B k m =>
  match m with
  | Return a => k a
  | Raise e => Raise e
  end.

Definition is_JSONDecodeError (e : exc) : bool :=
  match exc_cls e with JSONDecodeError => true | _ => false end.

(** [except Exception]: every class modelled here derives from [Exception]. *)
Definition is_Exception (e : exc) : bool := true.

Module Py.

(** [type(v).__name__] *)
Definition type_name (v : json) : pystr :=
  match v with
  | JNull => u8 "NoneType"
  | JBool _ => u8 "bool"
  | JInt _ => u8 "int"
  | JFloat _ => u8 "float"
  | JStr _ => u8 "str"
  | JArr _ => u8 "list"
  | JObj _ => u8 "dict"
  end.

(** [bool(v)] *)
Definition truthy (v : json) : bool :=
  match v with
  | JNull => false
  | JBool b => b
  | JInt z => negb (z =? 0)
  | JFloat q => negb (Qnum q =? 0)
  | JStr s => match s with [] => false | _ => true end
  | JArr l => match l with [] => false | _ => true end
  | JObj d => match d with [] => false | _ => true end
  end.

Definition no_attribute (v : json) (attr : pystr) : exc :=
  Exc AttributeError
    (u8 "'" ++ type_name v ++ u8 "' object has no attribute '" ++ attr ++ u8 "'").

(** [v.get(k)]: only a [dict] has the method. *)
Definition get (v : json) (k : pystr) : outcome json :=
  match v with
  | JObj d => Return (default JNull (Dict.lookup k d))
  | _ => Raise (no_attribute v (u8 "get"))
  end.

(** [v.get(k, dflt)] *)
Definition get_or (v : json) (k : pystr) (dflt : json) : outcome json :=
  match v with
  | JObj d => Return (default dflt (Dict.lookup k d))
  | _ => Raise (no_attribute v (u8 "get"))
  end.

(** [v[k]] with a string key. *)
Definition getitem (v : json) (k : pystr) : outcome json :=
  match v with
  | JObj d =>
    match Dict.lookup k d with
    | Some x => Return x
    | None => Raise (Exc KeyError (u8 "'" ++ k ++ u8 "'"))
    end
  | JArr _ =>
    Raise (Exc TypeError (u8 "list indices must be integers or slices, not str"))
  | JStr _ =>
    Raise (Exc TypeError (u8 "string indices must be integers, not 'str'"))
  | _ =>
    Raise (Exc TypeError (u8 "'" ++ type_name v ++ u8 "' object is not subscriptable"))
  end.

(** [v[k] = x] with a string key (only reached on a [dict] in the sources). *)
Definition setitem (v : json) (k : pystr) (x : json) : outcome json :=
  match v with
  | JObj d => Return (JObj (Dict.set k x d))
  | _ =>
    Raise (Exc TypeError
             (u8 "'" ++ type_name v ++ u8 "' object does not support item assignment"))
  end.

(** [v == "text"] *)
Definition eq_str (v : json) (s : pystr) : bool :=
  match v with
  | JStr t => PyStr.eqb t s
  | _ => false
  end.

End Py.

(** [try: body  except C1: h1  except C2: h2 ...]: the first clause whose
    class matches handles the exception; an exception raised by a handler is
    not offered to the later clauses. *)
Fixpoint select_clause {A} (clauses : list ((exc -> bool) * (exc -> outcome A)))
    (e : exc) : outcome A :=
  match clauses with
  | [] => Raise e
  | (catches, handler) :: rest =>
    if catches e then handler e else select_clause rest e
  end.

Definition try_clauses {A} (body : outcome A)
    (clauses : list ((exc -> bool) * (exc -> outcome A))) : outcome A :=
  match body with
  | Return a => Return a
  | Raise e => select_clause clauses e
  end.

(** ** More of Python's data model, as the tools use it *)

Module PyOps.

(** [c.isspace()] for a code point. *)
Definition isspace (c : N) : bool :=
  ((9 <=? c) && (c <=? 13) || (28 <=? c) && (c <=? 32) || (c =? 133) || (c =? 160)
   || (c =? 5760) || (8192 <=? c) && (c <=? 8202) || (c =? 8232) || (c =? 8233)
   || (c =? 8239) || (c =? 8287) || (c =? 12288))%N.

Fixpoint lstrip (s : pystr) : pystr :=
  match s with
  | c :: r => if isspace c then lstrip r else s
  | [] => []
  end.

(** [s.strip()] *)
Definition strip (s : pystr) : pystr := rev (lstrip (rev (lstrip s))).

(** [len(v)] *)
Definition len (v : json) : outcome Z :=
  match v with
  | JStr s => Return (Z.of_nat (length s))
  | JArr l => Return (Z.of_nat (length l))
  | JObj d => Return (Z.of_nat (length d))
  | _ =>
    Raise (Exc TypeError (u8 "object of type '" ++ Py.type_name v ++ u8 "' has no len()"))
  end.

(** The items a [for] loop over [v] visits. *)
Definition iter (v : json) : outcome (list json) :=
  match v with
  | JStr s => Return (map (fun c => JStr [c]) s)
  | JArr l => Return l
  | JObj d => Return (map (fun kv => JStr (fst kv)) d)
  | _ =>
    Raise (Exc TypeError (u8 "'" ++ Py.type_name v ++ u8 "' object is not iterable"))
  end.

(** [v[:n]] *)
Definition slice_to (n : nat) (v : json) : outcome json :=
  match v with
  | JStr s => Return (JStr (take n s))
  | JArr l => Return (JArr (take n l))
  | JObj _ => Raise (Exc TypeError (u8 "unhashable type: 'slice'"))
  | _ =>
    Raise (Exc TypeError (u8 "'" ++ Py.type_name v ++ u8 "' object is not subscriptable"))
  end.

(** [for i, x in enumerate(items, start): acc += f i x] where [f] may raise. *)
Fixpoint accumulate (f : Z -> json -> outcome pystr) (start : Z) (items : list json)
    (acc : pystr) : outcome pystr :=
  match items with
  | [] => Return acc
  | x :: r =>
    piece ← f start x;
    accumulate f (start + 1) r (acc ++ piece)
  end.

Definition some_str (s : option pystr) : bool :=
  match s with Some (_ :: _) => true | _ => false end.

Definition some_int (n : option Z) : bool :=
  match n with Some z => negb (z =? 0) | None => false end.

Definition opt_str (s : option pystr) : json :=
  match s with Some t => JStr t | None => JNull end.

Definition opt_int (n : option Z) : json :=
  match n with Some z => JInt z | None => JNull end.

Definition opt_json (v : option json) : json := default JNull v.

End PyOps.

(** ** Library interfaces used by the analysis pipeline *)

(** Python's [json] module: [json_loads s] is [None] when [json.loads(s)]
    raises [JSONDecodeError] (whose text is [json_error_text s]). *)
Class JsonCodec := {
  json_loads : pystr -> option json;
  json_dumps : json -> pystr;
  json_error_text : pystr -> pystr
}.

(** Pydantic: a field accepts a value of its own type as it is; what lax mode
    makes of any other input is left to the library ([lax_bool], [lax_float]),
    as is the text of a [ValidationError]. *)
Class PydanticLib := {
  lax_bool : json -> option bool;
  lax_float : json -> option Q;
  validation_error_text : json -> list pystr -> pystr
}.

(** ** app/api/seguimiento.py: data model *)

Record RespuestaPaciente := {
  estado_paciente : pystr;
  sintomas_reportados : option pystr;
  observaciones_paciente : option pystr;
  necesita_revision : bool
}.

Record SeguimientoData := {
  seguimiento_id : Z;
  paciente_nombre : pystr;
  tipo_tratamiento : pystr;
  dias_desde_tratamiento : Z;
  respuesta : RespuestaPaciente
}.

Record AnalisisResultado := {
  nivel_urgencia : pystr;
  requiere_atencion : bool;
  sentimiento_general : pystr;
  sintomas_detectados : list pystr;
  recomendacion : pystr;
  resumen : pystr;
  probabilidad_complicacion : Q;
  necesita_cita_urgente : bool
}.

Record WebhookPayload := {
  wp_seguimiento_id : Z;
  wp_analisis : AnalisisResultado;
  wp_timestamp : Z
}.

(** The response object of [client.chat.completions.create]: the message
    content of each choice, and [usage.total_tokens] when [usage] is set. *)
Record ChatCompletion := {
  choices : list (option pystr);
  usage_total_tokens : option Z
}.

Module Pydantic.
Section Validators.
Context {pyd : PydanticLib}.

Definition validate_str (v : json) : option pystr :=
match v with JStr s => Some s | _ => None end.

Definition validate_bool (v : json) : option bool :=
match v with JBool b => Some b | _ => lax_bool v end.

Definition validate_float (v : json) : option Q :=
match v with
| JFloat q => Some q
| JInt z => Some (inject_Z z)
| _ => lax_float v
end.

(** [Field(..., ge=0, le=1)] *)
Definition validate_unit_interval (v : json) : option Q :=
q ← validate_float v;
if Qle_bool 0 q && Qle_bool q 1 then Some q else None.

Fixpoint validate_all_str (items : list json) : option (list pystr) :=
match items with
| [] => Some []
| v :: r =>
  s ← validate_str v;
  l ← validate_all_str r;
  Some (s :: l)
end.

Definition validate_list_str (v : json) : option (list pystr) :=
match v with JArr items => validate_all_str items | _ => None end.

(** A required field [Field(...)]: missing key or rejected value is an error. *)
Definition required {A} (val : json -> option A) (k : pystr)
  (d : list (pystr * json)) : option A :=
v ← Dict.lookup k d; val v.

(** A field with a default: only a rejected value is an error. *)
Definition with_default {A} (val : json -> option A) (dflt : A) (k : pystr)
  (d : list (pystr * json)) : option A :=
match Dict.lookup k d with
| None => Some dflt
| Some v => val v
end.

Definition failed {A} (k : pystr) (r : option A) : list pystr :=
match r with Some _ => [] | None => [k] end.

(** The model constructor called with the entries of [d] as keyword
  arguments. *)
Definition AnalisisResultado_fields (d : list (pystr * json))
  : list pystr + AnalisisResultado :=
let f1 := required validate_str (u8 "nivel_urgencia") d in
let f2 := required validate_bool (u8 "requiere_atencion") d in
let f3 := required validate_str (u8 "sentimiento_general") d in
let f4 := with_default validate_list_str [] (u8 "sintomas_detectados") d in
let f5 := required validate_str (u8 "recomendacion") d in
let f6 := required validate_str (u8 "resumen") d in
let f7 := required validate_unit_interval (u8 "probabilidad_complicacion") d in
let f8 := required validate_bool (u8 "necesita_cita_urgente") d in
match f1, f2, f3, f4, f5, f6, f7, f8 with
| Some a1, Some a2, Some a3, Some a4, Some a5, Some a6, Some a7, Some a8 =>
  inr {| nivel_urgencia := a1; requiere_atencion := a2;
         sentimiento_general := a3; sintomas_detectados := a4;
         recomendacion := a5; resumen := a6;
         probabilidad_complicacion := a7; necesita_cita_urgente := a8 |}
| _, _, _, _, _, _, _, _ =>
  inl (failed (u8 "nivel_urgencia") f1 ++ failed (u8 "requiere_atencion") f2
       ++ failed (u8 "sentimiento_general") f3
       ++ failed (u8 "sintomas_detectados") f4
       ++ failed (u8 "recomendacion") f5 ++ failed (u8 "resumen") f6
       ++ failed (u8 "probabilidad_complicacion") f7
       ++ failed (u8 "necesita_cita_urgente") f8)
end.

(** The constructor call of [parsear_respuesta_ia], which unpacks [v] as
  keyword arguments: that needs a mapping. *)
Definition AnalisisResultado_from (v : json) : outcome AnalisisResultado :=
match v with
| JObj d =>
  match AnalisisResultado_fields d with
  | inr r => Return r
  | inl errs => Raise (Exc ValidationError (validation_error_text v errs))
  end
| _ =>
  Raise (Exc TypeError
           (u8 "app.api.seguimiento.AnalisisResultado() argument after ** must be a mapping, not "
            ++ Py.type_name v))
end.

End Validators.
End Pydantic.

(** ** app/services/openai_service.py and app/api/seguimiento.py *)

Section Analysis.
Context {codec : JsonCodec} {pyd : PydanticLib}.

(** [self.client.chat.completions.create(model=..., messages=[system, user],
    temperature=..., max_tokens=..., response_format=json_object)]: the
    provider, as a function of the two message contents. *)
Variable chat_completions_create : pystr -> pystr -> outcome ChatCompletion.

(** [datetime.utcnow()] *)
Variable utcnow : Z.

(** [json.loads(s)] for a [str] argument. *)
Definition loads (s : pystr) : outcome json :=
  match json_loads s with
  | Some v => Return v
  | None => Raise (Exc JSONDecodeError (json_error_text s))
  end.

(** [json.loads(content)] used as a check: [content] may be [None], and
    the decoded value is dropped. *)
Definition checked_content (content : option pystr) : outcome pystr :=
  match content with
  | Some s => _ ← loads s; Return s
  | None =>
    Raise (Exc TypeError
             (u8 "the JSON object must be str, bytes or bytearray, not NoneType"))
  end.

Definition system_message : pystr :=
  u8 "Eres un asistente médico especializado en odontología. "
  ++ u8 "Tu tarea es analizar respuestas de seguimiento post-tratamiento "
  ++ u8 "y detectar posibles complicaciones. "
  ++ u8 "Siempre respondes en formato JSON válido.".

(** [OpenAIService._get_fallback_response] before [json.dumps]. *)
Definition fallback_dict (paciente_nombre : pystr) : json :=
  JObj [ (u8 "nivel_urgencia", JStr (u8 "medio"));
         (u8 "requiere_atencion", JBool true);
         (u8 "sentimiento_general", JStr (u8 "neutral"));
         (u8 "sintomas_detectados", JArr [JStr (u8 "Requiere revisión manual")]);
         (u8 "recomendacion",
          JStr (u8 "Por favor, contacta al paciente para revisar su respuesta manualmente. El análisis automático no pudo completarse."));
         (u8 "resumen",
          JStr (u8 "Análisis automático falló para " ++ paciente_nombre
                ++ u8 ". Requiere revisión manual."));
         (u8 "probabilidad_complicacion", JFloat (1 # 2)%Q);
         (u8 "necesita_cita_urgente", JBool false) ].

Definition _get_fallback_response (paciente_nombre : pystr) : pystr :=
  json_dumps (fallback_dict paciente_nombre).

(** [OpenAIService.analizar_seguimiento_post_tratamiento] *)
Definition analizar_seguimiento_post_tratamiento
    (prompt paciente_nombre tipo_tratamiento : pystr) : outcome pystr :=
  try_clauses
    (response ← chat_completions_create system_message prompt;
     content ← match choices response with
               | c :: _ => Return c
               | [] => Raise (Exc IndexError (u8 "list index out of range"))
               end;
     content ← checked_content content;
     _ ← match usage_total_tokens response with
         | Some n => Return n
         | None => Raise (Py.no_attribute JNull (u8 "total_tokens"))
         end;
     Return content)
    [ (is_JSONDecodeError, fun _ => Return (_get_fallback_response paciente_nombre));
      (is_Exception, fun e => Raise e) ].

Definition or_default (s : option pystr) (dflt : pystr) : pystr :=
  match s with
  | Some (c :: r) => c :: r
  | _ => dflt
  end.

Definition dq : pystr := [34%N].

(** [construir_prompt_analisis] *)
Definition construir_prompt_analisis (data : SeguimientoData) : pystr :=
  u8 "Eres un asistente médico especializado en odontología. Analiza la siguiente respuesta de seguimiento post-tratamiento.

**INFORMACIÓN DEL PACIENTE:**
- Nombre: " ++ paciente_nombre data ++ u8 "
- Tratamiento: " ++ tipo_tratamiento data ++ u8 "
- Días desde tratamiento: " ++ PyStr.of_Z (dias_desde_tratamiento data) ++ u8 "

**RESPUESTA DEL PACIENTE:**
- Estado general reportado: " ++ estado_paciente (respuesta data) ++ u8 "
- Síntomas/molestias: "
  ++ or_default (sintomas_reportados (respuesta data)) (u8 "Ninguno reportado") ++ u8 "
- Observaciones adicionales: "
  ++ or_default (observaciones_paciente (respuesta data)) (u8 "Ninguna") ++ u8 "
- Solicita cita de revisión: "
  ++ (if necesita_revision (respuesta data) then u8 "Sí" else u8 "No") ++ u8 "

**INSTRUCCIONES DE ANÁLISIS:**

1. **Evaluación de urgencia**: Determina si hay signos de alarma (infección, sangrado excesivo, dolor severo, inflamación anormal).

2. **Sentimiento del paciente**: Clasifica el sentimiento general como positivo, neutral o negativo basándote en su estado y comentarios.

3. **Síntomas de riesgo**: Identifica síntomas específicos que requieran seguimiento:
   - Dolor intenso o que empeora
   - Inflamación progresiva
   - Sangrado persistente
   - Fiebre o malestar general
   - Sensibilidad extrema
   - Problemas de cicatrización

4. **Nivel de urgencia**: Clasifica como:
   - **ALTO**: Signos de complicación grave, requiere atención inmediata
   - **MEDIO**: Molestias moderadas, requiere seguimiento en 24-48h
   - **BAJO**: Recuperación normal, no requiere intervención

5. **Recomendación**: Proporciona una recomendación clara para la secretaria sobre qué acción tomar.

**IMPORTANTE**: 
- Considera que algunos síntomas son normales en los primeros días (leve molestia, sensibilidad leve).
- Prioriza la seguridad del paciente: ante la duda, recomienda contacto o revisión.
- Sé específico en las recomendaciones.

Responde en formato JSON con esta estructura exacta:
{
    " ++ dq ++ u8 "nivel_urgencia" ++ dq ++ u8 ": " ++ dq ++ u8 "bajo|medio|alto" ++ dq ++ u8 ",
    " ++ dq ++ u8 "requiere_atencion" ++ dq ++ u8 ": true|false,
    " ++ dq ++ u8 "sentimiento_general" ++ dq ++ u8 ": " ++ dq ++ u8 "positivo|neutral|negativo" ++ dq ++ u8 ",
    " ++ dq ++ u8 "sintomas_detectados" ++ dq ++ u8 ": [" ++ dq ++ u8 "lista" ++ dq ++ u8 ", "
    ++ dq ++ u8 "de" ++ dq ++ u8 ", " ++ dq ++ u8 "sintomas" ++ dq ++ u8 "],
    " ++ dq ++ u8 "recomendacion" ++ dq ++ u8 ": " ++ dq ++ u8 "texto con recomendación clara" ++ dq ++ u8 ",
    " ++ dq ++ u8 "resumen" ++ dq ++ u8 ": " ++ dq ++ u8 "resumen ejecutivo en 1-2 líneas" ++ dq ++ u8 ",
    " ++ dq ++ u8 "probabilidad_complicacion" ++ dq ++ u8 ": 0.0-1.0,
    " ++ dq ++ u8 "necesita_cita_urgente" ++ dq ++ u8 ": true|false
}".

(** The conservative result built in the [except json.JSONDecodeError]
    branch of [parsear_respuesta_ia]. *)
Definition fallback_conservador (data : SeguimientoData) : AnalisisResultado :=
  {| nivel_urgencia := u8 "medio";
     requiere_atencion := true;
     sentimiento_general := u8 "neutral";
     sintomas_detectados := [u8 "Requiere revisión manual"];
     recomendacion := u8 "Por favor, revisa manualmente esta respuesta. El análisis automático no pudo completarse.";
     resumen := u8 "Paciente " ++ paciente_nombre data ++ u8 " reportó estado: "
                ++ estado_paciente (respuesta data);
     probabilidad_complicacion := (1 # 2)%Q;
     necesita_cita_urgente := necesita_revision (respuesta data) |}.

(** [data.respuesta.estado_paciente == "mal"] *)
Definition reporta_mal (data : SeguimientoData) : bool :=
  PyStr.eqb (estado_paciente (respuesta data)) (u8 "mal").

(** [data.respuesta.sintomas_reportados and len(data.respuesta.sintomas_reportados) > 50] *)
Definition sintomas_extensos (data : SeguimientoData) : bool :=
  match sintomas_reportados (respuesta data) with
  | Some (c :: r) => 50 <? PyStr.len (c :: r)
  | _ => false
  end.

(** The first escalation rule of [parsear_respuesta_ia]. *)
Definition escalar_por_estado (data : SeguimientoData) (analisis_dict : json)
    : outcome json :=
  if reporta_mal data then
    urgencia ← Py.get analisis_dict (u8 "nivel_urgencia");
    if Py.eq_str urgencia (u8 "bajo") then
      d ← Py.setitem analisis_dict (u8 "nivel_urgencia") (JStr (u8 "medio"));
      Py.setitem d (u8 "requiere_atencion") (JBool true)
    else Return analisis_dict
  else Return analisis_dict.

(** The second escalation rule of [parsear_respuesta_ia]. *)
Definition escalar_por_sintomas (data : SeguimientoData) (analisis_dict : json)
    : outcome json :=
  if sintomas_extensos data then
    urgencia ← Py.get analisis_dict (u8 "nivel_urgencia");
    if Py.eq_str urgencia (u8 "bajo") then
      Py.setitem analisis_dict (u8 "requiere_atencion") (JBool true)
    else Return analisis_dict
  else Return analisis_dict.

(** [parsear_respuesta_ia] *)
Definition parsear_respuesta_ia (respuesta_ia : pystr) (data : SeguimientoData)
    : outcome AnalisisResultado :=
  try_clauses
    (analisis_dict ← loads respuesta_ia;
     analisis_dict ← escalar_por_estado data analisis_dict;
     analisis_dict ← escalar_por_sintomas data analisis_dict;
     Pydantic.AnalisisResultado_from analisis_dict)
    [ (is_JSONDecodeError, fun _ => Return (fallback_conservador data)) ].

(** [analizar_respuesta_seguimiento]: the value returned or the exception
    raised to the framework, and the webhook payloads handed to
    [background_tasks]. *)
Definition analizar_respuesta_seguimiento (data : SeguimientoData)
    : outcome AnalisisResultado * list WebhookPayload :=
  let body :=
    let prompt := construir_prompt_analisis data in
    resultado_ia ← analizar_seguimiento_post_tratamiento
                     prompt (paciente_nombre data) (tipo_tratamiento data);
    parsear_respuesta_ia resultado_ia data in
  match body with
  | Return analisis =>
    (Return analisis,
     [ {| wp_seguimiento_id := seguimiento_id data;
          wp_analisis := analisis;
          wp_timestamp := utcnow |} ])
  | Raise e =>
    (Raise (Exc (HTTPException 500) (u8 "Error al procesar análisis: " ++ exc_str e)),
     [])
  end.

(** The synchronous result of the entry point. *)
Definition analyze (data : SeguimientoData) : outcome AnalisisResultado :=
  fst (analizar_respuesta_seguimiento data).

Definition servicio (data : SeguimientoData) : outcome pystr :=
  analizar_seguimiento_post_tratamiento (construir_prompt_analisis data)
    (paciente_nombre data) (tipo_tratamiento data).

(** The LLM answered the prompt of [data] with the text [raw]. *)
Definition llm_answers (data : SeguimientoData) (raw : pystr) : Prop :=
  exists rest tokens,
    chat_completions_create system_message (construir_prompt_analisis data)
    = Return {| choices := Some raw :: rest; usage_total_tokens := tokens |}.

End Analysis.

(** ** app/core/config.py *)

Record Settings := {
  AGENT_MAX_ITERATIONS : Z;
  CONVERSATION_HISTORY_LIMIT : Z
}.

(** The values in force when the environment does not override them. *)
Definition default_settings : Settings :=
  {| AGENT_MAX_ITERATIONS := 10; CONVERSATION_HISTORY_LIMIT := 20 |}.

(** ** app/models/schemas.py and app/services/agent_service.py: sessions *)

Inductive MessageRole := USER | ASSISTANT | SYSTEM.

#[global] Instance MessageRole_eq_dec : EqDecision MessageRole.
Proof. solve_decision. Defined.

(** [ChatMessage]; [timestamp] and [metadata] always take their defaults in
    these sources and are left out. *)
Record ChatMessage := {
  role : MessageRole;
  content : pystr
}.

(** [l[-n:]] for [n > 0]. *)
Definition last_n {A} (n : nat) (l : list A) : list A :=
  drop (length l - n) l.

Module WindowMemory.

(** Modelled from the spec: the rolling memory window of a session (sections
    3 and 4.1, glossary). In the sources it is an object of the LangChain
    class [ConversationBufferWindowMemory], built with
    [k = CONVERSATION_HISTORY_LIMIT] and [return_messages=True]; the class
    itself is not among the sources. Its [chat_memory] records every user and
    assistant message in order of arrival; what is rendered to the LLM is
    the window of the [k] most recent turns, a turn being a user message and
    its answer, that is the last [2 * k] entries, and nothing when [k] is
    not positive. *)
Definition window_size (k : Z) : nat := Z.to_nat (2 * k).

(** Modelled from the spec: [chat_memory.add_user_message], the push of a
    user entry into the memory (section 4.1). *)
Definition add_user_message (text : pystr) (chat_memory : list (MessageRole * pystr))
    : list (MessageRole * pystr) :=
  chat_memory ++ [(USER, text)].

(** Modelled from the spec: [chat_memory.add_ai_message], the push of an
    assistant entry into the memory (section 4.1). *)
Definition add_ai_message (text : pystr) (chat_memory : list (MessageRole * pystr))
    : list (MessageRole * pystr) :=
  chat_memory ++ [(ASSISTANT, text)].

(** Modelled from the spec: [load_memory_variables({})["chat_history"]], the
    window rendered to the LLM (see [window_size]). *)
Definition load_memory_variables (k : Z) (chat_memory : list (MessageRole * pystr))
    : list (MessageRole * pystr) :=
  if 0 <? k then last_n (window_size k) chat_memory else [].

End WindowMemory.

(** A message that [add_message] also pushes into the memory: one from the
    user or from the assistant. *)
Definition in_memory (m : MessageRole * pystr) : Prop := m.1 = USER \/ m.1 = ASSISTANT.

Record ConversationSession := {
  session_id : pystr;
  user_id : option Z;
  messages : list ChatMessage;
  metadata : list (pystr * json);
  memory : list (MessageRole * pystr)
}.

(** The state of the [AgentService] singleton that the claims depend on: the
    session table, and how many UUIDs have been drawn so far. *)
Record AgentService := {
  sessions : gmap pystr ConversationSession;
  uuids_drawn : nat
}.

Record ToolInvocation := {
  tool : pystr;
  tool_input : json
}.

Record AgentInput := {
  ai_input : pystr;
  ai_chat_history : list (MessageRole * pystr);
  ai_current_date : pystr
}.

(** One reasoning round of the LLM: a final answer, tool invocations, or a
    failure of the provider call. *)
Inductive AgentDecision :=
| Finish (output : pystr)
| Actions (calls : list ToolInvocation)
| LlmFailure (e : exc).

(** The dictionary returned by [process_message]. *)
Record ChatResult := {
  cr_message : pystr;
  cr_session_id : pystr;
  cr_metadata : list (pystr * json)
}.

(** The reply used when the executor's answer has no ["output"]. *)
Definition respuesta_por_defecto : pystr := u8 "Lo siento, no pude procesar tu mensaje.".

(** The reply of the [except] branch of [process_message]. *)
Definition disculpa : pystr :=
  u8 "Lo siento, ocurrió un error al procesar tu mensaje. Por favor, intenta de nuevo.".

Section Agent.
Variable settings : Settings.

(** [str(uuid.uuid4())], as the [n]-th draw from the system's entropy. *)
Variable uuid4 : nat -> pystr.

(** [datetime.now().strftime("%Y-%m-%d")] *)
Variable current_date : pystr.

(** Python's [str(v)] on a value of the user context. *)
Variable py_str : json -> pystr.

(** The LLM with the tool catalog bound to it: given the agent input and the
    scratchpad of earlier invocations and results, one reasoning round. *)
Variable llm_plan : AgentInput -> list (ToolInvocation * pystr) -> AgentDecision.

(** Validated dispatch of an invocation into the tool catalog; it always
    yields text. *)
Variable execute_tool : ToolInvocation -> pystr.

(** What the executor returns when it stops at the iteration cap. *)
Variable stopped_response : json.

(** [ConversationSession.__init__] *)
Definition new_session (sid : pystr) (uid : option Z) : ConversationSession :=
  {| session_id := sid; user_id := uid; messages := []; metadata := [];
     memory := [] |}.

(** [ConversationSession.add_message] *)
Definition add_message (r : MessageRole) (text : pystr) (s : ConversationSession)
    : ConversationSession :=
  {| session_id := session_id s;
     user_id := user_id s;
     messages := messages s ++ [ {| role := r; content := text |} ];
     metadata := metadata s;
     memory := match r with
               | USER => WindowMemory.add_user_message text (memory s)
               | ASSISTANT => WindowMemory.add_ai_message text (memory s)
               | SYSTEM => memory s
               end |}.

(** [generate_session_id] (app/utils/helpers.py) *)
Definition generate_session_id (a : AgentService) : pystr * AgentService :=
  (uuid4 (uuids_drawn a),
   {| sessions := sessions a; uuids_drawn := S (uuids_drawn a) |}).

(** [x or generate_session_id()] for an optional string [x]. *)
Definition or_generate (sid : option pystr) (a : AgentService) : pystr * AgentService :=
  match sid with
  | Some (c :: r) => (c :: r, a)
  | _ => generate_session_id a
  end.

(** [AgentService.get_or_create_session]: the key under which the session
    object lives in the table (the returned object is that entry). *)
Definition get_or_create_session (sid : option pystr) (uid : option Z)
    (a : AgentService) : pystr * AgentService :=
  let '(sid', a1) := or_generate sid a in
  match sessions a1 !! sid' with
  | Some _ => (sid', a1)
  | None =>
    (sid', {| sessions := <[sid' := new_session sid' uid]> (sessions a1);
              uuids_drawn := uuids_drawn a1 |})
  end.

(** In-place mutation of the session object stored under [sid]. *)
Definition update_session (sid : pystr) (f : ConversationSession -> ConversationSession)
    (a : AgentService) : AgentService :=
  {| sessions := alter f sid (sessions a); uuids_drawn := uuids_drawn a |}.

(** [AgentService.get_session_history] *)
Definition get_session_history (sid : pystr) (a : AgentService) : list ChatMessage :=
  match sessions a !! sid with
  | Some s => messages s
  | None => []
  end.

(** [AgentService.clear_session] *)
Definition clear_session (sid : pystr) (a : AgentService) : AgentService :=
  {| sessions := delete sid (sessions a); uuids_drawn := uuids_drawn a |}.

(** [AgentService.get_active_sessions_count] *)
Definition get_active_sessions_count (a : AgentService) : nat := size (sessions a).

(** Modelled from the spec: the tool-calling loop of section 4.2. In the
    sources it is LangChain's [AgentExecutor], built by [_create_agent] with
    [max_iterations = AGENT_MAX_ITERATIONS]; the executor is not among the
    sources. Each round invokes the LLM once; a plain-text answer ends the
    loop, tool invocations are executed and folded into the scratchpad
    before the next round, a failing LLM call propagates, and when no round
    is left the executor returns [stopped_response]. The second component
    counts the LLM rounds performed. *)
Fixpoint agent_loop (rounds_left : nat) (inp : AgentInput)
    (scratchpad : list (ToolInvocation * pystr)) : outcome json * nat :=
  match rounds_left with
  | O => (Return stopped_response, O)
  | S n =>
    match llm_plan inp scratchpad with
    | Finish output => (Return (JObj [(u8 "output", JStr output)]), 1%nat)
    | LlmFailure e => (Raise e, 1%nat)
    | Actions calls =>
      let results := map (fun c => (c, execute_tool c)) calls in
      let '(r, k) := agent_loop n inp (scratchpad ++ results) in
      (r, S k)
    end
  end.

(** Whether the LLM asks for tools at every one of the next [rounds_left]
    rounds, so that the loop runs into the cap. *)
Fixpoint reaches_cap (rounds_left : nat) (inp : AgentInput)
    (scratchpad : list (ToolInvocation * pystr)) : bool :=
  match rounds_left with
  | O => true
  | S n =>
    match llm_plan inp scratchpad with
    | Actions calls =>
      reaches_cap n inp (scratchpad ++ map (fun c => (c, execute_tool c)) calls)
    | _ => false
    end
  end.

(** [self.agent.ainvoke(agent_input)] *)
Definition agent_ainvoke (inp : AgentInput) : outcome json * nat :=
  agent_loop (Z.to_nat (AGENT_MAX_ITERATIONS settings)) inp [].

(** The input line of [process_message], with the user id tag and the dump
    of the user context when they are given. *)
Definition input_message (message : pystr) (uid : option Z)
    (user_context : option (list (pystr * json))) : pystr :=
  let m1 := match uid with
            | Some n => if n =? 0 then message
                        else u8 "[ID Usuario: " ++ PyStr.of_Z n ++ u8 "]" ++ [10%N] ++ message
            | None => message
            end in
  match user_context with
  | Some (kv :: rest) =>
    let context_str :=
      PyStr.join [10%N]
        (map (fun '(k, v) => k ++ u8 ": " ++ py_str v) (kv :: rest)) in
    u8 "Contexto:" ++ [10%N] ++ context_str ++ [10%N; 10%N] ++ m1
  | _ => m1
  end.

(** The [agent_input] dictionary of [process_message], built once the user
    message is in the session stored under [key]. *)
Definition build_agent_input (message : pystr) (uid : option Z)
    (user_context : option (list (pystr * json))) (key : pystr) (a : AgentService)
    : AgentInput :=
  {| ai_input := input_message message uid user_context;
     ai_chat_history :=
       WindowMemory.load_memory_variables (CONVERSATION_HISTORY_LIMIT settings)
         (default [] (memory <$> sessions a !! key));
     ai_current_date := current_date |}.

(** [ChatMessage(role=role, content=v)]: [content] must be a [str]. *)
Definition as_content {pyd : PydanticLib} (v : json) : outcome pystr :=
  match v with
  | JStr s => Return s
  | _ => Raise (Exc ValidationError (validation_error_text v [u8 "content"]))
  end.

(** The [try] block of [process_message]: its result or exception, the
    number of LLM rounds it made, and the state it leaves. *)
Definition process_message_try {pyd : PydanticLib} (message : pystr)
    (sid : option pystr) (uid : option Z)
    (user_context : option (list (pystr * json))) (a : AgentService)
    : outcome ChatResult * nat * AgentService :=
  let '(key, a1) := get_or_create_session sid uid a in
  let a2 := update_session key (add_message USER message) a1 in
  let agent_input := build_agent_input message uid user_context key a2 in
  let '(response, rounds) := agent_ainvoke agent_input in
  match (r ← response;
         v ← Py.get_or r (u8 "output") (JStr respuesta_por_defecto);
         as_content v) with
  | Raise e => (Raise e, rounds, a2)
  | Return response_text =>
    let a3 := update_session key (add_message ASSISTANT response_text) a2 in
    (Return {| cr_message := response_text;
               cr_session_id := key;
               cr_metadata :=
                 [ (u8 "message_count",
                    JInt (Z.of_nat (length (get_session_history key a3))));
                   (u8 "user_id", PyOps.opt_int uid) ] |},
     rounds, a3)
  end.

(** [AgentService.process_message] *)
Definition process_message {pyd : PydanticLib} (message : pystr)
    (sid : option pystr) (uid : option Z)
    (user_context : option (list (pystr * json))) (a : AgentService)
    : outcome ChatResult * nat * AgentService :=
  match process_message_try message sid uid user_context a with
  | (Return result, rounds, a') => (Return result, rounds, a')
  | (Raise e, rounds, a') =>
    let '(sid', a'') := or_generate sid a' in
    (Return {| cr_message := disculpa;
               cr_session_id := sid';
               cr_metadata := [ (u8 "error", JStr (exc_str e)) ] |},
     rounds, a'')
  end.

End Agent.

(** ** app/utils/http_client.py *)

Record Request := {
  req_method : pystr;
  req_endpoint : pystr;
  req_json : option json;
  req_params : option (list (pystr * json))
}.

(** What [client.request] followed by [raise_for_status] and [response.json()]
    comes to. *)
Inductive HttpResult :=
| HttpOk (body : json)
| HTTPStatusError (status_code : Z) (text : pystr)
| RequestError (msg : pystr)
| UnexpectedError (e : exc).

Section Backend.
(** The remote backend behind [httpx]. *)
Variable transport : Request -> HttpResult.

(** [BackendClient._make_request] *)
Definition _make_request (method endpoint : pystr) (data : option json)
    (params : option (list (pystr * json))) : outcome json :=
  match transport {| req_method := method; req_endpoint := endpoint;
                     req_json := data; req_params := params |} with
  | HttpOk body => Return body
  | HTTPStatusError status _ =>
    Raise (Exc PlainException (u8 "Error del backend: " ++ PyStr.of_Z status))
  | RequestError msg =>
    Raise (Exc PlainException (u8 "Error de conexión con el backend: " ++ msg))
  | UnexpectedError e => Raise e
  end.

Definition filter_param (k : pystr) (v : option pystr) : list (pystr * json) :=
  match v with
  | Some (c :: r) => [(k, JStr (c :: r))]
  | _ => []
  end.

Definition get_paciente (paciente_id : Z) : outcome json :=
  _make_request (u8 "GET") (u8 "/api/internal/pacientes/" ++ PyStr.of_Z paciente_id)
    None None.

Definition get_pacientes (limit : Z) (search : option pystr) : outcome json :=
  _make_request (u8 "GET") (u8 "/api/internal/pacientes") None
    (Some ((u8 "limit", JInt limit) :: filter_param (u8 "search") search)).

Definition buscar_paciente_por_dni (dni : pystr) : outcome json :=
  _make_request (u8 "GET") (u8 "/api/internal/pacientes/dni/" ++ dni) None None.

Definition get_citas_paciente (paciente_id : Z) (estado : option pystr) : outcome json :=
  _make_request (u8 "GET")
    (u8 "/api/internal/pacientes/" ++ PyStr.of_Z paciente_id ++ u8 "/citas") None
    (Some (filter_param (u8 "estado") estado)).

Definition get_citas_medico (medico_id : Z) (fecha : option pystr) : outcome json :=
  _make_request (u8 "GET")
    (u8 "/api/internal/medicos/" ++ PyStr.of_Z medico_id ++ u8 "/citas") None
    (Some (filter_param (u8 "fecha") fecha)).

Definition get_disponibilidad_medico (medico_id : Z) (fecha : pystr) : outcome json :=
  _make_request (u8 "GET")
    (u8 "/api/internal/medicos/" ++ PyStr.of_Z medico_id ++ u8 "/disponibilidad") None
    (Some [(u8 "fecha", JStr fecha)]).

Definition get_historial_resumen (paciente_id : Z) : outcome json :=
  _make_request (u8 "GET")
    (u8 "/api/internal/pacientes/" ++ PyStr.of_Z paciente_id ++ u8 "/historial-resumen")
    None None.

Definition get_medico (medico_id : Z) : outcome json :=
  _make_request (u8 "GET") (u8 "/api/internal/medicos/" ++ PyStr.of_Z medico_id)
    None None.

Definition get_medicos (especialidad : option pystr) : outcome json :=
  _make_request (u8 "GET") (u8 "/api/internal/medicos") None
    (Some (filter_param (u8 "especialidad") especialidad)).

Definition determinar_tipo_usuario (id_usuario : Z) : outcome json :=
  _make_request (u8 "GET")
    (u8 "/api/internal/agendamiento/tipo-usuario/" ++ PyStr.of_Z id_usuario) None None.

Definition sugerir_horarios (id_medico : Z) (fecha_inicio : pystr)
    (fecha_fin : option pystr) (duracion_minutos limite : option Z) : outcome json :=
  _make_request (u8 "POST") (u8 "/api/internal/agendamiento/sugerir-horarios")
    (Some (JObj [ (u8 "id_medico", JInt id_medico);
                  (u8 "fecha_inicio", JStr fecha_inicio);
                  (u8 "fecha_fin", PyOps.opt_str fecha_fin);
                  (u8 "duracion_minutos", PyOps.opt_int duracion_minutos);
                  (u8 "limite", PyOps.opt_int limite) ]))
    None.

Definition registrar_cita (id_usuario id_medico : Z)
    (fecha_hora_inicio fecha_hora_fin : pystr)
    (motivo tipo_cita notas : option pystr) : outcome json :=
  _make_request (u8 "POST") (u8 "/api/internal/agendamiento/registrar-cita")
    (Some (JObj [ (u8 "id_usuario", JInt id_usuario);
                  (u8 "id_medico", JInt id_medico);
                  (u8 "fecha_hora_inicio", JStr fecha_hora_inicio);
                  (u8 "fecha_hora_fin", JStr fecha_hora_fin);
                  (u8 "motivo", PyOps.opt_str motivo);
                  (u8 "tipo_cita", PyOps.opt_str tipo_cita);
                  (u8 "notas", PyOps.opt_str notas) ]))
    None.

Definition confirmar_cita (id_cita : Z) : outcome json :=
  _make_request (u8 "PATCH")
    (u8 "/api/internal/agendamiento/confirmar-cita/" ++ PyStr.of_Z id_cita) None None.

Definition registrar_interaccion (id_usuario : Z)
    (tipo_intencion entrada_usuario respuesta_ia estado_resultado : option pystr)
    (contexto : option json) : outcome json :=
  _make_request (u8 "POST") (u8 "/api/internal/interacciones")
    (Some (JObj [ (u8 "id_usuario", JInt id_usuario);
                  (u8 "tipo_intencion", PyOps.opt_str tipo_intencion);
                  (u8 "entrada_usuario", PyOps.opt_str entrada_usuario);
                  (u8 "respuesta_ia", PyOps.opt_str respuesta_ia);
                  (u8 "estado_resultado", PyOps.opt_str estado_resultado);
                  (u8 "contexto", PyOps.opt_json contexto) ]))
    None.

End Backend.

(** ** app/tools/backend_tools.py *)

Section Tools.
Variable transport : Request -> HttpResult.

(** Python's [str(v)], as an f-string applies it to an interpolated value. *)
Variable py_str : json -> pystr.

(** [s.upper()] *)
Variable str_upper : pystr -> pystr.

Definition sp (n : nat) : pystr := repeat 32%N n.

(** [{v.get(k, dflt)}] inside an f-string. *)
Definition getf (v : json) (k : pystr) (dflt : json) : outcome pystr :=
  x ← Py.get_or v k dflt; Return (py_str x).

(** [{v[k]}] inside an f-string. *)
Definition itemf (v : json) (k : pystr) : outcome pystr :=
  x ← Py.getitem v k; Return (py_str x).

(** [v.upper()] *)
Definition upper (v : json) : outcome pystr :=
  match v with
  | JStr s => Return (str_upper s)
  | _ => Raise (Py.no_attribute v (u8 "upper"))
  end.

(** [result.get("success") and result.get("data")], as a condition. *)
Definition success_and_data (result : json) : outcome bool :=
  s ← Py.get result (u8 "success");
  if Py.truthy s then d ← Py.get result (u8 "data"); Return (Py.truthy d)
  else Return false.

(** [f"❌ {result.get('message', dflt)}"] and its warning variant. *)
Definition message_or (prefix : pystr) (result : json) (dflt : pystr) : outcome pystr :=
  m ← getf result (u8 "message") (JStr dflt); Return (prefix ++ m).

(** [try: body  except Exception as e: return prefix + str(e)] *)
Definition guarded (prefix : pystr) (body : outcome pystr) : outcome pystr :=
  try_clauses body [ (is_Exception, fun e => Return (prefix ++ exc_str e)) ].

(** *** BuscarPacienteTool *)

Definition formato_paciente (paciente : json) : outcome pystr :=
  nombres ← getf paciente (u8 "nombres") (JStr []);
  apellidos ← getf paciente (u8 "apellidos") (JStr []);
  dni ← getf paciente (u8 "dni") (JStr (u8 "No registrado"));
  edad ← getf paciente (u8 "edad") (JStr (u8 "No disponible"));
  telefono ← getf paciente (u8 "telefono") (JStr (u8 "No registrado"));
  alergias ← getf paciente (u8 "alergias") (JStr (u8 "Ninguna registrada"));
  grupo ← getf paciente (u8 "grupo_sanguineo") (JStr (u8 "No registrado"));
  Return (PyOps.strip (u8 "
✅ Paciente encontrado:
- Nombre: " ++ nombres ++ u8 " " ++ apellidos ++ u8 "
- DNI: " ++ dni ++ u8 "
- Edad: " ++ edad ++ u8 " años
- Teléfono: " ++ telefono ++ u8 "
- Alergias: " ++ alergias ++ u8 "
- Grupo sanguíneo: " ++ grupo ++ u8 "
" ++ sp 16)).

Definition buscar_paciente_body (dni : option pystr) (paciente_id : option Z)
    (nombre : option pystr) : outcome pystr :=
  let request :=
    if PyOps.some_int paciente_id
    then Some (get_paciente transport (default 0 paciente_id))
    else if PyOps.some_str dni
    then Some (buscar_paciente_por_dni transport (default [] dni))
    else if PyOps.some_str nombre
    then Some (get_pacientes transport 5 nombre)
    else None in
  match request with
  | None =>
    Return (u8 "❌ Debes proporcionar al menos un criterio de búsqueda (DNI, ID o nombre)")
  | Some call =>
    result ← call;
    ok ← success_and_data result;
    if (ok : bool) then
      paciente ← Py.getitem result (u8 "data");
      match paciente with
      | JArr [] => Return (u8 "❌ No se encontró ningún paciente con ese criterio")
      | JArr (primero :: _) => formato_paciente primero
      | _ => formato_paciente paciente
      end
    else Return (u8 "❌ No se encontró el paciente solicitado")
  end.

Definition BuscarPacienteTool_arun (dni : option pystr) (paciente_id : option Z)
    (nombre : option pystr) : outcome pystr :=
  guarded (u8 "❌ Error al buscar paciente: ") (buscar_paciente_body dni paciente_id nombre).

(** *** ConsultarCitasTool *)

Definition formato_cita (i : Z) (cita : json) : outcome pystr :=
  id_cita ← (x ← Py.get cita (u8 "id_cita"); Return (py_str x));
  fecha ← getf cita (u8 "fecha_hora_inicio") (JStr (u8 "No disponible"));
  nombres ← (m ← Py.get_or cita (u8 "medico") (JObj []); getf m (u8 "nombres") (JStr []));
  apellidos ← (m ← Py.get_or cita (u8 "medico") (JObj []); getf m (u8 "apellidos") (JStr []));
  motivo ← getf cita (u8 "motivo") (JStr (u8 "No especificado"));
  estado ← (e ← Py.get_or cita (u8 "estado") (JStr (u8 "pendiente")); upper e);
  Return (u8 "
" ++ PyStr.of_Z i ++ u8 ". Cita #" ++ id_cita ++ u8 "
   - Fecha: " ++ fecha ++ u8 "
   - Médico: Dr(a). " ++ nombres ++ u8 " " ++ apellidos ++ u8 "
   - Motivo: " ++ motivo ++ u8 "
   - Estado: " ++ estado ++ u8 "
" ++ sp 20).

Definition consultar_citas_body (paciente_id medico_id : option Z)
    (estado : option pystr) : outcome pystr :=
  let request :=
    if PyOps.some_int paciente_id
    then Some (get_citas_paciente transport (default 0 paciente_id) estado)
    else if PyOps.some_int medico_id
    then Some (get_citas_medico transport (default 0 medico_id) None)
    else None in
  match request with
  | None => Return (u8 "❌ Debes proporcionar al menos un ID de paciente o médico")
  | Some call =>
    result ← call;
    ok ← success_and_data result;
    if (ok : bool) then
      citas ← Py.getitem result (u8 "data");
      vacio ← (if negb (Py.truthy citas) then Return true
               else n ← PyOps.len citas; Return (n =? 0));
      if (vacio : bool) then Return (u8 "ℹ️ No hay citas registradas con esos criterios")
      else
        n ← PyOps.len citas;
        primeras ← PyOps.slice_to 5 citas;
        items ← PyOps.iter primeras;
        info ← PyOps.accumulate formato_cita 1 items
                 (u8 "✅ Se encontraron " ++ PyStr.of_Z n ++ u8 " citas:" ++ [10%N; 10%N]);
        n' ← PyOps.len citas;
        let info' :=
          if 5 <? n' then info ++ [10%N] ++ u8 "... y " ++ PyStr.of_Z (n' - 5) ++ u8 " citas más"
          else info in
        Return (PyOps.strip info')
    else Return (u8 "ℹ️ No se encontraron citas")
  end.

Definition ConsultarCitasTool_arun (paciente_id medico_id : option Z)
    (estado : option pystr) : outcome pystr :=
  guarded (u8 "❌ Error al consultar citas: ") (consultar_citas_body paciente_id medico_id estado).

(** *** ConsultarHistorialTool *)

Definition consultar_historial_body (paciente_id : Z) : outcome pystr :=
  result ← get_historial_resumen transport paciente_id;
  ok ← success_and_data result;
  if (ok : bool) then
    historial ← Py.getitem result (u8 "data");
    total ← getf historial (u8 "total_consultas") (JInt 0);
    ultima ← getf historial (u8 "ultima_consulta") (JStr (u8 "No disponible"));
    activos ← getf historial (u8 "tratamientos_activos") (JInt 0);
    alergias ← getf historial (u8 "alergias") (JStr (u8 "Ninguna"));
    diagnosticos ← getf historial (u8 "diagnosticos_recientes")
                     (JStr (u8 "No hay diagnósticos recientes"));
    notas ← getf historial (u8 "notas_importantes") (JStr (u8 "Sin notas especiales"));
    Return (PyOps.strip (u8 "
✅ Resumen del Historial Clínico:
- Total de consultas: " ++ total ++ u8 "
- Última consulta: " ++ ultima ++ u8 "
- Tratamientos activos: " ++ activos ++ u8 "
- Alergias conocidas: " ++ alergias ++ u8 "

Diagnósticos recientes:
" ++ diagnosticos ++ u8 "

Notas importantes:
" ++ notas ++ u8 "
" ++ sp 16))
  else Return (u8 "ℹ️ No hay historial clínico registrado para este paciente").

Definition ConsultarHistorialTool_arun (paciente_id : Z) : outcome pystr :=
  guarded (u8 "❌ Error al consultar historial: ") (consultar_historial_body paciente_id).

(** *** ConsultarDisponibilidadTool *)

Definition consultar_disponibilidad_body (medico_id : Z) (fecha : pystr) : outcome pystr :=
  result ← get_disponibilidad_medico transport medico_id fecha;
  ok ← success_and_data result;
  if (ok : bool) then
    disponibilidad ← Py.getitem result (u8 "data");
    horarios ← Py.get_or disponibilidad (u8 "horarios_disponibles") (JArr []);
    if negb (Py.truthy horarios)
    then Return (u8 "ℹ️ No hay horarios disponibles para el " ++ fecha)
    else
      items ← PyOps.iter horarios;
      info ← PyOps.accumulate
               (fun _ horario => Return (u8 "- " ++ py_str horario ++ [10%N])) 1 items
               (u8 "✅ Horarios disponibles para el " ++ fecha ++ u8 ":" ++ [10%N; 10%N]);
      Return (PyOps.strip info)
  else Return (u8 "ℹ️ No hay disponibilidad para el " ++ fecha).

Definition ConsultarDisponibilidadTool_arun (medico_id : Z) (fecha : pystr)
    : outcome pystr :=
  guarded (u8 "❌ Error al consultar disponibilidad: ")
    (consultar_disponibilidad_body medico_id fecha).

(** *** ListarMedicosTool *)

Definition formato_medico (i : Z) (medico : json) : outcome pystr :=
  nombres ← getf medico (u8 "nombres") (JStr []);
  apellidos ← getf medico (u8 "apellidos") (JStr []);
  especialidad ← getf medico (u8 "especialidad") (JStr (u8 "General"));
  colegiatura ← getf medico (u8 "colegiatura") (JStr (u8 "No disponible"));
  Return (u8 "
" ++ PyStr.of_Z i ++ u8 ". Dr(a). " ++ nombres ++ u8 " " ++ apellidos ++ u8 "
   - Especialidad: " ++ especialidad ++ u8 "
   - Colegiatura: " ++ colegiatura ++ u8 "
" ++ sp 20).

Definition listar_medicos_body (especialidad : option pystr) : outcome pystr :=
  result ← get_medicos transport especialidad;
  ok ← success_and_data result;
  if (ok : bool) then
    medicos ← Py.getitem result (u8 "data");
    vacio ← (if negb (Py.truthy medicos) then Return true
             else n ← PyOps.len medicos; Return (n =? 0));
    if (vacio : bool) then Return (u8 "ℹ️ No hay médicos registrados")
    else
      n ← PyOps.len medicos;
      items ← PyOps.iter medicos;
      info ← PyOps.accumulate formato_medico 1 items
               (u8 "✅ Médicos disponibles (" ++ PyStr.of_Z n ++ u8 "):" ++ [10%N; 10%N]);
      Return (PyOps.strip info)
  else Return (u8 "ℹ️ No se encontraron médicos").

Definition ListarMedicosTool_arun (especialidad : option pystr) : outcome pystr :=
  guarded (u8 "❌ Error al listar médicos: ") (listar_medicos_body especialidad).

(** *** ValidarMedicoTool *)

Definition validar_medico_body (id_medico : Z) : outcome pystr :=
  result ← get_medico transport id_medico;
  ok ← success_and_data result;
  if (ok : bool) then
    medico ← Py.getitem result (u8 "data");
    ident ← (x ← Py.get medico (u8 "id_medico"); Return (py_str x));
    nombres ← getf medico (u8 "nombres") (JStr []);
    apellidos ← getf medico (u8 "apellidos") (JStr []);
    especialidad ← getf medico (u8 "especialidad") (JStr (u8 "General"));
    colegiatura ← getf medico (u8 "colegiatura") (JStr (u8 "No disponible"));
    Return (u8 "✅ Médico válido:
- ID: " ++ ident ++ u8 "
- Nombre: Dr(a). " ++ nombres ++ u8 " " ++ apellidos ++ u8 "
- Especialidad: " ++ especialidad ++ u8 "
- Colegiatura: " ++ colegiatura ++ u8 "

Este médico puede ser usado para agendar citas.")
  else
    Return (u8 "❌ Médico con ID " ++ PyStr.of_Z id_medico
            ++ u8 " no existe o no está disponible. Usa listar_medicos para ver médicos válidos.").

Definition ValidarMedicoTool_arun (id_medico : Z) : outcome pystr :=
  guarded (u8 "❌ Error al validar médico: ") (validar_medico_body id_medico).

(** *** DeterminarTipoUsuarioTool *)

Definition determinar_tipo_usuario_body (id_usuario : Z) : outcome pystr :=
  result ← determinar_tipo_usuario transport id_usuario;
  ok ← success_and_data result;
  if (ok : bool) then
    data ← Py.getitem result (u8 "data");
    activo ← Py.getitem data (u8 "es_paciente_activo");
    if Py.truthy activo then
      nombre ← itemf data (u8 "nombre_completo");
      let msg := u8 "✅ Usuario es PACIENTE ACTIVO: " ++ nombre in
      ultimo ← Py.get data (u8 "ultimo_medico");
      if Py.truthy ultimo then
        medico ← Py.getitem data (u8 "ultimo_medico");
        nombres ← itemf medico (u8 "nombres");
        apellidos ← itemf medico (u8 "apellidos");
        especialidad ← itemf medico (u8 "especialidad");
        Return (msg ++ [10%N] ++ u8 "👨‍⚕️ Último médico: Dr. " ++ nombres ++ u8 " "
                ++ apellidos ++ u8 " (" ++ especialidad ++ u8 ")")
      else Return msg
    else
      nombre ← itemf data (u8 "nombre_completo");
      Return (u8 "🆕 Usuario es EXTERNO (primera vez): " ++ nombre ++ [10%N]
              ++ u8 "💡 Debe asignarse médico de cabecera")
  else message_or (u8 "❌ ") result (u8 "Error al determinar tipo de usuario").

Definition DeterminarTipoUsuarioTool_arun (id_usuario : Z) : outcome pystr :=
  guarded (u8 "❌ Error: ") (determinar_tipo_usuario_body id_usuario).

(** *** SugerirHorariosTool *)

Definition formato_horario (i : Z) (h : json) : outcome pystr :=
  dia ← itemf h (u8 "dia_semana");
  fecha ← itemf h (u8 "fecha");
  hora ← itemf h (u8 "hora");
  Return (PyStr.of_Z i ++ u8 ". " ++ dia ++ u8 " " ++ fecha ++ u8 " a las " ++ hora
          ++ [10%N]).

Definition sugerir_horarios_body (id_medico : Z) (fecha_inicio : pystr)
    (fecha_fin : option pystr) (duracion_minutos limite : option Z) : outcome pystr :=
  result ← sugerir_horarios transport id_medico fecha_inicio fecha_fin
             duracion_minutos limite;
  ok ← success_and_data result;
  if (ok : bool) then
    horarios ← Py.getitem result (u8 "data");
    n ← PyOps.len horarios;
    if n =? 0
    then Return (u8 "❌ No hay horarios disponibles en el rango de fechas especificado")
    else
      n' ← PyOps.len horarios;
      items ← PyOps.iter horarios;
      msg ← PyOps.accumulate formato_horario 1 items
              (u8 "📅 Horarios disponibles encontrados (" ++ PyStr.of_Z n' ++ u8 "):"
               ++ [10%N; 10%N]);
      Return (msg ++ [10%N] ++ u8 "💡 El usuario puede elegir uno de estos horarios")
  else message_or (u8 "❌ ") result (u8 "Error al sugerir horarios").

Definition SugerirHorariosTool_arun (id_medico : Z) (fecha_inicio : pystr)
    (fecha_fin : option pystr) (duracion_minutos limite : option Z) : outcome pystr :=
  guarded (u8 "❌ Error: ")
    (sugerir_horarios_body id_medico fecha_inicio fecha_fin duracion_minutos limite).

(** *** RegistrarCitaTool *)

Definition registrar_cita_body (id_usuario id_medico : Z)
    (fecha_hora_inicio fecha_hora_fin : pystr)
    (motivo tipo_cita notas : option pystr) : outcome pystr :=
  result ← registrar_cita transport id_usuario id_medico fecha_hora_inicio
             fecha_hora_fin motivo tipo_cita notas;
  ok ← success_and_data result;
  if (ok : bool) then
    data ← Py.getitem result (u8 "data");
    id_cita ← itemf data (u8 "id_cita");
    inicio ← itemf data (u8 "fecha_hora_inicio");
    estado ← (e ← Py.getitem data (u8 "estado"); upper e);
    motivo' ← itemf data (u8 "motivo");
    Return (u8 "✅ Cita registrada exitosamente:

📋 ID Cita: " ++ id_cita ++ u8 "
📅 Fecha/Hora: " ++ inicio ++ u8 "
⏳ Estado: " ++ estado ++ u8 " (pendiente de confirmación)
📝 Motivo: " ++ motivo' ++ u8 "

💡 La cita está en estado PENDIENTE. El usuario debe confirmarla más adelante.")
  else message_or (u8 "❌ ") result (u8 "Error al registrar cita").

Definition RegistrarCitaTool_arun (id_usuario id_medico : Z)
    (fecha_hora_inicio fecha_hora_fin : pystr)
    (motivo tipo_cita notas : option pystr) : outcome pystr :=
  guarded (u8 "❌ Error: ")
    (registrar_cita_body id_usuario id_medico fecha_hora_inicio fecha_hora_fin
       motivo tipo_cita notas).

(** *** ConfirmarCitaTool *)

Definition confirmar_cita_body (id_cita : Z) : outcome pystr :=
  result ← confirmar_cita transport id_cita;
  ok ← success_and_data result;
  if (ok : bool) then
    data ← Py.getitem result (u8 "data");
    ident ← itemf data (u8 "id_cita");
    estado ← (e ← Py.getitem data (u8 "estado"); upper e);
    inicio ← itemf data (u8 "fecha_hora_inicio");
    Return (u8 "✅ Cita confirmada exitosamente:

📋 ID Cita: " ++ ident ++ u8 "
✅ Estado: " ++ estado ++ u8 "
📅 Fecha/Hora: " ++ inicio ++ u8 "

🔔 Recibirás un recordatorio antes de tu cita.")
  else message_or (u8 "❌ ") result (u8 "Error al confirmar cita").

Definition ConfirmarCitaTool_arun (id_cita : Z) : outcome pystr :=
  guarded (u8 "❌ Error: ") (confirmar_cita_body id_cita).

(** *** RegistrarInteraccionTool *)

Definition registrar_interaccion_body (id_usuario : Z)
    (tipo_intencion entrada_usuario respuesta_ia estado_resultado : option pystr)
    (contexto : option json) : outcome pystr :=
  result ← registrar_interaccion transport id_usuario tipo_intencion entrada_usuario
             respuesta_ia estado_resultado contexto;
  exito ← Py.get result (u8 "success");
  if Py.truthy exito then
    data ← Py.getitem result (u8 "data");
    ident ← itemf data (u8 "id_interaccion");
    Return (u8 "✅ Interacción registrada (ID: " ++ ident ++ u8 ")")
  else message_or (u8 "⚠️ ") result (u8 "Error al registrar interacción").

Definition RegistrarInteraccionTool_arun (id_usuario : Z)
    (tipo_intencion entrada_usuario respuesta_ia estado_resultado : option pystr)
    (contexto : option json) : outcome pystr :=
  guarded (u8 "⚠️ Error: ")
    (registrar_interaccion_body id_usuario tipo_intencion entrada_usuario respuesta_ia
       estado_resultado contexto).

End Tools.

(** *** The catalog *)

(** A tool of the catalog together with arguments that passed its input
    schema. *)
Inductive ToolCall :=
| BuscarPaciente (dni : option pystr) (paciente_id : option Z) (nombre : option pystr)
| ConsultarCitas (paciente_id medico_id : option Z) (estado : option pystr)
| ConsultarHistorial (paciente_id : Z)
| ConsultarDisponibilidad (medico_id : Z) (fecha : pystr)
| ListarMedicos (especialidad : option pystr)
| ValidarMedico (id_medico : Z)
| DeterminarTipoUsuario (id_usuario : Z)
| SugerirHorarios (id_medico : Z) (fecha_inicio : pystr) (fecha_fin : option pystr)
    (duracion_minutos limite : option Z)
| RegistrarCita (id_usuario id_medico : Z) (fecha_hora_inicio fecha_hora_fin : pystr)
    (motivo tipo_cita notas : option pystr)
| ConfirmarCita (id_cita : Z)
| RegistrarInteraccion (id_usuario : Z)
    (tipo_intencion entrada_usuario respuesta_ia estado_resultado : option pystr)
    (contexto : option json).

(** The [name] attribute of the tool class. *)
Definition tool_name (c : ToolCall) : pystr :=
  match c with
  | BuscarPaciente _ _ _ => u8 "buscar_paciente"
  | ConsultarCitas _ _ _ => u8 "consultar_citas"
  | ConsultarHistorial _ => u8 "consultar_historial_clinico"
  | ConsultarDisponibilidad _ _ => u8 "consultar_disponibilidad_medico"
  | ListarMedicos _ => u8 "listar_medicos"
  | ValidarMedico _ => u8 "validar_medico"
  | DeterminarTipoUsuario _ => u8 "determinar_tipo_usuario"
  | SugerirHorarios _ _ _ _ _ => u8 "sugerir_horarios_alternativos"
  | RegistrarCita _ _ _ _ _ _ _ => u8 "registrar_cita"
  | ConfirmarCita _ => u8 "confirmar_cita"
  | RegistrarInteraccion _ _ _ _ _ _ => u8 "registrar_interaccion_ia"
  end.

(** [get_all_tools], by tool name. *)
Definition get_all_tools : list pystr :=
  [ u8 "buscar_paciente"; u8 "consultar_citas"; u8 "consultar_historial_clinico";
    u8 "consultar_disponibilidad_medico"; u8 "listar_medicos"; u8 "validar_medico";
    u8 "determinar_tipo_usuario"; u8 "sugerir_horarios_alternativos";
    u8 "registrar_cita"; u8 "confirmar_cita"; u8 "registrar_interaccion_ia" ].

Section Catalog.
Variable transport : Request -> HttpResult.
Variable py_str : json -> pystr.
Variable str_upper : pystr -> pystr.

(** The [try] block of the tool's [_arun]. *)
Definition tool_body (c : ToolCall) : outcome pystr :=
  match c with
  | BuscarPaciente dni pid nombre => buscar_paciente_body transport py_str dni pid nombre
  | ConsultarCitas pid mid estado =>
    consultar_citas_body transport py_str str_upper pid mid estado
  | ConsultarHistorial pid => consultar_historial_body transport py_str pid
  | ConsultarDisponibilidad mid fecha =>
    consultar_disponibilidad_body transport py_str mid fecha
  | ListarMedicos esp => listar_medicos_body transport py_str esp
  | ValidarMedico mid => validar_medico_body transport py_str mid
  | DeterminarTipoUsuario uid => determinar_tipo_usuario_body transport py_str uid
  | SugerirHorarios mid ini fin dur lim =>
    sugerir_horarios_body transport py_str mid ini fin dur lim
  | RegistrarCita uid mid ini fin motivo tipo notas =>
    registrar_cita_body transport py_str str_upper uid mid ini fin motivo tipo notas
  | ConfirmarCita cid => confirmar_cita_body transport py_str str_upper cid
  | RegistrarInteraccion uid ti eu ri er ctx =>
    registrar_interaccion_body transport py_str uid ti eu ri er ctx
  end.

(** The text that the [except Exception] clause of the tool puts before
    [str(e)]. *)
Definition error_prefix (c : ToolCall) : pystr :=
  match c with
  | BuscarPaciente _ _ _ => u8 "❌ Error al buscar paciente: "
  | ConsultarCitas _ _ _ => u8 "❌ Error al consultar citas: "
  | ConsultarHistorial _ => u8 "❌ Error al consultar historial: "
  | ConsultarDisponibilidad _ _ => u8 "❌ Error al consultar disponibilidad: "
  | ListarMedicos _ => u8 "❌ Error al listar médicos: "
  | ValidarMedico _ => u8 "❌ Error al validar médico: "
  | DeterminarTipoUsuario _ => u8 "❌ Error: "
  | SugerirHorarios _ _ _ _ _ => u8 "❌ Error: "
  | RegistrarCita _ _ _ _ _ _ _ => u8 "❌ Error: "
  | ConfirmarCita _ => u8 "❌ Error: "
  | RegistrarInteraccion _ _ _ _ _ _ => u8 "⚠️ Error: "
  end.

(** The tool's [_arun]. *)
Definition arun (c : ToolCall) : outcome pystr :=
  match c with
  | BuscarPaciente dni pid nombre =>
    BuscarPacienteTool_arun transport py_str dni pid nombre
  | ConsultarCitas pid mid estado =>
    ConsultarCitasTool_arun transport py_str str_upper pid mid estado
  | ConsultarHistorial pid => ConsultarHistorialTool_arun transport py_str pid
  | ConsultarDisponibilidad mid fecha =>
    ConsultarDisponibilidadTool_arun transport py_str mid fecha
  | ListarMedicos esp => ListarMedicosTool_arun transport py_str esp
  | ValidarMedico mid => ValidarMedicoTool_arun transport py_str mid
  | DeterminarTipoUsuario uid => DeterminarTipoUsuarioTool_arun transport py_str uid
  | SugerirHorarios mid ini fin dur lim =>
    SugerirHorariosTool_arun transport py_str mid ini fin dur lim
  | RegistrarCita uid mid ini fin motivo tipo notas =>
    RegistrarCitaTool_arun transport py_str str_upper uid mid ini fin motivo tipo notas
  | ConfirmarCita cid => ConfirmarCitaTool_arun transport py_str str_upper cid
  | RegistrarInteraccion uid ti eu ri er ctx =>
    RegistrarInteraccionTool_arun transport py_str uid ti eu ri er ctx
  end.

End Catalog.

(** ** A reference JSON codec

    A decoder and an encoder for JSON text (numbers without exponent), with
    the escapes of [json.dumps] in its default [ensure_ascii] mode. It is the
    instance of [JsonCodec] on which the model is run on concrete inputs. *)

Module MiniJson.

Fixpoint strip_prefix (p s : pystr) : option pystr :=
  match p, s with
  | [], _ => Some s
  | a :: p', b :: s' => if (a =? b)%N then strip_prefix p' s' else None
  | _ :: _, [] => None
  end.

Definition is_ws (c : N) : bool := ((c =? 32) || (c =? 9) || (c =? 10) || (c =? 13))%N.

Fixpoint skip_ws (s : pystr) : pystr :=
  match s with
  | c :: r => if is_ws c then skip_ws r else s
  | [] => []
  end.

Definition hex_digit (c : N) : option N :=
  if ((48 <=? c) && (c <=? 57))%N then Some (c - 48)%N
  else if ((97 <=? c) && (c <=? 102))%N then Some (c - 87)%N
  else if ((65 <=? c) && (c <=? 70))%N then Some (c - 55)%N
  else None.

Definition hex4 (a b c d : N) : option N :=
  x ← hex_digit a; y ← hex_digit b; z ← hex_digit c; w ← hex_digit d;
  Some (x * 4096 + y * 256 + z * 16 + w)%N.

Definition simple_escape (c : N) : option N :=
  if (c =? 34)%N then Some 34%N
  else if (c =? 92)%N then Some 92%N
  else if (c =? 47)%N then Some 47%N
  else if (c =? 98)%N then Some 8%N
  else if (c =? 102)%N then Some 12%N
  else if (c =? 110)%N then Some 10%N
  else if (c =? 114)%N then Some 13%N
  else if (c =? 116)%N then Some 9%N
  else None.

(** The text after an opening quote, up to the closing one. *)
Fixpoint parse_string (s : pystr) : option (pystr * pystr) :=
  match s with
  | [] => None
  | c :: r =>
    if (c =? 34)%N then Some ([], r)
    else if (c =? 92)%N then
      match r with
      | e :: r1 =>
        if (e =? 117)%N then
          match r1 with
          | a :: b :: c' :: d :: r2 =>
            hi ← hex4 a b c' d;
            match r2 with
            | 92%N :: 117%N :: a2 :: b2 :: c2 :: d2 :: r3 =>
              match hex4 a2 b2 c2 d2 with
              | Some lo =>
                if ((55296 <=? hi) && (hi <? 56320) && (56320 <=? lo) && (lo <? 57344))%N
                then '(t, rest) ← parse_string r3;
                     Some ((65536 + (hi - 55296) * 1024 + (lo - 56320))%N :: t, rest)
                else '(t, rest) ← parse_string r2; Some (hi :: t, rest)
              | None => None
              end
            | _ => '(t, rest) ← parse_string r2; Some (hi :: t, rest)
            end
          | _ => None
          end
        else
          x ← simple_escape e;
          '(t, rest) ← parse_string r1;
          Some (x :: t, rest)
      | [] => None
      end
    else if (c <? 32)%N then None
    else '(t, rest) ← parse_string r; Some (c :: t, rest)
  end.

Definition is_digit (c : N) : bool := ((48 <=? c) && (c <=? 57))%N.

(** Leading decimal digits: their value, how many there are, and the rest. *)
Fixpoint parse_digits (s : pystr) (acc : N) (count : nat) : N * nat * pystr :=
  match s with
  | c :: r => if is_digit c then parse_digits r (acc * 10 + (c - 48))%N (S count)
              else (acc, count, s)
  | [] => (acc, count, [])
  end.

Definition parse_number (s : pystr) : option (json * pystr) :=
  let '(neg, s1) := match s with
                    | 45%N :: r => (true, r)
                    | _ => (false, s)
                    end in
  let '(n, k, s2) := parse_digits s1 0%N O in
  let sign (z : Z) := if (neg : bool) then - z else z in
  if Nat.eqb k 0 then None
  else
    match s2 with
    | 46%N :: r =>
      let '(f, j, s3) := parse_digits r 0%N O in
      if Nat.eqb j 0 then None
      else
        let scale := (10 ^ N.of_nat j)%N in
        Some (JFloat (Qred (sign (Z.of_N (n * scale + f)) # N.succ_pos (N.pred scale))),
              s3)
    | _ => Some (JInt (sign (Z.of_N n)), s2)
    end.

Section Containers.
Variable parse_value : pystr -> option (json * pystr).

Fixpoint parse_elements (fuel : nat) (s : pystr) : option (list json * pystr) :=
  match fuel with
  | O => None
  | S f =>
    '(v, r) ← parse_value s;
    match skip_ws r with
    | 44%N :: r' => '(vs, rest) ← parse_elements f r'; Some (v :: vs, rest)
    | 93%N :: r' => Some ([v], r')
    | _ => None
    end
  end.

Fixpoint parse_members (fuel : nat) (s : pystr) : option (list (pystr * json) * pystr) :=
  match fuel with
  | O => None
  | S f =>
    match skip_ws s with
    | 34%N :: r =>
      '(k, r1) ← parse_string r;
      match skip_ws r1 with
      | 58%N :: r2 =>
        '(v, r3) ← parse_value r2;
        match skip_ws r3 with
        | 44%N :: r' => '(kvs, rest) ← parse_members f r'; Some ((k, v) :: kvs, rest)
        | 125%N :: r' => Some ([(k, v)], r')
        | _ => None
        end
      | _ => None
      end
    | _ => None
    end
  end.
End Containers.

Fixpoint parse_value (fuel : nat) (s : pystr) : option (json * pystr) :=
  match fuel with
  | O => None
  | S f =>
    match skip_ws s with
    | [] => None
    | c :: r =>
      if (c =? 34)%N then '(t, rest) ← parse_string r; Some (JStr t, rest)
      else if (c =? 91)%N then
        match skip_ws r with
        | 93%N :: r' => Some (JArr [], r')
        | _ => '(vs, rest) ← parse_elements (parse_value f) f r; Some (JArr vs, rest)
        end
      else if (c =? 123)%N then
        match skip_ws r with
        | 125%N :: r' => Some (JObj [], r')
        | _ => '(kvs, rest) ← parse_members (parse_value f) f r; Some (JObj kvs, rest)
        end
      else
        match strip_prefix (u8 "null") (c :: r), strip_prefix (u8 "true") (c :: r),
              strip_prefix (u8 "false") (c :: r) with
        | Some rest, _, _ => Some (JNull, rest)
        | _, Some rest, _ => Some (JBool true, rest)
        | _, _, Some rest => Some (JBool false, rest)
        | _, _, _ => parse_number (c :: r)
        end
    end
  end.

(** When a key occurs twice, the later value wins, at the position of the
    first occurrence, as in a Python [dict]. *)
Fixpoint normalise (v : json) : json :=
  match v with
  | JArr l => JArr (map normalise l)
  | JObj d =>
    JObj (fold_left (fun acc kv => Dict.set (fst kv) (normalise (snd kv)) acc) d [])
  | _ => v
  end.

Definition loads (s : pystr) : option json :=
  match parse_value (S (length s)) s with
  | Some (v, rest) => match skip_ws rest with [] => Some (normalise v) | _ => None end
  | None => None
  end.

Definition hex_char (d : N) : N := if (d <? 10)%N then (48 + d)%N else (87 + d)%N.

Definition u_escape (c : N) : pystr :=
  [92%N; 117%N; hex_char (c / 4096 mod 16); hex_char (c / 256 mod 16);
   hex_char (c / 16 mod 16); hex_char (c mod 16)].

Definition escape_char (c : N) : pystr :=
  if (c =? 34)%N then [92%N; 34%N]
  else if (c =? 92)%N then [92%N; 92%N]
  else if (c =? 10)%N then [92%N; 110%N]
  else if (c =? 13)%N then [92%N; 114%N]
  else if (c =? 9)%N then [92%N; 116%N]
  else if (c =? 8)%N then [92%N; 98%N]
  else if (c =? 12)%N then [92%N; 102%N]
  else if ((32 <=? c) && (c <? 127))%N then [c]
  else if (c <? 65536)%N then u_escape c
  else u_escape (55296 + (c - 65536) / 1024) ++ u_escape (56320 + (c - 65536) mod 1024).

Definition dump_string (s : pystr) : pystr :=
  [34%N] ++ concat (map escape_char s) ++ [34%N].

(** The decimal digits of the fraction [n / d], for [n < d]. *)
Fixpoint fraction_digits (fuel : nat) (n d : N) : pystr :=
  match fuel with
  | O => []
  | S f =>
    if (n =? 0)%N then []
    else PyStr.digit (n * 10 / d) :: fraction_digits f (n * 10 mod d) d
  end.

Definition dump_float (q : Q) : pystr :=
  let n := Z.abs_N (Qnum q) in
  let d := Npos (Qden q) in
  let frac := fraction_digits 17 (n mod d) d in
  (if Qnum q <? 0 then [45%N] else [])
  ++ PyStr.of_N (n / d) ++ [46%N] ++ (match frac with [] => [48%N] | _ => frac end).

Fixpoint dumps (v : json) : pystr :=
  match v with
  | JNull => u8 "null"
  | JBool true => u8 "true"
  | JBool false => u8 "false"
  | JInt z => PyStr.of_Z z
  | JFloat q => dump_float q
  | JStr s => dump_string s
  | JArr l =>
    [91%N]
    ++ (fix items (l : list json) : pystr :=
          match l with
          | [] => []
          | [x] => dumps x
          | x :: r => dumps x ++ u8 ", " ++ items r
          end) l
    ++ [93%N]
  | JObj d =>
    [123%N]
    ++ (fix members (d : list (pystr * json)) : pystr :=
          match d with
          | [] => []
          | [(k, x)] => dump_string k ++ u8 ": " ++ dumps x
          | (k, x) :: r => dump_string k ++ u8 ": " ++ dumps x ++ u8 ", " ++ members r
          end) d
    ++ [125%N]
  end.

#[export] Instance codec : JsonCodec :=
  {| json_loads := loads;
     json_dumps := dumps;
     json_error_text := fun _ => u8 "Expecting value" |}.

(** Pydantic in strict mode: no coercion at all. *)
#[export] Instance strict : PydanticLib :=
  {| lax_bool := fun _ => None;
     lax_float := fun _ => None;
     validation_error_text := fun _ errs =>
       PyStr.of_Z (Z.of_nat (length errs))
       ++ u8 " validation errors: " ++ PyStr.join (u8 ", ") errs |}.

End MiniJson.

(** ** Values used to state and to run the properties *)

(** What the validation of [fallback_dict] produces: the result the caller sees
    when the service has replaced the text of the LLM by its own fallback. *)
Definition fallback_servicio (paciente_nombre : pystr) : AnalisisResultado :=
  {| nivel_urgencia := u8 "medio";
     requiere_atencion := true;
     sentimiento_general := u8 "neutral";
     sintomas_detectados := [u8 "Requiere revisión manual"];
     recomendacion := u8 "Por favor, contacta al paciente para revisar su respuesta manualmente. El análisis automático no pudo completarse.";
     resumen := u8 "Análisis automático falló para " ++ paciente_nombre
                ++ u8 ". Requiere revisión manual.";
     probabilidad_complicacion := (1 # 2)%Q;
     necesita_cita_urgente := false |}.

(** [r] with the two fields that the escalation rules may overwrite. *)
Definition with_escalation (urgencia : pystr) (atencion : bool) (r : AnalisisResultado)
    : AnalisisResultado :=
  {| nivel_urgencia := urgencia;
     requiere_atencion := atencion;
     sentimiento_general := sentimiento_general r;
     sintomas_detectados := sintomas_detectados r;
     recomendacion := recomendacion r;
     resumen := resumen r;
     probabilidad_complicacion := probabilidad_complicacion r;
     necesita_cita_urgente := necesita_cita_urgente r |}.

(** The HTTP 500 error into which the entry point turns an exception. *)
Definition error_500 (e : exc) : exc :=
  Exc (HTTPException 500) (u8 "Error al procesar análisis: " ++ exc_str e).

Module Demo.
Import MiniJson.

Definition sintomas_largos : pystr :=
  u8 "Dolor punzante en la muela tratada que no cede con analgésicos desde ayer".

Definition encuesta (estado : pystr) (sintomas : option pystr) (revision : bool)
    : SeguimientoData :=
  {| seguimiento_id := 42;
     paciente_nombre := u8 "Ana Núñez";
     tipo_tratamiento := u8 "Endodoncia";
     dias_desde_tratamiento := 3;
     respuesta := {| estado_paciente := estado;
                     sintomas_reportados := sintomas;
                     observaciones_paciente := None;
                     necesita_revision := revision |} |}.

(** A well-formed answer of the model with low urgency. *)
Definition respuesta_baja : list (pystr * json) :=
  [ (u8 "nivel_urgencia", JStr (u8 "bajo"));
    (u8 "requiere_atencion", JBool false);
    (u8 "sentimiento_general", JStr (u8 "positivo"));
    (u8 "sintomas_detectados", JArr []);
    (u8 "recomendacion", JStr (u8 "Sin acciones"));
    (u8 "resumen", JStr (u8 "Recuperación normal"));
    (u8 "probabilidad_complicacion", JFloat (1 # 10)%Q);
    (u8 "necesita_cita_urgente", JBool false) ].

(** Valid JSON that breaks the schema: probability above 1. *)
Definition respuesta_fuera_de_rango : list (pystr * json) :=
  Dict.set (u8 "probabilidad_complicacion") (JFloat (3 # 2)%Q) respuesta_baja.

Definition completion (text : pystr) : ChatCompletion :=
  {| choices := [Some text]; usage_total_tokens := Some 120 |}.

(** A provider that answers every prompt with [text]. *)
Definition llm_says (text : pystr) : pystr -> pystr -> outcome ChatCompletion :=
  fun _ _ => Return (completion text).

(** A provider whose call raises. *)
Definition llm_down : pystr -> pystr -> outcome ChatCompletion :=
  fun _ _ => Raise (Exc (LibraryError (u8 "APIConnectionError")) (u8 "Connection error.")).

Definition uuid_demo (n : nat) : pystr := u8 "uuid-" ++ PyStr.of_Z (Z.of_nat n).

Definition empty_service : AgentService := {| sessions := ∅; uuids_drawn := 0 |}.

Definition py_str_demo (v : json) : pystr :=
  match v with
  | JStr s => s
  | JInt z => PyStr.of_Z z
  | _ => dumps v
  end.

Definition upper_demo (s : pystr) : pystr :=
  map (fun c => if ((97 <=? c) && (c <=? 122))%N then (c - 32)%N else c) s.

(** A backend that cannot be reached. *)
Definition backend_down : Request -> HttpResult :=
  fun _ => RequestError (u8 "timeout").

(** An LLM that asks for the same tool at every round. *)
Definition llm_loops : AgentInput -> list (ToolInvocation * pystr) -> AgentDecision :=
  fun _ _ => Actions [ {| tool := u8 "listar_medicos"; tool_input := JObj [] |} ].

Definition llm_fails : AgentInput -> list (ToolInvocation * pystr) -> AgentDecision :=
  fun _ _ => LlmFailure (Exc (LibraryError (u8 "RateLimitError")) (u8 "rate limit")).

Definition stopped_demo : json :=
  JObj [ (u8 "output", JStr (u8 "Agent stopped due to iteration limit or time limit.")) ].

End Demo.

(** ** app/utils/helpers.py: text utilities *)

Module Helpers.

(** [text[:n]]: a negative [n] counts from the end. *)
Definition slice_prefix (n : Z) (text : pystr) : pystr :=
if 0 <=? n then take (Z.to_nat n) text
else take (length text - Z.to_nat (- n)) text.

(** [truncate_text] *)
Definition truncate_text (text : pystr) (max_length : Z) : pystr :=
if PyStr.len text <=? max_length then text
else slice_prefix (max_length - 3) text ++ u8 "...".

(** [text.split()]: the maximal runs of characters that are not whitespace. *)
Fixpoint split (text : pystr) : list pystr :=
match text with
| [] => []
| c :: r =>
  if PyOps.isspace c then split r
  else
    match r with
    | [] => [[c]]
    | c' :: _ =>
      if PyOps.isspace c' then [c] :: split r
      else
        match split r with
        | w :: ws => (c :: w) :: ws
        | [] => [[c]]
        end
    end
end.

(** [sanitize_input] *)
Definition sanitize_input (text : pystr) : pystr :=
let text := PyOps.strip text in
PyStr.join (u8 " ") (split text).

End Helpers.

(** ** app/core/config.py: derived settings *)

Module Config.

(** [s.split(sep)] for a separator of one character. *)
Fixpoint split_on (sep : N) (s : pystr) : list pystr :=
match s with
| [] => [[]]
| c :: r =>
  if (c =? sep)%N then [] :: split_on sep r
  else
    match split_on sep r with
    | w :: ws => (c :: w) :: ws
    | [] => [[c]]
    end
end.

(** [Settings.cors_origins_list], as a function of [CORS_ORIGINS]. *)
Definition cors_origins_list (CORS_ORIGINS : pystr) : list pystr :=
map PyOps.strip (split_on 44%N CORS_ORIGINS).

(** The default value of [CORS_ORIGINS]. *)
Definition CORS_ORIGINS_default : pystr :=
u8 "http://localhost:5173,http://localhost:3000".

(** [Settings.is_production] and [Settings.is_development], as functions of
  [APP_ENV]. *)
Definition is_production (APP_ENV : pystr) : bool := PyStr.eqb APP_ENV (u8 "production").
Definition is_development (APP_ENV : pystr) : bool := PyStr.eqb APP_ENV (u8 "development").

End Config.

(** ** app/models/schemas.py: the chat request *)

Record ChatRequest := {
  req_message : pystr;
  req_session_id : option pystr;
  req_user_id : option Z;
  req_user_context : option (list (pystr * json))
}.

Record ChatResponse := {
  resp_message : pystr;
  resp_session_id : pystr;
  resp_metadata : option (list (pystr * json))
}.

Module Schemas.

(** [ChatRequest.validate_message], the validator that runs on the field once
  its declared constraints hold. *)
Definition validate_message (v : pystr) : outcome pystr :=
match PyOps.strip v with
| [] => Raise (Exc (LibraryError (u8 "ValueError")) (u8 "El mensaje no puede estar vacío"))
| c :: r => Return (c :: r)
end.

(** The field [message: str = Field(..., min_length=1, max_length=1000)] of
  [ChatRequest] on a string input: the length constraints, then
  [validate_message]; every failure surfaces as a validation error. *)
Definition message_field {pyd : PydanticLib} (v : pystr) : outcome pystr :=
if PyStr.len v <? 1 then
  Raise (Exc ValidationError (validation_error_text (JStr v) [u8 "message"]))
else if 1000 <? PyStr.len v then
  Raise (Exc ValidationError (validation_error_text (JStr v) [u8 "message"]))
else
  match validate_message v with
  | Return m => Return m
  | Raise _ => Raise (Exc ValidationError (validation_error_text (JStr v) [u8 "message"]))
  end.

End Schemas.

(** ** app/api/endpoints.py: the chat endpoint *)

(** The names that the top level of app/services/agent_service.py binds:
    those of its import statements, its two classes, and the instance that
    its last line creates. *)
Definition agent_service_module_names : list pystr :=
  [ u8 "Dict"; u8 "List"; u8 "Optional"; u8 "datetime"; u8 "ChatOpenAI";
    u8 "AgentExecutor"; u8 "create_tool_calling_agent";
    u8 "ConversationBufferWindowMemory"; u8 "ChatPromptTemplate";
    u8 "MessagesPlaceholder"; u8 "settings"; u8 "logger"; u8 "get_all_tools";
    u8 "generate_session_id"; u8 "ChatMessage"; u8 "MessageRole"; u8 "CLINIC_INFO";
    u8 "ConversationSession"; u8 "AgentService"; u8 "agent_service" ].

(** [agent_service.attr] as endpoints.py evaluates it. The directory
    app/services has no [__init__.py], so the package [app.services] has no
    attribute [agent_service] of its own and
    [from app.services import agent_service] imports the submodule: in
    endpoints.py the name denotes the module [app.services.agent_service],
    not the [AgentService] instance that the module keeps under the same
    name. The module defines no [__getattr__]: a name that its top level
    binds is found (and is referred to by that name here), any other name
    raises [AttributeError]. The double-underscore attributes of a module
    object are left out; endpoints.py reads none of them. *)
Definition agent_service_getattr (attr : pystr) : outcome pystr :=
  if bool_decide (attr ∈ agent_service_module_names) then Return attr
  else Raise (Exc AttributeError
                (u8 "module 'app.services.agent_service' has no attribute '"
                 ++ attr ++ u8 "'")).

Section ChatEndpoint.
Context {pyd : PydanticLib}.

(** [int(s)] on a string: [None] when it raises [ValueError]. *)
Variable py_int : pystr -> option Z.

(** Awaiting the call of the object found under a name of the module with
  the keyword arguments [message], [session_id], [user_id] and
  [user_context]: its result or exception, and the state of the service
  afterwards. What the classes and library objects of the module do with
  such a call is left open. *)
Variable call_member :
pystr -> pystr -> option pystr -> option Z -> option (list (pystr * json)) ->
AgentService -> outcome json * AgentService.

(** The user id the endpoint passes on: the header when it is given and is
  an integer, replaced by the id of the request body when that leaves no
  id (or zero) and the body has one. *)
Definition resolve_user_id (x_user_id : option pystr) (request_user_id : option Z)
  : option Z :=
let user_id :=
  match x_user_id with
  | Some (c :: r) => py_int (c :: r)
  | _ => None
  end in
if negb (PyOps.some_int user_id) && PyOps.some_int request_user_id
then request_user_id
else user_id.

(** [ChatResponse(message=..., session_id=..., metadata=...)]: the two
  strings are required, the metadata is a dictionary or [None]; the other
  fields take their defaults. *)
Definition ChatResponse_from (message session_id metadata : json) : outcome ChatResponse :=
let input := JObj [ (u8 "message", message); (u8 "session_id", session_id);
                    (u8 "metadata", metadata) ] in
let errors :=
  match message with JStr _ => [] | _ => [u8 "message"] end
  ++ match session_id with JStr _ => [] | _ => [u8 "session_id"] end
  ++ match metadata with JNull | JObj _ => [] | _ => [u8 "metadata"] end in
match message, session_id, errors with
| JStr m, JStr s, [] =>
  Return {| resp_message := m;
            resp_session_id := s;
            resp_metadata := match metadata with JObj d => Some d | _ => None end |}
| _, _, _ => Raise (Exc ValidationError (validation_error_text input errors))
end.

(** [chat]: the value returned or the exception raised to the framework, and
  the state of the service afterwards. *)
Definition chat (request : ChatRequest) (x_user_id : option pystr) (a : AgentService)
  : outcome ChatResponse * AgentService :=
let user_id := resolve_user_id x_user_id (req_user_id request) in
let '(body, a') :=
  match agent_service_getattr (u8 "process_message") with
  | Raise e => (Raise e, a)
  | Return member =>
    let '(called, a') :=
      call_member member (req_message request) (req_session_id request) user_id
        (req_user_context request) a in
    (result ← called;
     message ← Py.getitem result (u8 "message");
     session_id ← Py.getitem result (u8 "session_id");
     metadata ← Py.get result (u8 "metadata");
     ChatResponse_from message session_id metadata,
     a')
  end in
match body with
| Return response => (Return response, a')
| Raise e =>
  (Raise (Exc (HTTPException 500) (u8 "Error procesando el mensaje: " ++ exc_str e)), a')
end.

End ChatEndpoint.

(** ** Notions used to state further properties *)

(** Both escalation rules of [parsear_respuesta_ia], in the order of the
    source. *)
Definition escalar (data : SeguimientoData) (analisis_dict : json) : outcome json :=
  escalar_por_estado data analisis_dict ≫= escalar_por_sintomas data.

(** The entry of a message in the memory, when it has one. *)
Definition memory_view (msgs : list ChatMessage) : list (MessageRole * pystr) :=
  omap (fun m => match role m with
                 | SYSTEM => None
                 | r => Some (r, content m)
                 end) msgs.

(** A session is well formed under the key [k] of the table: it carries that
    id, and its memory holds the user and assistant messages of its
    history. *)
Definition session_ok (k : pystr) (s : ConversationSession) : Prop :=
  session_id s = k /\ memory s = memory_view (messages s).

Definition sessions_ok (a : AgentService) : Prop :=
  map_Forall session_ok (sessions a).

(** The value under ["success"] or under ["data"] of a backend answer is
    missing or falsy. *)
Definition not_successful (body : list (pystr * json)) : Prop :=
  Py.truthy (default JNull (Dict.lookup (u8 "success") body)) = false
  \/ Py.truthy (default JNull (Dict.lookup (u8 "data") body)) = false.

(** Not a whitespace character. *)
Definition graphic (c : N) : Prop := PyOps.isspace c = false.

(** A word: a non-empty string without whitespace. *)
Definition is_word (w : pystr) : Prop := w <> [] /\ Forall graphic w.

(** A string with no whitespace at either end. *)
Definition trimmed (s : pystr) : Prop :=
  s = [] \/ (exists c r, s = c :: r /\ graphic c) /\ (exists c r, s = r ++ [c] /\ graphic c).

(** The number of occurrences of a character. *)
Definition occurrences (sep : N) (s : pystr) : nat :=
  length (filter (fun c => c = sep) s).

(** * Properties *)

(** ** Dictionaries and keys *)

Lemma eqb_eq (a b : pystr) : PyStr.eqb a b = true <-> a = b.
Proof. unfold PyStr.eqb. apply bool_decide_eq_true. Qed.

Lemma eqb_neq (a b : pystr) : PyStr.eqb a b = false <-> a <> b.
Proof. unfold PyStr.eqb. apply bool_decide_eq_false. Qed.

Lemma eqb_refl (a : pystr) : PyStr.eqb a a = true.
Proof. by apply eqb_eq. Qed.

Lemma lookup_set_eq k v d : Dict.lookup k (Dict.set k v d) = Some v.
Proof.
  induction d as [|[k' v'] d IH]; simpl.
  - by rewrite eqb_refl.
  - destruct (PyStr.eqb k k') eqn:E; simpl.
    + by rewrite eqb_refl.
    + by rewrite E.
Qed.

Lemma lookup_set_ne k k' v d :
  PyStr.eqb k' k = false -> Dict.lookup k' (Dict.set k v d) = Dict.lookup k' d.
Proof.
  intros Hne. induction d as [|[k0 v0] d IH]; simpl.
  - by rewrite Hne.
  - destruct (PyStr.eqb k k0) eqn:E; simpl.
    + apply eqb_eq in E. subst k0. by rewrite Hne.
    + by rewrite IH.
Qed.

Lemma lookup_set k k0 v d :
  Dict.lookup k (Dict.set k0 v d) = if PyStr.eqb k k0 then Some v else Dict.lookup k d.
Proof.
  destruct (PyStr.eqb k k0) eqn:E.
  - apply eqb_eq in E. subst k0. apply lookup_set_eq.
  - by apply lookup_set_ne.
Qed.

(** Decides by computation the comparisons of two literal keys that occur in
    the goal. *)
Ltac eval_key_tests :=
  repeat match goal with
         | |- context [PyStr.eqb (PyStr.lit ?a) (PyStr.lit ?b)] =>
           let v := eval vm_compute in (PyStr.eqb (PyStr.lit a) (PyStr.lit b)) in
           replace (PyStr.eqb (PyStr.lit a) (PyStr.lit b)) with v
             by (vm_compute; reflexivity)
         end.

(** ** The follow-up analysis *)

Section AnalysisFacts.
Context {codec : JsonCodec} {pyd : PydanticLib}.
Variable llm : pystr -> pystr -> outcome ChatCompletion.
Variable utcnow : Z.

Lemma analyze_unfold data :
  analyze llm utcnow data =
  match servicio llm data ≫= (fun resultado_ia => parsear_respuesta_ia resultado_ia data) with
  | Return r => Return r
  | Raise e => Raise (error_500 e)
  end.
Proof.
  unfold analyze, analizar_respuesta_seguimiento, servicio.
  by destruct (_ ≫= _).
Qed.

(** *** The service *)

Lemma servicio_invalid_json data raw :
  llm_answers llm data raw -> json_loads raw = None ->
  servicio llm data = Return (_get_fallback_response (paciente_nombre data)).
Proof.
  intros (rest & tokens & Hllm) Hbad.
  unfold servicio, analizar_seguimiento_post_tratamiento.
  rewrite Hllm. simpl. unfold loads. rewrite Hbad. reflexivity.
Qed.

Lemma servicio_valid_json data raw rest n v :
  llm system_message (construir_prompt_analisis data)
  = Return {| choices := Some raw :: rest; usage_total_tokens := Some n |} ->
  json_loads raw = Some v ->
  servicio llm data = Return raw.
Proof.
  intros Hllm Hok.
  unfold servicio, analizar_seguimiento_post_tratamiento.
  rewrite Hllm. simpl. unfold loads. rewrite Hok. reflexivity.
Qed.

Lemma servicio_reraises data e :
  llm system_message (construir_prompt_analisis data) = Raise e ->
  is_JSONDecodeError e = false ->
  servicio llm data = Raise e.
Proof.
  intros Hllm Hcls.
  unfold servicio, analizar_seguimiento_post_tratamiento.
  rewrite Hllm. simpl. by rewrite Hcls.
Qed.

(** *** Validation against the schema *)

Lemma fields_fallback_dict nombre d :
  fallback_dict nombre = JObj d ->
  Pydantic.AnalisisResultado_fields d = inr (fallback_servicio nombre).
Proof. intros [= <-]. vm_compute. reflexivity. Qed.

(** The escalation rules leave the service's fallback as it is: its urgency
    is not ["bajo"]. *)
Lemma escalation_fallback_dict data nombre :
  (escalar_por_estado data (fallback_dict nombre)
     ≫= escalar_por_sintomas data) = Return (fallback_dict nombre).
Proof.
  unfold escalar_por_estado, escalar_por_sintomas.
  destruct (reporta_mal data), (sintomas_extensos data); reflexivity.
Qed.

Lemma parsear_invalid_json raw data :
  json_loads raw = None ->
  parsear_respuesta_ia raw data = Return (fallback_conservador data).
Proof.
  intros Hbad. unfold parsear_respuesta_ia, loads. by rewrite Hbad.
Qed.

Lemma parsear_service_fallback data nombre :
  json_loads (json_dumps (fallback_dict nombre)) = Some (fallback_dict nombre) ->
  parsear_respuesta_ia (_get_fallback_response nombre) data
  = Return (fallback_servicio nombre).
Proof.
  intros Hrt. unfold parsear_respuesta_ia, _get_fallback_response, loads.
  rewrite Hrt. simpl.
  pose proof (escalation_fallback_dict data nombre) as He.
  simpl in He.
  destruct (escalar_por_estado data (fallback_dict nombre)) as [d1|e1]; [|discriminate].
  simpl in *. rewrite He. reflexivity.
Qed.

End AnalysisFacts.

Section SchemaFacts.
Context {pyd : PydanticLib}.

(** A dictionary passes the schema exactly when each field does. *)
Lemma fields_inr d r :
  Pydantic.AnalisisResultado_fields d = inr r <->
  Pydantic.required Pydantic.validate_str (u8 "nivel_urgencia") d = Some (nivel_urgencia r)
  /\ Pydantic.required Pydantic.validate_bool (u8 "requiere_atencion") d
     = Some (requiere_atencion r)
  /\ Pydantic.required Pydantic.validate_str (u8 "sentimiento_general") d
     = Some (sentimiento_general r)
  /\ Pydantic.with_default Pydantic.validate_list_str [] (u8 "sintomas_detectados") d
     = Some (sintomas_detectados r)
  /\ Pydantic.required Pydantic.validate_str (u8 "recomendacion") d = Some (recomendacion r)
  /\ Pydantic.required Pydantic.validate_str (u8 "resumen") d = Some (resumen r)
  /\ Pydantic.required Pydantic.validate_unit_interval (u8 "probabilidad_complicacion") d
     = Some (probabilidad_complicacion r)
  /\ Pydantic.required Pydantic.validate_bool (u8 "necesita_cita_urgente") d
     = Some (necesita_cita_urgente r).
Proof.
  unfold Pydantic.AnalisisResultado_fields.
  destruct (Pydantic.required Pydantic.validate_str (u8 "nivel_urgencia") d);
    [|split; [discriminate | intros (? & _); discriminate]].
  destruct (Pydantic.required Pydantic.validate_bool (u8 "requiere_atencion") d);
    [|split; [discriminate | intros (_ & ? & _); discriminate]].
  destruct (Pydantic.required Pydantic.validate_str (u8 "sentimiento_general") d);
    [|split; [discriminate | intros (_ & _ & ? & _); discriminate]].
  destruct (Pydantic.with_default Pydantic.validate_list_str [] (u8 "sintomas_detectados") d);
    [|split; [discriminate | intros (_ & _ & _ & ? & _); discriminate]].
  destruct (Pydantic.required Pydantic.validate_str (u8 "recomendacion") d);
    [|split; [discriminate | intros (_ & _ & _ & _ & ? & _); discriminate]].
  destruct (Pydantic.required Pydantic.validate_str (u8 "resumen") d);
    [|split; [discriminate | intros (_ & _ & _ & _ & _ & ? & _); discriminate]].
  destruct (Pydantic.required Pydantic.validate_unit_interval
              (u8 "probabilidad_complicacion") d);
    [|split; [discriminate | intros (_ & _ & _ & _ & _ & _ & ? & _); discriminate]].
  destruct (Pydantic.required Pydantic.validate_bool (u8 "necesita_cita_urgente") d);
    [|split; [discriminate | intros (_ & _ & _ & _ & _ & _ & _ & ?); discriminate]].
  destruct r; simpl. split.
  - intros [= -> -> -> -> -> -> -> ->]. repeat split.
  - intros (? & ? & ? & ? & ? & ? & ? & ?). simplify_eq. reflexivity.
Qed.

(** Overwriting urgency and attention in a dictionary that passes the schema
    gives a dictionary that passes it, with these two fields changed. *)
Lemma fields_escalated d r0 u a :
  Pydantic.AnalisisResultado_fields d = inr r0 ->
  Pydantic.AnalisisResultado_fields
    (Dict.set (u8 "requiere_atencion") (JBool a)
       (Dict.set (u8 "nivel_urgencia") (JStr u) d))
  = inr (with_escalation u a r0).
Proof.
  intros H. apply fields_inr in H. apply fields_inr.
  unfold Pydantic.required, Pydantic.with_default in *.
  rewrite !lookup_set. eval_key_tests.
  simpl. tauto.
Qed.

Lemma fields_attention d r0 a :
  Pydantic.AnalisisResultado_fields d = inr r0 ->
  Pydantic.AnalisisResultado_fields (Dict.set (u8 "requiere_atencion") (JBool a) d)
  = inr (with_escalation (nivel_urgencia r0) a r0).
Proof.
  intros H. apply fields_inr in H. apply fields_inr.
  unfold Pydantic.required, Pydantic.with_default in *.
  rewrite !lookup_set. eval_key_tests.
  simpl. tauto.
Qed.

Lemma fields_urgencia d r0 u :
  Pydantic.AnalisisResultado_fields d = inr r0 ->
  Dict.lookup (u8 "nivel_urgencia") d = Some (JStr u) ->
  nivel_urgencia r0 = u.
Proof.
  intros H Hu. apply fields_inr in H. destruct H as (H & _).
  unfold Pydantic.required in H. rewrite Hu in H. simpl in H. congruence.
Qed.

(** A dictionary with a required field missing is rejected. *)
Lemma fields_missing_resumen d :
  Dict.lookup (u8 "resumen") d = None ->
  exists errs, Pydantic.AnalisisResultado_fields d = inl errs.
Proof.
  intros Hm. destruct (Pydantic.AnalisisResultado_fields d) as [errs|r] eqn:E; [eauto|].
  apply fields_inr in E. destruct E as (_ & _ & _ & _ & _ & E & _).
  unfold Pydantic.required in E. rewrite Hm in E. discriminate.
Qed.

(** A dictionary whose probability is a number outside [0, 1] is rejected. *)
Lemma fields_probability_out_of_range d q :
  Dict.lookup (u8 "probabilidad_complicacion") d = Some (JFloat q) ->
  Qle_bool 0 q && Qle_bool q 1 = false ->
  exists errs, Pydantic.AnalisisResultado_fields d = inl errs.
Proof.
  intros Hq Hr. destruct (Pydantic.AnalisisResultado_fields d) as [errs|r] eqn:E; [eauto|].
  apply fields_inr in E. destruct E as (_ & _ & _ & _ & _ & _ & E & _).
  unfold Pydantic.required, Pydantic.validate_unit_interval in E.
  rewrite Hq in E. simpl in E. rewrite Hr in E. discriminate.
Qed.

End SchemaFacts.

Section EscalationFacts.

Lemma reporta_mal_iff data :
  reporta_mal data = true <-> estado_paciente (respuesta data) = u8 "mal".
Proof. apply eqb_eq. Qed.

Lemma sintomas_extensos_iff data :
  sintomas_extensos data = true <->
  exists s, sintomas_reportados (respuesta data) = Some s /\ 50 < PyStr.len s.
Proof.
  unfold sintomas_extensos. destruct (sintomas_reportados (respuesta data)) as [[|c r]|].
  - split; [discriminate|]. intros (s & [= <-] & H). unfold PyStr.len in H. simpl in H. lia.
  - rewrite Z.ltb_lt. split; [eauto|]. by intros (s & [= <-] & H).
  - split; [discriminate|]. by intros (s & ? & _).
Qed.

(** What the two escalation rules, applied in order, make of a dictionary
    whose urgency is ["bajo"]. *)
Lemma escalation_bajo data d :
  Dict.lookup (u8 "nivel_urgencia") d = Some (JStr (u8 "bajo")) ->
  (escalar_por_estado data (JObj d) ≫= escalar_por_sintomas data)
  = Return (JObj (if reporta_mal data
                  then Dict.set (u8 "requiere_atencion") (JBool true)
                         (Dict.set (u8 "nivel_urgencia") (JStr (u8 "medio")) d)
                  else if sintomas_extensos data
                  then Dict.set (u8 "requiere_atencion") (JBool true) d
                  else d)).
Proof.
  intros Hu. unfold escalar_por_estado, escalar_por_sintomas.
  destruct (reporta_mal data), (sintomas_extensos data); simpl;
    rewrite ?Hu; simpl; rewrite ?lookup_set; eval_key_tests; rewrite ?Hu; reflexivity.
Qed.

(** The escalation rules never fail on a dictionary, and touch no key other
    than the urgency and the attention flag. *)
Lemma escalation_dict data d :
  exists d',
    (escalar_por_estado data (JObj d) ≫= escalar_por_sintomas data) = Return (JObj d')
    /\ forall k, PyStr.eqb k (u8 "nivel_urgencia") = false ->
                 PyStr.eqb k (u8 "requiere_atencion") = false ->
                 Dict.lookup k d' = Dict.lookup k d.
Proof.
  unfold escalar_por_estado, escalar_por_sintomas.
  destruct (reporta_mal data), (sintomas_extensos data); simpl;
    repeat match goal with
           | |- context [if ?b then _ else _] => destruct b; simpl
           end;
    eexists; (split; [reflexivity|]); intros k H1 H2;
    rewrite ?lookup_set_ne by assumption; reflexivity.
Qed.

End EscalationFacts.

Section AnalysisClaims.
Context {codec : JsonCodec} {pyd : PydanticLib}.
Variable llm : pystr -> pystr -> outcome ChatCompletion.
Variable utcnow : Z.

Lemma analyze_valid_json data raw rest n v :
  llm system_message (construir_prompt_analisis data)
  = Return {| choices := Some raw :: rest; usage_total_tokens := Some n |} ->
  json_loads raw = Some v ->
  analyze llm utcnow data =
  match parsear_respuesta_ia raw data with
  | Return r => Return r
  | Raise e => Raise (error_500 e)
  end.
Proof.
  intros Hllm Hok. rewrite analyze_unfold.
  by rewrite (servicio_valid_json llm data raw rest n v Hllm Hok).
Qed.

Lemma parsear_valid_dict raw data d d' :
  json_loads raw = Some (JObj d) ->
  (escalar_por_estado data (JObj d) ≫= escalar_por_sintomas data) = Return (JObj d') ->
  parsear_respuesta_ia raw data =
  match Pydantic.AnalisisResultado_fields d' with
  | inr r => Return r
  | inl errs => Raise (Exc ValidationError (validation_error_text (JObj d') errs))
  end.
Proof.
  intros Hok He. unfold parsear_respuesta_ia, loads. rewrite Hok. simpl.
  simpl in He.
  destruct (escalar_por_estado data (JObj d)) as [d1|e1]; [|discriminate].
  simpl in *. rewrite He. simpl.
  by destruct (Pydantic.AnalisisResultado_fields d').
Qed.

Lemma analyze_invalid_json data raw :
  llm_answers llm data raw ->
  json_loads raw = None ->
  json_loads (json_dumps (fallback_dict (paciente_nombre data)))
  = Some (fallback_dict (paciente_nombre data)) ->
  analyze llm utcnow data = Return (fallback_servicio (paciente_nombre data)).
Proof.
  intros Hllm Hbad Hrt.
  rewrite analyze_unfold, (servicio_invalid_json llm data raw Hllm Hbad). simpl.
  by rewrite (parsear_service_fallback data _ Hrt).
Qed.

(** C1. When the text returned by the LLM is not valid JSON, the service has
    already replaced it by its own fallback before [parsear_respuesta_ia]
    sees it, so the caller receives that fallback: urgency "medio",
    attention required, sentiment "neutral", probability 0.5, and
    [necesita_cita_urgente] false whatever the survey's [necesita_revision]
    says. *)
Theorem malformed_json_yields_service_fallback data raw :
  llm_answers llm data raw ->
  json_loads raw = None ->
  json_loads (json_dumps (fallback_dict (paciente_nombre data)))
  = Some (fallback_dict (paciente_nombre data)) ->
  exists r,
    analyze llm utcnow data = Return r
    /\ r = fallback_servicio (paciente_nombre data)
    /\ nivel_urgencia r = u8 "medio"
    /\ requiere_atencion r = true
    /\ sentimiento_general r = u8 "neutral"
    /\ probabilidad_complicacion r = (1 # 2)%Q
    /\ necesita_cita_urgente r = false.
Proof.
  intros Hllm Hbad Hrt. exists (fallback_servicio (paciente_nombre data)).
  split; [|by repeat split].
  by apply (analyze_invalid_json data raw).
Qed.

Lemma servicio_catches_decode_error data e :
  llm system_message (construir_prompt_analisis data) = Raise e ->
  is_JSONDecodeError e = true ->
  servicio llm data = Return (_get_fallback_response (paciente_nombre data)).
Proof.
  intros Hllm Hcls.
  unfold servicio, analizar_seguimiento_post_tratamiento.
  rewrite Hllm. simpl. by rewrite Hcls.
Qed.

(** C2, as amended. What the entry point does with a failure depends on the
    exception. When the completion carries a text on which [json.loads]
    raises [JSONDecodeError], the entry point does not raise: it returns the
    fallback of the service, with urgency "medio", attention required,
    sentiment "neutral" and probability 0.5. When the provider call itself
    raises an exception that is not a [JSONDecodeError], the service raises
    it again and the entry point turns it into an HTTP 500 error carrying
    the text of the exception; no webhook is scheduled. When the provider
    call raises a [JSONDecodeError], the first [except] clause of the
    service catches it as well: the entry point returns the same fallback
    and schedules the webhook with it. The two fallback cases assume that
    [json.loads] reads back what [json.dumps] wrote for the fallback
    dictionary. *)
Theorem analyze_fallback_or_error_500 data :
  (forall raw,
      llm_answers llm data raw ->
      json_loads raw = None ->
      json_loads (json_dumps (fallback_dict (paciente_nombre data)))
      = Some (fallback_dict (paciente_nombre data)) ->
      exists r,
        analyze llm utcnow data = Return r
        /\ nivel_urgencia r = u8 "medio"
        /\ requiere_atencion r = true
        /\ sentimiento_general r = u8 "neutral"
        /\ probabilidad_complicacion r = (1 # 2)%Q)
  /\ (forall e,
         llm system_message (construir_prompt_analisis data) = Raise e ->
         is_JSONDecodeError e = false ->
         analizar_respuesta_seguimiento llm utcnow data
         = (Raise (Exc (HTTPException 500)
                     (u8 "Error al procesar análisis: " ++ exc_str e)), []))
  /\ (forall e,
         llm system_message (construir_prompt_analisis data) = Raise e ->
         is_JSONDecodeError e = true ->
         json_loads (json_dumps (fallback_dict (paciente_nombre data)))
         = Some (fallback_dict (paciente_nombre data)) ->
         exists r,
           analizar_respuesta_seguimiento llm utcnow data
           = (Return r,
              [ {| wp_seguimiento_id := seguimiento_id data;
                   wp_analisis := r;
                   wp_timestamp := utcnow |} ])
           /\ nivel_urgencia r = u8 "medio"
           /\ requiere_atencion r = true
           /\ sentimiento_general r = u8 "neutral"
           /\ probabilidad_complicacion r = (1 # 2)%Q).
Proof.
  split; [|split].
  - intros raw Hllm Hbad Hrt.
    exists (fallback_servicio (paciente_nombre data)).
    split; [by apply (analyze_invalid_json data raw)|by repeat split].
  - intros e Hllm Hcls.
    pose proof (servicio_reraises llm data e Hllm Hcls) as Hs.
    unfold servicio in Hs. unfold analizar_respuesta_seguimiento.
    rewrite Hs. reflexivity.
  - intros e Hllm Hcls Hrt.
    exists (fallback_servicio (paciente_nombre data)).
    split; [|by repeat split].
    pose proof (servicio_catches_decode_error data e Hllm Hcls) as Hs.
    unfold servicio in Hs. unfold analizar_respuesta_seguimiento.
    rewrite Hs. cbn [mbind outcome_bind].
    by rewrite (parsear_service_fallback data _ Hrt).
Qed.

Lemma analyze_escalated data raw rest n d :
  llm system_message (construir_prompt_analisis data)
  = Return {| choices := Some raw :: rest; usage_total_tokens := Some n |} ->
  json_loads raw = Some (JObj d) ->
  Dict.lookup (u8 "nivel_urgencia") d = Some (JStr (u8 "bajo")) ->
  forall r0, Pydantic.AnalisisResultado_fields d = inr r0 ->
  analyze llm utcnow data =
  Return (if reporta_mal data then with_escalation (u8 "medio") true r0
          else if sintomas_extensos data then with_escalation (u8 "bajo") true r0
          else r0).
Proof.
  intros Hllm Hok Hu r0 Hr0.
  rewrite (analyze_valid_json data raw rest n _ Hllm Hok).
  rewrite (parsear_valid_dict raw data d _ Hok (escalation_bajo data d Hu)).
  destruct (reporta_mal data).
  - by rewrite (fields_escalated d r0 _ true Hr0).
  - destruct (sintomas_extensos data).
    + rewrite (fields_attention d r0 true Hr0).
      by rewrite (fields_urgencia d r0 _ Hr0 Hu).
    + by rewrite Hr0.
Qed.

(** C3. When the survey reports the status "mal" and the answer of the
    model, valid against the schema, has urgency "bajo", the result returned
    by the entry point has urgency "medio" and requires attention; the other
    fields are those of the model. *)
Theorem mal_with_bajo_is_escalated data raw rest n d r0 :
  estado_paciente (respuesta data) = u8 "mal" ->
  llm system_message (construir_prompt_analisis data)
  = Return {| choices := Some raw :: rest; usage_total_tokens := Some n |} ->
  json_loads raw = Some (JObj d) ->
  Dict.lookup (u8 "nivel_urgencia") d = Some (JStr (u8 "bajo")) ->
  Pydantic.AnalisisResultado_fields d = inr r0 ->
  exists r,
    analyze llm utcnow data = Return r
    /\ nivel_urgencia r = u8 "medio"
    /\ requiere_atencion r = true
    /\ r = with_escalation (u8 "medio") true r0.
Proof.
  intros Hmal Hllm Hok Hu Hr0. apply reporta_mal_iff in Hmal.
  exists (with_escalation (u8 "medio") true r0).
  rewrite (analyze_escalated data raw rest n d Hllm Hok Hu r0 Hr0), Hmal.
  by repeat split.
Qed.

(** C4, as amended. When the reported symptoms are present and longer than
    50 characters and the answer of the model, valid against the schema, has
    urgency "bajo", the result requires attention; its urgency stays "bajo"
    unless the survey also reports the status "mal", in which case the
    first rule has already raised it to "medio". *)
Theorem long_symptoms_with_bajo_require_attention data s raw rest n d r0 :
  sintomas_reportados (respuesta data) = Some s ->
  50 < PyStr.len s ->
  llm system_message (construir_prompt_analisis data)
  = Return {| choices := Some raw :: rest; usage_total_tokens := Some n |} ->
  json_loads raw = Some (JObj d) ->
  Dict.lookup (u8 "nivel_urgencia") d = Some (JStr (u8 "bajo")) ->
  Pydantic.AnalisisResultado_fields d = inr r0 ->
  exists r,
    analyze llm utcnow data = Return r
    /\ requiere_atencion r = true
    /\ nivel_urgencia r
       = (if PyStr.eqb (estado_paciente (respuesta data)) (u8 "mal")
          then u8 "medio" else u8 "bajo").
Proof.
  intros Hs Hlen Hllm Hok Hu Hr0.
  assert (sintomas_extensos data = true) as Hext
      by (apply sintomas_extensos_iff; eauto).
  rewrite (analyze_escalated data raw rest n d Hllm Hok Hu r0 Hr0), Hext.
  fold (reporta_mal data). destruct (reporta_mal data); eexists; by repeat split.
Qed.

(** C10. A text of the LLM that is valid JSON but breaks the schema of
    [AnalisisResultado], by a missing required field or by a probability
    that is a number outside [0, 1], makes [parsear_respuesta_ia] raise a
    validation error that its JSON fallback does not catch; the entry point
    then raises an HTTP 500 error instead of returning a fallback result. *)
Theorem schema_violation_is_error_500 data raw rest n d :
  llm system_message (construir_prompt_analisis data)
  = Return {| choices := Some raw :: rest; usage_total_tokens := Some n |} ->
  json_loads raw = Some (JObj d) ->
  (Dict.lookup (u8 "resumen") d = None
   \/ exists q, Dict.lookup (u8 "probabilidad_complicacion") d = Some (JFloat q)
                /\ Qle_bool 0 q && Qle_bool q 1 = false) ->
  exists msg,
    parsear_respuesta_ia raw data = Raise (Exc ValidationError msg)
    /\ analyze llm utcnow data
       = Raise (Exc (HTTPException 500) (u8 "Error al procesar análisis: " ++ msg)).
Proof.
  intros Hllm Hok Hbad.
  destruct (escalation_dict data d) as (d' & He & Hsame).
  assert (exists errs, Pydantic.AnalisisResultado_fields d' = inl errs) as (errs & Herrs).
  { destruct Hbad as [Hm|(q & Hq & Hr)].
    - apply fields_missing_resumen. rewrite Hsame by (vm_compute; reflexivity). done.
    - apply (fields_probability_out_of_range d' q); [|done].
      rewrite Hsame by (vm_compute; reflexivity). done. }
  exists (validation_error_text (JObj d') errs).
  rewrite (analyze_valid_json data raw rest n _ Hllm Hok).
  rewrite (parsear_valid_dict raw data d d' Hok He), Herrs. by split.
Qed.

End AnalysisClaims.

(** *** The analysis on concrete inputs *)

Lemma malformed_json_yields_service_fallback_witness :
  exists r,
    analyze (codec := MiniJson.codec) (pyd := MiniJson.strict)
      (Demo.llm_says (u8 "lo siento, no puedo")) 0
      (Demo.encuesta (u8 "regular") None true) = Return r
    /\ r = fallback_servicio (u8 "Ana Núñez")
    /\ nivel_urgencia r = u8 "medio"
    /\ requiere_atencion r = true
    /\ sentimiento_general r = u8 "neutral"
    /\ probabilidad_complicacion r = (1 # 2)%Q
    /\ necesita_cita_urgente r = false.
Proof.
  apply (malformed_json_yields_service_fallback (codec := MiniJson.codec)
           (Demo.llm_says (u8 "lo siento, no puedo")) 0
           (Demo.encuesta (u8 "regular") None true) (u8 "lo siento, no puedo")).
  - exists [], (Some 120). reflexivity.
  - vm_compute. reflexivity.
  - vm_compute. reflexivity.
Defined.

(** C2 fails as stated: when the provider call raises, the entry point raises
    an HTTP 500 error to its caller and returns no result. *)
Lemma provider_failure_is_raised :
  analyze (codec := MiniJson.codec) (pyd := MiniJson.strict) Demo.llm_down 0
    (Demo.encuesta (u8 "bien") None false)
  = Raise (Exc (HTTPException 500) (u8 "Error al procesar análisis: Connection error."))
  /\ ~ exists r, analyze (codec := MiniJson.codec) (pyd := MiniJson.strict)
                   Demo.llm_down 0 (Demo.encuesta (u8 "bien") None false)
                 = Return r.
Proof.
  split; [vm_compute; reflexivity|].
  intros (r & Hr). vm_compute in Hr. discriminate.
Qed.

Lemma analyze_fallback_or_error_500_witness :
  (exists r,
      analyze (codec := MiniJson.codec) (pyd := MiniJson.strict)
        (Demo.llm_says (u8 "lo siento, no puedo")) 0
        (Demo.encuesta (u8 "regular") None true) = Return r
      /\ nivel_urgencia r = u8 "medio"
      /\ requiere_atencion r = true
      /\ sentimiento_general r = u8 "neutral"
      /\ probabilidad_complicacion r = (1 # 2)%Q)
  /\ analizar_respuesta_seguimiento (codec := MiniJson.codec) (pyd := MiniJson.strict)
       Demo.llm_down 0 (Demo.encuesta (u8 "regular") None true)
     = (Raise (Exc (HTTPException 500)
                 (u8 "Error al procesar análisis: " ++ u8 "Connection error.")), [])
  /\ (exists r,
        analizar_respuesta_seguimiento (codec := MiniJson.codec) (pyd := MiniJson.strict)
          (fun _ _ => Raise (Exc JSONDecodeError
                               (u8 "Expecting value: line 1 column 1 (char 0)")))
          0 (Demo.encuesta (u8 "regular") None true)
        = (Return r,
           [ {| wp_seguimiento_id := seguimiento_id (Demo.encuesta (u8 "regular") None true);
                wp_analisis := r;
                wp_timestamp := 0 |} ])
        /\ nivel_urgencia r = u8 "medio"
        /\ requiere_atencion r = true
        /\ sentimiento_general r = u8 "neutral"
        /\ probabilidad_complicacion r = (1 # 2)%Q).
Proof.
  split; [|split].
  - apply (proj1 (analyze_fallback_or_error_500 (codec := MiniJson.codec)
                    (Demo.llm_says (u8 "lo siento, no puedo")) 0
                    (Demo.encuesta (u8 "regular") None true))
             (u8 "lo siento, no puedo")).
    + exists [], (Some 120). reflexivity.
    + vm_compute. reflexivity.
    + vm_compute. reflexivity.
  - apply (proj1 (proj2 (analyze_fallback_or_error_500 (codec := MiniJson.codec)
                           Demo.llm_down 0 (Demo.encuesta (u8 "regular") None true)))
             (Exc (LibraryError (u8 "APIConnectionError")) (u8 "Connection error."))).
    + reflexivity.
    + reflexivity.
  - apply (proj2 (proj2 (analyze_fallback_or_error_500 (codec := MiniJson.codec)
                           (pyd := MiniJson.strict)
                           (fun _ _ => Raise (Exc JSONDecodeError
                                                (u8 "Expecting value: line 1 column 1 (char 0)")))
                           0 (Demo.encuesta (u8 "regular") None true)))
             (Exc JSONDecodeError (u8 "Expecting value: line 1 column 1 (char 0)"))).
    + reflexivity.
    + reflexivity.
    + vm_compute. reflexivity.
Defined.

Lemma mal_with_bajo_is_escalated_witness :
  exists r,
    analyze (codec := MiniJson.codec) (pyd := MiniJson.strict)
      (Demo.llm_says (MiniJson.dumps (JObj Demo.respuesta_baja))) 0
      (Demo.encuesta (u8 "mal") None false) = Return r
    /\ nivel_urgencia r = u8 "medio"
    /\ requiere_atencion r = true
    /\ r = with_escalation (u8 "medio") true
             {| nivel_urgencia := u8 "bajo"; requiere_atencion := false;
                sentimiento_general := u8 "positivo"; sintomas_detectados := [];
                recomendacion := u8 "Sin acciones"; resumen := u8 "Recuperación normal";
                probabilidad_complicacion := (1 # 10)%Q;
                necesita_cita_urgente := false |}.
Proof.
  apply (mal_with_bajo_is_escalated (codec := MiniJson.codec) (pyd := MiniJson.strict)
           (Demo.llm_says (MiniJson.dumps (JObj Demo.respuesta_baja))) 0
           (Demo.encuesta (u8 "mal") None false)
           (MiniJson.dumps (JObj Demo.respuesta_baja)) [] 120
           Demo.respuesta_baja).
  - reflexivity.
  - reflexivity.
  - vm_compute. reflexivity.
  - vm_compute. reflexivity.
  - vm_compute. reflexivity.
Defined.

(** C4 fails as stated: with long symptoms and the status "mal", an answer of
    the model with urgency "bajo" leaves the entry point with urgency
    "medio", not "bajo". *)
Lemma long_symptoms_with_mal_change_urgency :
  sintomas_reportados (respuesta (Demo.encuesta (u8 "mal")
                                    (Some Demo.sintomas_largos) false))
  = Some Demo.sintomas_largos
  /\ 50 < PyStr.len Demo.sintomas_largos
  /\ MiniJson.loads (MiniJson.dumps (JObj Demo.respuesta_baja))
     = Some (JObj Demo.respuesta_baja)
  /\ Dict.lookup (u8 "nivel_urgencia") Demo.respuesta_baja = Some (JStr (u8 "bajo"))
  /\ exists r,
       analyze (codec := MiniJson.codec) (pyd := MiniJson.strict)
         (Demo.llm_says (MiniJson.dumps (JObj Demo.respuesta_baja))) 0
         (Demo.encuesta (u8 "mal") (Some Demo.sintomas_largos) false) = Return r
       /\ nivel_urgencia r = u8 "medio"
       /\ nivel_urgencia r <> u8 "bajo".
Proof.
  repeat split; try (vm_compute; reflexivity).
  eexists. split; [vm_compute; reflexivity|]. split; [reflexivity|].
  vm_compute. discriminate.
Qed.

Lemma long_symptoms_with_bajo_require_attention_witness :
  exists r,
    analyze (codec := MiniJson.codec) (pyd := MiniJson.strict)
      (Demo.llm_says (MiniJson.dumps (JObj Demo.respuesta_baja))) 0
      (Demo.encuesta (u8 "bien") (Some Demo.sintomas_largos) false) = Return r
    /\ requiere_atencion r = true
    /\ nivel_urgencia r = u8 "bajo".
Proof.
  apply (long_symptoms_with_bajo_require_attention
           (codec := MiniJson.codec) (pyd := MiniJson.strict)
           (Demo.llm_says (MiniJson.dumps (JObj Demo.respuesta_baja))) 0
           (Demo.encuesta (u8 "bien") (Some Demo.sintomas_largos) false)
           Demo.sintomas_largos
           (MiniJson.dumps (JObj Demo.respuesta_baja)) [] 120
           Demo.respuesta_baja
           {| nivel_urgencia := u8 "bajo"; requiere_atencion := false;
              sentimiento_general := u8 "positivo"; sintomas_detectados := [];
              recomendacion := u8 "Sin acciones"; resumen := u8 "Recuperación normal";
              probabilidad_complicacion := (1 # 10)%Q;
              necesita_cita_urgente := false |}).
  - reflexivity.
  - vm_compute. reflexivity.
  - reflexivity.
  - vm_compute. reflexivity.
  - vm_compute. reflexivity.
  - vm_compute. reflexivity.
Defined.

Lemma schema_violation_is_error_500_witness :
  exists msg,
    parsear_respuesta_ia (codec := MiniJson.codec) (pyd := MiniJson.strict)
      (MiniJson.dumps (JObj Demo.respuesta_fuera_de_rango))
      (Demo.encuesta (u8 "bien") None false) = Raise (Exc ValidationError msg)
    /\ analyze (codec := MiniJson.codec) (pyd := MiniJson.strict)
         (Demo.llm_says (MiniJson.dumps (JObj Demo.respuesta_fuera_de_rango))) 0
         (Demo.encuesta (u8 "bien") None false)
       = Raise (Exc (HTTPException 500) (u8 "Error al procesar análisis: " ++ msg)).
Proof.
  apply (schema_violation_is_error_500 (codec := MiniJson.codec) (pyd := MiniJson.strict)
           (Demo.llm_says (MiniJson.dumps (JObj Demo.respuesta_fuera_de_rango))) 0
           (Demo.encuesta (u8 "bien") None false)
           (MiniJson.dumps (JObj Demo.respuesta_fuera_de_rango)) [] 120
           Demo.respuesta_fuera_de_rango).
  - reflexivity.
  - vm_compute. reflexivity.
  - right. exists (3 # 2)%Q. split; vm_compute; reflexivity.
Defined.

(** ** The session store *)

Section SessionFacts.
Variable uuid4 : nat -> pystr.

Lemma or_generate_supplied c s a : or_generate uuid4 (Some (c :: s)) a = (c :: s, a).
Proof. reflexivity. Qed.

Lemma or_generate_absent sid a :
  sid = None \/ sid = Some [] ->
  or_generate uuid4 sid a
  = (uuid4 (uuids_drawn a),
     {| sessions := sessions a; uuids_drawn := S (uuids_drawn a) |}).
Proof. by intros [-> | ->]. Qed.

Lemma get_or_create_session_lookup sid uid a :
  is_Some (sessions (get_or_create_session uuid4 sid uid a).2
             !! (get_or_create_session uuid4 sid uid a).1).
Proof.
  unfold get_or_create_session.
  destruct (or_generate uuid4 sid a) as [key a1].
  destruct (sessions a1 !! key) eqn:E; simpl.
  - rewrite E. eauto.
  - rewrite lookup_insert_eq. eauto.
Qed.

(** C5, as amended. When the session id is absent (or the empty string), an
    id is generated, and if that id is not yet in the table a session with
    empty history is stored under it. When a session id is supplied that
    the table does not know, the new session with empty history is stored
    under the supplied id and no id is generated. When the session id names
    an existing session, the table is left as it is and that session is the
    one returned. *)
Theorem get_or_create_session_cases (sid : option pystr) (uid : option Z)
    (a : AgentService) :
  let key := (get_or_create_session uuid4 sid uid a).1 in
  let a' := (get_or_create_session uuid4 sid uid a).2 in
  (sid = None \/ sid = Some [] ->
     key = uuid4 (uuids_drawn a)
     /\ uuids_drawn a' = S (uuids_drawn a)
     /\ (sessions a !! key = None ->
         sessions a' = <[key := new_session key uid]> (sessions a)
         /\ get_session_history key a' = []))
  /\ (forall s, sid = Some s -> s <> [] -> sessions a !! s = None ->
        key = s
        /\ uuids_drawn a' = uuids_drawn a
        /\ sessions a' = <[s := new_session s uid]> (sessions a)
        /\ get_session_history s a' = [])
  /\ (forall s existing, sid = Some s -> s <> [] -> sessions a !! s = Some existing ->
        key = s /\ a' = a /\ sessions a' !! key = Some existing).
Proof.
  simpl. unfold get_or_create_session. split; [|split].
  - intros Habs. rewrite (or_generate_absent sid a Habs). simpl.
    destruct (sessions a !! uuid4 (uuids_drawn a)) eqn:E; simpl.
    + split; [done|split; [done|]]. intros Hn. congruence.
    + split; [done|split; [done|]]. intros _. split; [done|].
      unfold get_session_history. simpl. by rewrite lookup_insert_eq.
  - intros s -> Hne Hnew. destruct s as [|c s]; [done|].
    rewrite or_generate_supplied, Hnew. simpl.
    split; [done|split; [done|split; [done|]]].
    unfold get_session_history. simpl. by rewrite lookup_insert_eq.
  - intros s existing -> Hne Hold. destruct s as [|c s]; [done|].
    rewrite or_generate_supplied, Hold. simpl. by destruct a.
Qed.

End SessionFacts.

(** C5 fails as stated: a session id that was never seen is not replaced by a
    generated one; the new session lives under the id the caller chose and no
    id is drawn. *)
Lemma unknown_session_id_is_kept :
  sessions Demo.empty_service !! (u8 "sesion-del-cliente") = None
  /\ (get_or_create_session Demo.uuid_demo (Some (u8 "sesion-del-cliente")) None
        Demo.empty_service).1 = u8 "sesion-del-cliente"
  /\ uuids_drawn (get_or_create_session Demo.uuid_demo (Some (u8 "sesion-del-cliente"))
                    None Demo.empty_service).2 = O
  /\ (get_or_create_session Demo.uuid_demo (Some (u8 "sesion-del-cliente")) None
        Demo.empty_service).1 <> Demo.uuid_demo 0.
Proof.
  repeat split; try (vm_compute; reflexivity).
  vm_compute. discriminate.
Qed.

Lemma get_or_create_session_cases_witness :
  (get_or_create_session Demo.uuid_demo None (Some 7) Demo.empty_service).1
  = Demo.uuid_demo 0
  /\ get_session_history (u8 "sesion-del-cliente")
       (get_or_create_session Demo.uuid_demo (Some (u8 "sesion-del-cliente")) None
          Demo.empty_service).2 = []
  /\ (get_or_create_session Demo.uuid_demo (Some (u8 "s1")) None
        {| sessions := {[ u8 "s1" := add_message USER (u8 "Hola") (new_session (u8 "s1") None) ]};
           uuids_drawn := 0 |}).2
     = {| sessions := {[ u8 "s1" := add_message USER (u8 "Hola") (new_session (u8 "s1") None) ]};
          uuids_drawn := 0 |}.
Proof.
  split; [|split].
  - apply (proj1 (get_or_create_session_cases Demo.uuid_demo None (Some 7)
                    Demo.empty_service)).
    by left.
  - apply (proj1 (proj2 (get_or_create_session_cases Demo.uuid_demo
                           (Some (u8 "sesion-del-cliente")) None Demo.empty_service))
             (u8 "sesion-del-cliente")).
    + reflexivity.
    + vm_compute. discriminate.
    + reflexivity.
  - apply (proj2 (proj2 (get_or_create_session_cases Demo.uuid_demo
                           (Some (u8 "s1")) None
                           {| sessions := {[ u8 "s1" := add_message USER (u8 "Hola")
                                                          (new_session (u8 "s1") None) ]};
                              uuids_drawn := 0 |}))
             (u8 "s1") (add_message USER (u8 "Hola") (new_session (u8 "s1") None))).
    + reflexivity.
    + vm_compute. discriminate.
    + vm_compute. reflexivity.
Defined.

(** ** The rolling memory window *)

Section MemoryFacts.

Lemma memory_add_message r text s :
  r = USER \/ r = ASSISTANT ->
  memory (add_message r text s) = memory s ++ [(r, text)].
Proof. by intros [-> | ->]. Qed.

Lemma memory_after_appends ms : forall s0,
  Forall in_memory ms ->
  memory (foldl (fun s m => add_message m.1 m.2 s) s0 ms) = memory s0 ++ ms.
Proof.
  induction ms as [|[r text] ms IH]; intros s0 Hall; simpl.
  - by rewrite app_nil_r.
  - inversion Hall as [|? ? Hm Hrest]; subst.
    rewrite IH by done. rewrite (memory_add_message r text s0 Hm).
    by rewrite <- app_assoc.
Qed.

Lemma window_length k (ms : list (MessageRole * pystr)) :
  length (WindowMemory.load_memory_variables k ms)
  = Nat.min (length ms) (WindowMemory.window_size k).
Proof.
  unfold WindowMemory.load_memory_variables, WindowMemory.window_size, last_n.
  destruct (0 <? k) eqn:Hk.
  - rewrite length_drop. lia.
  - apply Z.ltb_ge in Hk. simpl. replace (Z.to_nat (2 * k)) with O by lia. lia.
Qed.

Lemma window_is_suffix k (ms : list (MessageRole * pystr)) :
  WindowMemory.load_memory_variables k ms
  = drop (length ms - Nat.min (length ms) (WindowMemory.window_size k)) ms.
Proof.
  unfold WindowMemory.load_memory_variables, WindowMemory.window_size, last_n.
  destruct (0 <? k) eqn:Hk.
  - f_equal. lia.
  - apply Z.ltb_ge in Hk. replace (Z.to_nat (2 * k)) with O by lia.
    rewrite Nat.min_0_r, Nat.sub_0_r. by rewrite drop_all.
Qed.

Lemma window_evicts_oldest k (ms : list (MessageRole * pystr)) m :
  (0 < WindowMemory.window_size k)%nat ->
  (WindowMemory.window_size k <= length ms)%nat ->
  WindowMemory.load_memory_variables k (ms ++ [m])
  = drop 1 (WindowMemory.load_memory_variables k ms) ++ [m].
Proof.
  unfold WindowMemory.load_memory_variables, WindowMemory.window_size, last_n.
  intros Hpos Hfull. destruct (0 <? k) eqn:Hk.
  - rewrite length_app. simpl. rewrite drop_drop.
    rewrite drop_app_le by lia. do 2 f_equal. lia.
  - apply Z.ltb_ge in Hk. lia.
Qed.

(** C7. After [N] user or assistant messages have been appended to a new
    session, the window rendered to the LLM holds exactly [min N size]
    entries, where [size] is the window of [CONVERSATION_HISTORY_LIMIT]
    turns (two entries a turn); they are the most recent ones, oldest
    first; and once the window is full a further message pushes the oldest
    entry out. *)
Theorem memory_window_holds_most_recent (settings : Settings) (sid : pystr)
    (uid : option Z) (ms : list (MessageRole * pystr)) :
  Forall in_memory ms ->
  let k := CONVERSATION_HISTORY_LIMIT settings in
  let size := WindowMemory.window_size k in
  let s := foldl (fun s m => add_message m.1 m.2 s) (new_session sid uid) ms in
  let window := WindowMemory.load_memory_variables k (memory s) in
  length window = Nat.min (length ms) size
  /\ window = drop (length ms - Nat.min (length ms) size) ms
  /\ (forall r text,
         r = USER \/ r = ASSISTANT ->
         (0 < size <= length ms)%nat ->
         WindowMemory.load_memory_variables k (memory (add_message r text s))
         = drop 1 window ++ [(r, text)]).
Proof.
  intros Hall k size s window.
  assert (memory s = ms) as Hmem
      by (subst s; by rewrite (memory_after_appends ms (new_session sid uid) Hall)).
  subst window. rewrite Hmem.
  split; [apply window_length|]. split; [apply window_is_suffix|].
  intros r text Hr [Hpos Hfull].
  rewrite (memory_add_message r text s Hr), Hmem.
  by apply window_evicts_oldest.
Qed.

End MemoryFacts.

Lemma memory_window_holds_most_recent_witness :
  let ms := [ (USER, u8 "uno"); (ASSISTANT, u8 "dos"); (USER, u8 "tres");
              (ASSISTANT, u8 "cuatro"); (USER, u8 "cinco") ] in
  let settings := {| AGENT_MAX_ITERATIONS := 10; CONVERSATION_HISTORY_LIMIT := 2 |} in
  let s := foldl (fun s m => add_message m.1 m.2 s) (new_session (u8 "s1") None) ms in
  let window := WindowMemory.load_memory_variables 2 (memory s) in
  length window = Nat.min 5 4
  /\ window = drop (5 - Nat.min 5 4) ms
  /\ (forall r text,
         r = USER \/ r = ASSISTANT ->
         (0 < 4 <= 5)%nat ->
         WindowMemory.load_memory_variables 2 (memory (add_message r text s))
         = drop 1 window ++ [(r, text)]).
Proof.
  apply (memory_window_holds_most_recent
           {| AGENT_MAX_ITERATIONS := 10; CONVERSATION_HISTORY_LIMIT := 2 |}
           (u8 "s1") None
           [ (USER, u8 "uno"); (ASSISTANT, u8 "dos"); (USER, u8 "tres");
             (ASSISTANT, u8 "cuatro"); (USER, u8 "cinco") ]).
  repeat (constructor; [unfold in_memory; simpl; auto|]). constructor.
Defined.

(** ** The agent loop and [process_message] *)

Section AgentFacts.
Context {pyd : PydanticLib}.
Variable settings : Settings.
Variable uuid4 : nat -> pystr.
Variable current_date : pystr.
Variable py_str : json -> pystr.
Variable llm_plan : AgentInput -> list (ToolInvocation * pystr) -> AgentDecision.
Variable execute_tool : ToolInvocation -> pystr.
Variable stopped_response : json.

Local Abbreviation loop := (agent_loop llm_plan execute_tool stopped_response).
Local Abbreviation process :=
  (process_message settings uuid4 current_date py_str llm_plan execute_tool
     stopped_response).
Local Abbreviation process_try :=
  (process_message_try settings uuid4 current_date py_str llm_plan execute_tool
     stopped_response).

Lemma agent_loop_rounds n : forall inp scratchpad,
  ((loop n inp scratchpad).2 <= n)%nat.
Proof.
  induction n as [|n IH]; intros inp scratchpad; simpl; [lia|].
  destruct (llm_plan inp scratchpad) as [output|calls|e]; simpl; try lia.
  specialize (IH inp (scratchpad ++ map (fun c => (c, execute_tool c)) calls)).
  destruct (loop n inp _) as [r k]. simpl in *. lia.
Qed.

Lemma agent_loop_at_cap n : forall inp scratchpad,
  reaches_cap llm_plan execute_tool n inp scratchpad = true ->
  loop n inp scratchpad = (Return stopped_response, n).
Proof.
  induction n as [|n IH]; intros inp scratchpad Hcap; simpl in *; [done|].
  destruct (llm_plan inp scratchpad) as [output|calls|e]; try discriminate.
  by rewrite (IH _ _ Hcap).
Qed.

Lemma process_try_rounds message sid uid ctx a :
  ((process_try message sid uid ctx a).1.2
   <= Z.to_nat (AGENT_MAX_ITERATIONS settings))%nat.
Proof.
  unfold process_message_try, agent_ainvoke.
  destruct (get_or_create_session uuid4 sid uid a) as [key a1].
  match goal with |- context [agent_loop _ _ _ ?n ?i ?s] =>
    pose proof (agent_loop_rounds n i s) as Hb;
    destruct (agent_loop llm_plan execute_tool stopped_response n i s) as [resp rounds]
  end.
  simpl in Hb. by destruct (_ ≫= _).
Qed.

Lemma process_rounds message sid uid ctx a :
  (process message sid uid ctx a).1.2 = (process_try message sid uid ctx a).1.2.
Proof.
  unfold process_message.
  destruct (process_try message sid uid ctx a) as [[[r|e] rounds] a']; [done|].
  by destruct (or_generate uuid4 sid a').
Qed.

Lemma process_try_session_id message sid uid ctx a r rounds a' :
  process_try message sid uid ctx a = (Return r, rounds, a') ->
  cr_session_id r = (get_or_create_session uuid4 sid uid a).1.
Proof.
  unfold process_message_try.
  destruct (get_or_create_session uuid4 sid uid a) as [key a1].
  destruct (agent_ainvoke _ _ _ _ _) as [resp k].
  destruct (_ ≫= _); intros [= <- _ _]; reflexivity.
Qed.

Lemma get_or_create_session_key sid uid a :
  (get_or_create_session uuid4 sid uid a).1 = (or_generate uuid4 sid a).1.
Proof.
  unfold get_or_create_session. destruct (or_generate uuid4 sid a) as [key a1].
  by destruct (sessions a1 !! key).
Qed.

(** C6. [process_message] never raises: it always returns a reply with a
    session id. A supplied (non-empty) session id is the one returned,
    whether the run succeeds or fails; without one, the id returned is a
    generated UUID. When anything inside the [try] block raises, the reply
    is the fixed apology and the text of the exception is found in the
    metadata only. *)
Theorem process_message_always_replies message sid uid ctx a :
  exists r rounds a',
    process message sid uid ctx a = (Return r, rounds, a')
    /\ (forall c s, sid = Some (c :: s) -> cr_session_id r = c :: s)
    /\ (sid = None \/ sid = Some [] -> exists n, cr_session_id r = uuid4 n)
    /\ (forall e rounds1 a1,
           process_try message sid uid ctx a = (Raise e, rounds1, a1) ->
           cr_message r = disculpa
           /\ cr_metadata r = [ (u8 "error", JStr (exc_str e)) ]).
Proof.
  unfold process_message.
  destruct (process_try message sid uid ctx a) as [[[r|e] rounds] a1] eqn:Htry.
  - exists r, rounds, a1. split; [done|].
    pose proof (process_try_session_id _ _ _ _ _ _ _ _ Htry) as Hid.
    rewrite get_or_create_session_key in Hid.
    split; [|split].
    + intros c s ->. by rewrite Hid.
    + intros Habs. rewrite (or_generate_absent uuid4 sid a Habs) in Hid. eauto.
    + intros e rounds1 a2 [=].
  - destruct (or_generate uuid4 sid a1) as [sid' a2] eqn:Hgen.
    eexists _, rounds, a2. split; [reflexivity|]. simpl.
    split; [|split].
    + intros c s ->. simpl in Hgen. congruence.
    + intros Habs. rewrite (or_generate_absent uuid4 sid a1 Habs) in Hgen.
      injection Hgen as <- _. eauto.
    + intros e' rounds1 a3 [= <- _ _]. done.
Qed.

(** C9. A call to [process_message] makes at most [AGENT_MAX_ITERATIONS]
    LLM rounds. When the LLM keeps asking for tools until the cap, exactly
    that many rounds are made and the call returns a reply instead of
    raising: the text under ["output"] of the executor's stop response, the
    default reply when the response has no such key, and the apology when
    that value is no text. *)
Theorem process_message_rounds_are_bounded message sid uid ctx a :
  let cap := Z.to_nat (AGENT_MAX_ITERATIONS settings) in
  let key := (get_or_create_session uuid4 sid uid a).1 in
  let a2 := update_session key (add_message USER message)
              (get_or_create_session uuid4 sid uid a).2 in
  let inp := build_agent_input settings current_date py_str message uid ctx key a2 in
  ((process message sid uid ctx a).1.2 <= cap)%nat
  /\ (reaches_cap llm_plan execute_tool cap inp [] = true ->
      (process message sid uid ctx a).1.2 = cap
      /\ exists r,
          (process message sid uid ctx a).1.1 = Return r
          /\ cr_message r
             = match Py.get_or stopped_response (u8 "output")
                       (JStr respuesta_por_defecto) with
               | Return (JStr text) => text
               | _ => disculpa
               end).
Proof.
  intros cap key a2 inp. split.
  - rewrite process_rounds. apply process_try_rounds.
  - subst inp a2 key cap. intros Hcap.
    unfold process_message, process_message_try, agent_ainvoke.
    destruct (get_or_create_session uuid4 sid uid a) as [key a1]. simpl in Hcap.
    rewrite (agent_loop_at_cap _ _ _ Hcap). simpl.
    destruct (Py.get_or stopped_response (u8 "output") (JStr respuesta_por_defecto))
      as [v|e]; simpl.
    + destruct v; simpl;
        try (destruct (or_generate uuid4 sid _); simpl; split; [done|]; eauto);
        split; [done|]; eauto.
    + destruct (or_generate uuid4 sid _); simpl; split; [done|]; eauto.
Qed.

End AgentFacts.

Lemma process_message_always_replies_witness :
  exists r rounds a',
    process_message (pyd := MiniJson.strict) default_settings Demo.uuid_demo
      (u8 "2025-01-15") Demo.py_str_demo Demo.llm_fails (fun _ => [])
      Demo.stopped_demo (u8 "Hola") (Some (u8 "s1")) (Some 7) None
      Demo.empty_service = (Return r, rounds, a')
    /\ cr_session_id r = u8 "s1"
    /\ cr_message r = disculpa
    /\ cr_metadata r = [ (u8 "error", JStr (u8 "rate limit")) ].
Proof.
  destruct (process_message_always_replies (pyd := MiniJson.strict) default_settings
              Demo.uuid_demo (u8 "2025-01-15") Demo.py_str_demo Demo.llm_fails
              (fun _ => []) Demo.stopped_demo (u8 "Hola") (Some (u8 "s1")) (Some 7) None
              Demo.empty_service)
    as (r & rounds & a' & Hp & Hsid & _ & Herr).
  exists r, rounds, a'. split; [exact Hp|]. split; [exact (Hsid _ _ eq_refl)|].
  eapply (Herr (Exc (LibraryError (u8 "RateLimitError")) (u8 "rate limit"))).
  vm_compute. reflexivity.
Defined.

Lemma process_message_rounds_are_bounded_witness :
  (process_message (pyd := MiniJson.strict) default_settings Demo.uuid_demo
     (u8 "2025-01-15") Demo.py_str_demo Demo.llm_loops (fun _ => u8 "sin datos")
     Demo.stopped_demo (u8 "Hola") None None None Demo.empty_service).1.2
  = Z.to_nat (AGENT_MAX_ITERATIONS default_settings)
  /\ exists r,
      (process_message (pyd := MiniJson.strict) default_settings Demo.uuid_demo
         (u8 "2025-01-15") Demo.py_str_demo Demo.llm_loops (fun _ => u8 "sin datos")
         Demo.stopped_demo (u8 "Hola") None None None Demo.empty_service).1.1
      = Return r
      /\ cr_message r
         = match Py.get_or Demo.stopped_demo (u8 "output")
                   (JStr respuesta_por_defecto) with
           | Return (JStr text) => text
           | _ => disculpa
           end.
Proof.
  apply (proj2 (process_message_rounds_are_bounded (pyd := MiniJson.strict)
                  default_settings Demo.uuid_demo (u8 "2025-01-15")
                  Demo.py_str_demo Demo.llm_loops (fun _ => u8 "sin datos")
                  Demo.stopped_demo (u8 "Hola") None None None Demo.empty_service)).
  vm_compute. reflexivity.
Defined.

(** ** The tool catalog *)

Section ToolFacts.
Variable transport : Request -> HttpResult.
Variable py_str : json -> pystr.
Variable str_upper : pystr -> pystr.

Lemma guarded_returns prefix body :
  guarded prefix body
  = Return (match body with Return t => t | Raise e => prefix ++ exc_str e end).
Proof. by destruct body. Qed.

Lemma arun_is_guarded_body c :
  arun transport py_str str_upper c
  = guarded (error_prefix c) (tool_body transport py_str str_upper c).
Proof.
  destruct c; cbn [arun error_prefix tool_body];
    unfold BuscarPacienteTool_arun, ConsultarCitasTool_arun, ConsultarHistorialTool_arun,
      ConsultarDisponibilidadTool_arun, ListarMedicosTool_arun, ValidarMedicoTool_arun,
      DeterminarTipoUsuarioTool_arun, SugerirHorariosTool_arun, RegistrarCitaTool_arun,
      ConfirmarCitaTool_arun, RegistrarInteraccionTool_arun;
    reflexivity.
Qed.

Lemma tool_name_in_catalog c : In (tool_name c) get_all_tools.
Proof. destruct c; vm_compute; tauto. Qed.

Lemma error_prefix_style c :
  (tool_name c <> u8 "registrar_interaccion_ia" ->
   PyStr.startswith (u8 "❌") (error_prefix c) = true)
  /\ (tool_name c = u8 "registrar_interaccion_ia" -> error_prefix c = u8 "⚠️ Error: ").
Proof.
  destruct c; split; intros H;
    first [ vm_compute; reflexivity
          | vm_compute in H; discriminate
          | exfalso; apply H; reflexivity ].
Qed.

(** C8, as amended. Whatever the arguments and whatever the backend does,
    the [_arun] of every tool of the catalog returns a string and lets no
    exception escape. When its [try] block raises, the string is the error
    prefix of the tool followed by the text of the exception; that prefix
    begins with the cross mark for every tool except
    [registrar_interaccion_ia], whose failures are rendered with a warning
    sign instead. *)
Theorem tools_return_text_and_never_raise (c : ToolCall) :
  In (tool_name c) get_all_tools
  /\ (exists text,
         arun transport py_str str_upper c = Return text
         /\ (forall t, tool_body transport py_str str_upper c = Return t -> text = t)
         /\ (forall e, tool_body transport py_str str_upper c = Raise e ->
                       text = error_prefix c ++ exc_str e))
  /\ (tool_name c <> u8 "registrar_interaccion_ia" ->
      PyStr.startswith (u8 "❌") (error_prefix c) = true)
  /\ (tool_name c = u8 "registrar_interaccion_ia" -> error_prefix c = u8 "⚠️ Error: ").
Proof.
  split; [apply tool_name_in_catalog|]. split; [|apply error_prefix_style].
  rewrite arun_is_guarded_body, guarded_returns. eexists. split; [reflexivity|].
  split.
  - by intros t ->.
  - by intros e ->.
Qed.

(** A backend that cannot be reached makes [_make_request] raise. *)
Lemma make_request_unreachable msg method endpoint data params :
  (forall r, transport r = RequestError msg) ->
  _make_request transport method endpoint data params
  = Raise (Exc PlainException (u8 "Error de conexión con el backend: " ++ msg)).
Proof. intros Hdown. unfold _make_request. by rewrite Hdown. Qed.

(** X27: with the backend unreachable, every tool answers with a text that begins
    with the cross mark, except [registrar_interaccion_ia]. *)
Lemma unreachable_backend_is_reported msg c :
  (forall r, transport r = RequestError msg) ->
  tool_name c <> u8 "registrar_interaccion_ia" ->
  exists text,
    arun transport py_str str_upper c = Return text
    /\ PyStr.startswith (u8 "❌") text = true.
Proof.
  intros Hdown Hname.
  destruct c; cbn [arun];
    try (exfalso; apply Hname; vm_compute; reflexivity);
    unfold BuscarPacienteTool_arun, ConsultarCitasTool_arun, ConsultarHistorialTool_arun,
      ConsultarDisponibilidadTool_arun, ListarMedicosTool_arun, ValidarMedicoTool_arun,
      DeterminarTipoUsuarioTool_arun, SugerirHorariosTool_arun, RegistrarCitaTool_arun,
      ConfirmarCitaTool_arun,
      buscar_paciente_body, consultar_citas_body, consultar_historial_body,
      consultar_disponibilidad_body, listar_medicos_body, validar_medico_body,
      determinar_tipo_usuario_body, sugerir_horarios_body, registrar_cita_body,
      confirmar_cita_body,
      get_paciente, buscar_paciente_por_dni, get_pacientes, get_citas_paciente,
      get_citas_medico, get_historial_resumen, get_disponibilidad_medico, get_medicos,
      get_medico, determinar_tipo_usuario, sugerir_horarios, registrar_cita,
      confirmar_cita;
    repeat match goal with
           | |- context [if PyOps.some_int ?x then _ else _] => destruct (PyOps.some_int x)
           | |- context [if PyOps.some_str ?x then _ else _] => destruct (PyOps.some_str x)
           end;
    rewrite ?(make_request_unreachable msg) by exact Hdown;
    cbn [mbind outcome_bind guarded try_clauses select_clause is_Exception exc_str];
    (eexists; split; [reflexivity | vm_compute; reflexivity]).
Qed.
End ToolFacts.

(** C8 fails as stated: with the backend unreachable, [registrar_interaccion_ia]
    returns a text that begins with the warning sign, not with the cross
    mark. *)
Lemma interaction_log_failure_is_a_warning :
  In (u8 "registrar_interaccion_ia") get_all_tools
  /\ arun Demo.backend_down Demo.py_str_demo Demo.upper_demo
       (RegistrarInteraccion 7 (Some (u8 "agendar_cita")) None None None None)
     = Return (u8 "⚠️ Error: Error de conexión con el backend: timeout")
  /\ PyStr.startswith (u8 "❌")
       (u8 "⚠️ Error: Error de conexión con el backend: timeout") = false.
Proof.
  split; [vm_compute; tauto|]. split; vm_compute; reflexivity.
Qed.

Lemma tools_return_text_and_never_raise_witness :
  exists text,
    arun Demo.backend_down Demo.py_str_demo Demo.upper_demo
      (ConfirmarCita 15) = Return text
    /\ text = error_prefix (ConfirmarCita 15)
              ++ exc_str (Exc PlainException (u8 "Error de conexión con el backend: timeout")).
Proof.
  destruct (tools_return_text_and_never_raise Demo.backend_down Demo.py_str_demo
              Demo.upper_demo (ConfirmarCita 15))
    as (_ & (text & Hrun & _ & Hraise) & _).
  exists text. split; [exact Hrun|].
  apply (Hraise (Exc PlainException (u8 "Error de conexión con el backend: timeout"))).
  vm_compute. reflexivity.
Defined.

(** ** Scenarios *)

Lemma clear_session_absent sid (a : AgentService) :
  sessions a !! sid = None -> clear_session sid a = a.
Proof.
  intros Habs. unfold clear_session. destruct a as [m n]. simpl in *.
  by rewrite delete_id.
Qed.

Lemma get_session_history_unknown sid (a : AgentService) :
  sessions a !! sid = None -> get_session_history sid a = [].
Proof. intros Habs. unfold get_session_history. by rewrite Habs. Qed.

(** A survey that reports "bien", without symptoms, and a well-formed answer
    of the model with low urgency: no rule fires and the answer passes
    through as it is. *)
Example low_urgency_passes_unmodified :
  analyze (codec := MiniJson.codec) (pyd := MiniJson.strict)
    (Demo.llm_says (MiniJson.dumps (JObj Demo.respuesta_baja))) 0
    (Demo.encuesta (u8 "bien") None false)
  = Return {| nivel_urgencia := u8 "bajo"; requiere_atencion := false;
              sentimiento_general := u8 "positivo"; sintomas_detectados := [];
              recomendacion := u8 "Sin acciones"; resumen := u8 "Recuperación normal";
              probabilidad_complicacion := (1 # 10)%Q;
              necesita_cita_urgente := false |}.
Proof. vm_compute. reflexivity. Qed.

(** Called on its own with a text that is not JSON, [parsear_respuesta_ia]
    does keep the review request of the survey. *)
Example parsear_keeps_review_request :
  parsear_respuesta_ia (codec := MiniJson.codec) (pyd := MiniJson.strict)
    (u8 "lo siento, no puedo") (Demo.encuesta (u8 "regular") None true)
  = Return (fallback_conservador (Demo.encuesta (u8 "regular") None true))
  /\ necesita_cita_urgente (fallback_conservador (Demo.encuesta (u8 "regular") None true))
     = true.
Proof. split; vm_compute; reflexivity. Qed.

(** "Hola" without a session id: the reply carries a generated session id and
    counts two messages; a second call with that id counts four. *)
Example hola_twice :
  let llm := fun (_ : AgentInput) (_ : list (ToolInvocation * pystr)) =>
               Finish (u8 "Hola, ¿en qué puedo ayudarte?") in
  let run := process_message (pyd := MiniJson.strict) default_settings Demo.uuid_demo
               (u8 "2025-01-15") Demo.py_str_demo llm (fun _ => [])
               Demo.stopped_demo (u8 "Hola") in
  let first := run None (Some 1) None Demo.empty_service in
  let second := run (Some (u8 "uuid-0")) (Some 1) None first.2 in
  first.1.1
  = Return {| cr_message := u8 "Hola, ¿en qué puedo ayudarte?";
              cr_session_id := u8 "uuid-0";
              cr_metadata := [ (u8 "message_count", JInt 2); (u8 "user_id", JInt 1) ] |}
  /\ second.1.1
     = Return {| cr_message := u8 "Hola, ¿en qué puedo ayudarte?";
                 cr_session_id := u8 "uuid-0";
                 cr_metadata := [ (u8 "message_count", JInt 4); (u8 "user_id", JInt 1) ] |}.
Proof. split; vm_compute; reflexivity. Qed.

(** A patient found by id. *)
Example buscar_paciente_found :
  arun (fun _ => HttpOk (JObj [ (u8 "success", JBool true);
                                (u8 "data", JObj [ (u8 "nombres", JStr (u8 "Ana"));
                                                   (u8 "apellidos", JStr (u8 "Núñez"));
                                                   (u8 "edad", JInt 34) ]) ]))
    Demo.py_str_demo Demo.upper_demo (BuscarPaciente None (Some 3) None)
  = Return (u8 "✅ Paciente encontrado:
- Nombre: Ana Núñez
- DNI: No registrado
- Edad: 34 años
- Teléfono: No registrado
- Alergias: Ninguna registrada
- Grupo sanguíneo: No registrado").
Proof. vm_compute. reflexivity. Qed.

(** A backend answer of the wrong shape is caught like any other failure. *)
Example confirmar_cita_wrong_shape :
  arun (fun _ => HttpOk (JArr [])) Demo.py_str_demo Demo.upper_demo (ConfirmarCita 3)
  = Return (u8 "❌ Error: 'list' object has no attribute 'get'").
Proof. vm_compute. reflexivity. Qed.

(** ** Text utilities *)

Section TextFacts.

Lemma lstrip_graphic c r : graphic c -> PyOps.lstrip (c :: r) = c :: r.
Proof. unfold graphic. intros H. simpl. by rewrite H. Qed.

(** [lstrip] removes a prefix of whitespace and stops at the first other
  character. *)
Lemma lstrip_split s :
exists sp, s = sp ++ PyOps.lstrip s
           /\ Forall (fun c => PyOps.isspace c = true) sp
           /\ (PyOps.lstrip s = [] \/ exists c r, PyOps.lstrip s = c :: r /\ graphic c).
Proof.
induction s as [|c s (sp & Hs & Hsp & Hhead)].
- exists []. simpl. auto.
- simpl. destruct (PyOps.isspace c) eqn:E.
  + exists (c :: sp). split; [simpl; congruence|]. split; [by constructor|done].
  + exists []. split; [done|]. split; [constructor|]. right. by exists c, s.
Qed.

Lemma trimmed_lstrip s : trimmed s -> PyOps.lstrip s = s.
Proof.
intros [->|[(c & r & -> & Hc) _]]; [done|]. by apply lstrip_graphic.
Qed.

Lemma trimmed_rev s : trimmed s -> trimmed (rev s).
Proof.
intros [->|[(c & r & Hs & Hc) (c' & r' & Hs' & Hc')]]; [by left|]. right. split.
- exists c', (rev r'). rewrite Hs', rev_app_distr. done.
- exists c, (rev r). rewrite Hs. simpl. done.
Qed.

Lemma strip_trimmed_id s : trimmed s -> PyOps.strip s = s.
Proof.
intros Ht. unfold PyOps.strip.
rewrite (trimmed_lstrip s Ht), (trimmed_lstrip _ (trimmed_rev s Ht)).
apply rev_involutive.
Qed.

Lemma strip_is_trimmed s : trimmed (PyOps.strip s).
Proof.
unfold PyOps.strip.
destruct (lstrip_split s) as (sp1 & _ & _ & Ha). set (a := PyOps.lstrip s) in *.
destruct (lstrip_split (rev a)) as (sp2 & Hb & _ & Hb'). set (b := PyOps.lstrip (rev a)) in *.
destruct Hb' as [Hb'|(c & r & Hb' & Hc)].
- rewrite Hb'. by left.
- right. rewrite Hb'. split.
  + assert (a = rev b ++ rev sp2) as Ha2
        by (rewrite <- rev_app_distr, <- Hb; by rewrite rev_involutive).
    destruct Ha as [Ha|(c0 & r0 & Ha & Hc0)].
    * rewrite Ha in Hb. simpl in Hb. destruct sp2; simpl in Hb; [|discriminate].
      rewrite Hb' in Hb. discriminate.
    * rewrite Hb' in Ha2. cbn [rev] in Ha2 |- *.
      destruct (rev r) as [|x xs] eqn:Er.
      -- exists c, []. done.
      -- exists x, (xs ++ [c]). split; [done|].
         rewrite Ha in Ha2. cbn [app] in Ha2. injection Ha2 as <- _. done.
  + exists c, (rev r). done.
Qed.

(** Stripping twice is stripping once. *)
Lemma strip_idempotent s : PyOps.strip (PyOps.strip s) = PyOps.strip s.
Proof. apply strip_trimmed_id, strip_is_trimmed. Qed.

Lemma strip_all_space s :
Forall (fun c => PyOps.isspace c = true) s -> PyOps.strip s = [].
Proof.
intros Hs. unfold PyOps.strip.
assert (PyOps.lstrip s = []) as ->; [|done].
induction Hs as [|c r Hc _ IH]; [done|]. simpl. by rewrite Hc.
Qed.

End TextFacts.

Section TruncateFacts.

Lemma length_dots : length (u8 "...") = 3%nat.
Proof. reflexivity. Qed.

Lemma slice_prefix_length n text :
length (Helpers.slice_prefix n text)
= if 0 <=? n then Nat.min (Z.to_nat n) (length text)
  else (length text - Z.to_nat (- n))%nat.
Proof.
unfold Helpers.slice_prefix. destruct (0 <=? n); rewrite length_take; lia.
Qed.

Lemma truncate_text_within text max_length :
3 <= max_length ->
PyStr.len (Helpers.truncate_text text max_length) = Z.min (PyStr.len text) max_length
/\ (PyStr.len text <= max_length -> Helpers.truncate_text text max_length = text).
Proof.
intros Hm. unfold Helpers.truncate_text, PyStr.len.
destruct (Z.of_nat (length text) <=? max_length) eqn:E.
- apply Z.leb_le in E. split; [lia|done].
- apply Z.leb_gt in E. split; [|lia].
  rewrite length_app, slice_prefix_length, length_dots.
  replace (0 <=? max_length - 3) with true by (symmetry; apply Z.leb_le; lia). lia.
Qed.

(** X1: with a limit of at least 3, [truncate_text] returns a text of
  exactly [min (len text) max_length] characters: the text itself when it
  fits, and otherwise its first [max_length - 3] characters followed by
  three dots. *)
Theorem truncate_text_fits text max_length :
3 <= max_length ->
PyStr.len (Helpers.truncate_text text max_length) = Z.min (PyStr.len text) max_length
/\ (PyStr.len text <= max_length -> Helpers.truncate_text text max_length = text)
/\ (max_length < PyStr.len text ->
    Helpers.truncate_text text max_length
    = take (Z.to_nat (max_length - 3)) text ++ u8 "...").
Proof.
intros Hm. unfold Helpers.truncate_text, PyStr.len.
destruct (Z.of_nat (length text) <=? max_length) eqn:E.
- apply Z.leb_le in E. split; [lia|]. split; [done|lia].
- apply Z.leb_gt in E. split; [|split; [lia|]].
  + rewrite length_app, slice_prefix_length, length_dots.
    replace (0 <=? max_length - 3) with true by (symmetry; apply Z.leb_le; lia). lia.
  + intros _. unfold Helpers.slice_prefix.
    by replace (0 <=? max_length - 3) with true by (symmetry; apply Z.leb_le; lia).
Qed.

(** X2: with a limit of at least 3, truncating twice is truncating once. *)
Theorem truncate_text_idempotent text max_length :
3 <= max_length ->
Helpers.truncate_text (Helpers.truncate_text text max_length) max_length
= Helpers.truncate_text text max_length.
Proof.
intros Hm.
destruct (truncate_text_within text max_length Hm) as (Hlen & _).
destruct (truncate_text_within (Helpers.truncate_text text max_length) max_length Hm)
  as (_ & Hid).
apply Hid. lia.
Qed.

(** X3: with a limit below 3, a text longer than the limit is cut by
  [3 - max_length] characters at its end and gets the three dots, so the
  result is always longer than the limit. *)
Theorem truncate_text_small_limit text max_length :
max_length < 3 ->
max_length < PyStr.len text ->
Helpers.truncate_text text max_length
= take (length text - Z.to_nat (3 - max_length)) text ++ u8 "..."
/\ PyStr.len (Helpers.truncate_text text max_length)
   = Z.max (PyStr.len text - (3 - max_length)) 0 + 3
/\ max_length < PyStr.len (Helpers.truncate_text text max_length).
Proof.
intros Hm Hlong. unfold Helpers.truncate_text, PyStr.len in *.
replace (Z.of_nat (length text) <=? max_length) with false
  by (symmetry; apply Z.leb_gt; lia).
unfold Helpers.slice_prefix.
replace (0 <=? max_length - 3) with false by (symmetry; apply Z.leb_gt; lia).
replace (- (max_length - 3)) with (3 - max_length) by lia.
split; [done|]. rewrite length_app, length_take, length_dots. lia.
Qed.

End TruncateFacts.

Section SanitizeFacts.

Lemma space_is_space : PyOps.isspace 32 = true.
Proof. reflexivity. Qed.

Lemma split_all_space s :
Forall (fun c => PyOps.isspace c = true) s -> Helpers.split s = [].
Proof. induction 1 as [|c r Hc _ IH]; [done|]. simpl. by rewrite Hc. Qed.

Lemma split_nil_all_space s :
Helpers.split s = [] -> Forall (fun c => PyOps.isspace c = true) s.
Proof.
induction s as [|c r IH]; [constructor|]. simpl.
destruct (PyOps.isspace c) eqn:E.
- intros H. constructor; auto.
- destruct r as [|c' r']; [discriminate|].
  destruct (PyOps.isspace c'); [discriminate|].
  by destruct (Helpers.split (c' :: r')).
Qed.

(** What [split] returns are words. *)
Lemma split_words s : Forall is_word (Helpers.split s).
Proof.
induction s as [|c r IH]; [constructor|]. simpl.
destruct (PyOps.isspace c) eqn:E; [done|].
assert (is_word [c]) as Hc by (split; [done|by repeat constructor]).
destruct r as [|c' r']; [by repeat constructor|].
destruct (PyOps.isspace c') eqn:E'; [by constructor|].
destruct (Helpers.split (c' :: r')) as [|w ws]; [by repeat constructor|].
inversion IH as [|? ? [Hw1 Hw2] Hws]; subst. constructor; [|done].
split; [done|by constructor].
Qed.

Lemma split_word w : is_word w -> Helpers.split w = [w].
Proof.
intros [Hne Hg]. induction Hg as [|c r Hc Hr IH]; [done|]. simpl.
unfold graphic in Hc. rewrite Hc.
destruct r as [|c' r']; [done|].
inversion Hr as [|? ? Hc' _]; subst. unfold graphic in Hc'. rewrite Hc'.
by rewrite IH.
Qed.

Lemma split_word_space w s :
is_word w -> Helpers.split (w ++ 32%N :: s) = w :: Helpers.split s.
Proof.
intros [Hne Hg]. induction Hg as [|c r Hc Hr IH]; [done|].
cbn [app Helpers.split]. unfold graphic in Hc. rewrite Hc.
destruct r as [|c' r'].
- cbn [app]. by rewrite space_is_space.
- inversion Hr as [|? ? Hc' _]; subst. unfold graphic in Hc'.
  cbn [app] in *. rewrite Hc'. by rewrite IH.
Qed.

Lemma join_cons_cons w w' ws :
PyStr.join (u8 " ") (w :: w' :: ws) = w ++ 32%N :: PyStr.join (u8 " ") (w' :: ws).
Proof. reflexivity. Qed.

(** Joining words with single spaces and splitting again gives the words
  back. *)
Lemma split_join ws :
Forall is_word ws -> Helpers.split (PyStr.join (u8 " ") ws) = ws.
Proof.
induction 1 as [|w ws Hw Hws IH]; [done|].
destruct ws as [|w' ws'].
- by apply split_word.
- rewrite join_cons_cons, (split_word_space _ _ Hw). by rewrite IH.
Qed.

Lemma word_head w : is_word w -> exists c r, w = c :: r /\ graphic c.
Proof.
intros [Hne Hg]. destruct w as [|c r]; [done|].
inversion Hg; subst. eauto.
Qed.

Lemma word_last w : is_word w -> exists c r, w = r ++ [c] /\ graphic c.
Proof.
intros [Hne Hg]. destruct (exists_last Hne) as (r & c & ->).
exists c, r. split; [done|].
apply Forall_app in Hg as [_ Hc]. by inversion Hc.
Qed.

Lemma join_trimmed ws : Forall is_word ws -> trimmed (PyStr.join (u8 " ") ws).
Proof.
induction 1 as [|w ws Hw Hws IH]; [by left|]. right.
destruct ws as [|w' ws'].
- split; [by apply word_head|by apply word_last].
- rewrite join_cons_cons. split.
  + destruct (word_head w Hw) as (c & r & -> & Hc). by exists c, (r ++ 32%N :: PyStr.join (u8 " ") (w' :: ws')).
  + destruct IH as [IH|[_ (c & r & IH & Hc)]].
    * exfalso. destruct (word_head w') as (c & r & -> & _).
      { by inversion Hws. }
      destruct ws'; discriminate.
    * exists c, (w ++ 32%N :: r). rewrite IH. split; [|done].
      by rewrite <- app_assoc.
Qed.

Lemma split_lstrip s : Helpers.split (PyOps.lstrip s) = Helpers.split s.
Proof.
induction s as [|c r IH]; [done|]. cbn [PyOps.lstrip].
destruct (PyOps.isspace c) eqn:E; [|done].
rewrite IH. simpl. by rewrite E.
Qed.

Lemma split_app_spaces s sp :
Forall (fun c => PyOps.isspace c = true) sp ->
Helpers.split (s ++ sp) = Helpers.split s.
Proof.
intros Hsp. induction s as [|c r IH].
- simpl. by apply split_all_space.
- cbn [app Helpers.split]. destruct (PyOps.isspace c) eqn:E; [done|].
  destruct r as [|c' r'].
  + cbn [app]. destruct sp as [|x xs]; [done|].
    inversion Hsp as [|? ? Hx Hxs]; subst. rewrite Hx.
    rewrite (split_all_space (x :: xs)); [done|by constructor].
  + cbn [app] in *. by rewrite IH.
Qed.

Lemma split_strip s : Helpers.split (PyOps.strip s) = Helpers.split s.
Proof.
unfold PyOps.strip. rewrite <- (split_lstrip s).
set (a := PyOps.lstrip s).
destruct (lstrip_split (rev a)) as (sp & Hb & Hsp & _).
assert (a = rev (PyOps.lstrip (rev a)) ++ rev sp) as Ha.
{ rewrite <- rev_app_distr, <- Hb. by rewrite rev_involutive. }
rewrite Ha at 2. rewrite split_app_spaces; [done|].
apply Forall_forall. intros x Hx.
apply list_elem_of_In in Hx. apply (proj2 (in_rev sp x)) in Hx.
apply list_elem_of_In in Hx. rewrite Forall_forall in Hsp. by apply Hsp.
Qed.

Lemma join_nil_inv ws : Forall is_word ws -> PyStr.join (u8 " ") ws = [] -> ws = [].
Proof.
intros Hws Hj. destruct ws as [|w ws]; [done|]. exfalso.
inversion Hws as [|? ? Hw _]; subst.
destruct (word_head w Hw) as (c & r & -> & _).
destruct ws; discriminate.
Qed.

(** X4: [sanitize_input] returns the words of the text, in order, separated
  by single spaces: the result has no whitespace at its ends and no
  whitespace other than one space between two words. *)
Theorem sanitize_input_normal_form text :
Helpers.sanitize_input text = PyStr.join (u8 " ") (Helpers.split text)
/\ Forall is_word (Helpers.split text)
/\ trimmed (Helpers.sanitize_input text)
/\ Helpers.split (Helpers.sanitize_input text) = Helpers.split text.
Proof.
unfold Helpers.sanitize_input. rewrite split_strip.
pose proof (split_words text) as Hw.
split; [done|]. split; [done|]. split; [by apply join_trimmed|by apply split_join].
Qed.

(** X5: sanitizing twice is sanitizing once. *)
Theorem sanitize_input_idempotent text :
Helpers.sanitize_input (Helpers.sanitize_input text) = Helpers.sanitize_input text.
Proof.
unfold Helpers.sanitize_input. rewrite !split_strip.
by rewrite (split_join _ (split_words text)).
Qed.

(** X6: [sanitize_input] returns the empty string exactly for the texts
  made of whitespace only (the empty text among them). *)
Theorem sanitize_input_empty_iff text :
Helpers.sanitize_input text = []
<-> Forall (fun c => PyOps.isspace c = true) text.
Proof.
unfold Helpers.sanitize_input. rewrite split_strip. split.
- intros Hj. apply split_nil_all_space.
  by apply (join_nil_inv _ (split_words text)).
- intros Hs. by rewrite (split_all_space _ Hs).
Qed.

End SanitizeFacts.

(** ** Settings and request validation *)

Section ConfigFacts.

Lemma split_on_cons sep s : exists w ws, Config.split_on sep s = w :: ws.
Proof.
induction s as [|c r (w & ws & IH)]; simpl; [eauto|].
destruct (c =? sep)%N; [eauto|]. rewrite IH. eauto.
Qed.

Lemma split_on_length sep s :
length (Config.split_on sep s) = S (occurrences sep s).
Proof.
unfold occurrences. induction s as [|c r IH]; [done|]. simpl.
destruct (N.eqb_spec c sep) as [->|Hne].
- rewrite filter_cons_True by done. simpl. by rewrite IH.
- rewrite filter_cons_False by done.
  destruct (split_on_cons sep r) as (w & ws & E). rewrite E in *. done.
Qed.

Lemma split_on_no_sep sep s : Forall (fun w => sep ∉ w) (Config.split_on sep s).
Proof.
induction s as [|c r IH]; simpl.
- constructor; [apply not_elem_of_nil|constructor].
- destruct (N.eqb_spec c sep) as [->|Hne].
  + constructor; [apply not_elem_of_nil|done].
  + destruct (Config.split_on sep r) as [|w ws].
    * constructor; [|constructor].
      apply not_elem_of_cons. split; [congruence|apply not_elem_of_nil].
    * inversion IH; subst. constructor; [|done].
      apply not_elem_of_cons. split; [congruence|done].
Qed.

Lemma split_on_no_sep_id sep w : sep ∉ w -> Config.split_on sep w = [w].
Proof.
induction w as [|c r IH]; [done|]. intros Hn. apply not_elem_of_cons in Hn as [Hc Hr].
simpl. destruct (N.eqb_spec c sep) as [->|_]; [done|]. by rewrite IH.
Qed.

Lemma split_on_app_sep sep w s :
sep ∉ w -> Config.split_on sep (w ++ sep :: s) = w :: Config.split_on sep s.
Proof.
induction w as [|c r IH]; intros Hn.
- simpl. by rewrite N.eqb_refl.
- apply not_elem_of_cons in Hn as [Hc Hr]. cbn [app Config.split_on].
  destruct (N.eqb_spec c sep) as [->|_]; [done|]. by rewrite IH.
Qed.

Lemma split_on_join sep (ws : list pystr) :
ws <> [] -> Forall (fun w => sep ∉ w) ws ->
Config.split_on sep (PyStr.join [sep] ws) = ws.
Proof.
intros Hne Hws. induction Hws as [|w ws Hw Hws IH]; [done|].
destruct ws as [|w' ws'].
- by apply split_on_no_sep_id.
- change (PyStr.join [sep] (w :: w' :: ws'))
    with (w ++ sep :: PyStr.join [sep] (w' :: ws')).
  rewrite (split_on_app_sep _ _ _ Hw). by rewrite IH.
Qed.

Lemma lstrip_elem x s : x ∈ PyOps.lstrip s -> x ∈ s.
Proof.
destruct (lstrip_split s) as (sp & Hs & _). intros Hx. rewrite Hs.
apply elem_of_app. by right.
Qed.

Lemma strip_elem x s : x ∈ PyOps.strip s -> x ∈ s.
Proof.
unfold PyOps.strip. intros Hx.
apply list_elem_of_In, (proj2 (in_rev _ x)), list_elem_of_In in Hx.
apply lstrip_elem in Hx.
apply list_elem_of_In, (proj2 (in_rev _ x)), list_elem_of_In in Hx.
by apply lstrip_elem.
Qed.

(** X7: [cors_origins_list] yields one origin more than [CORS_ORIGINS] has
  commas (so the empty setting yields one empty origin); no origin contains
  a comma or has whitespace at its ends. *)
Theorem cors_origins_list_shape (CORS_ORIGINS : pystr) :
length (Config.cors_origins_list CORS_ORIGINS) = S (occurrences 44%N CORS_ORIGINS)
/\ Forall trimmed (Config.cors_origins_list CORS_ORIGINS)
/\ Forall (fun origin => 44%N ∉ origin) (Config.cors_origins_list CORS_ORIGINS).
Proof.
unfold Config.cors_origins_list. split; [|split].
- by rewrite length_map, split_on_length.
- apply Forall_map, Forall_forall. intros w _. apply strip_is_trimmed.
- apply Forall_map. eapply Forall_impl; [apply split_on_no_sep|].
  intros w Hw Hin. apply Hw. by apply strip_elem.
Qed.

(** X8: a setting written as origins joined by commas is read back as those
  origins, provided that there is at least one, that none contains a comma
  and that none has whitespace at its ends. *)
Theorem cors_origins_list_of_join (origins : list pystr) :
origins <> [] ->
Forall (fun origin => 44%N ∉ origin) origins ->
Forall trimmed origins ->
Config.cors_origins_list (PyStr.join [44%N] origins) = origins.
Proof.
intros Hne Hsep Htrim. unfold Config.cors_origins_list.
rewrite (split_on_join _ _ Hne Hsep).
induction Htrim as [|w ws Hw _ IH]; [done|]. simpl.
rewrite (strip_trimmed_id w Hw).
destruct ws as [|w' ws']; [done|].
inversion Hsep; subst. by rewrite IH.
Qed.

End ConfigFacts.

Lemma cors_origins_list_of_join_witness :
  Config.cors_origins_list Config.CORS_ORIGINS_default
  = [u8 "http://localhost:5173"; u8 "http://localhost:3000"].
Proof.
  apply (cors_origins_list_of_join
           [u8 "http://localhost:5173"; u8 "http://localhost:3000"]).
  - discriminate.
  - apply (bool_decide_unpack _). vm_compute. exact I.
  - constructor; [|constructor; [|constructor]]; right; split.
    + exists 104%N, (u8 "ttp://localhost:5173"). split; vm_compute; reflexivity.
    + exists 51%N, (u8 "http://localhost:517"). split; vm_compute; reflexivity.
    + exists 104%N, (u8 "ttp://localhost:3000"). split; vm_compute; reflexivity.
    + exists 48%N, (u8 "http://localhost:300"). split; vm_compute; reflexivity.
Defined.

Section RequestFacts.
Context {pyd : PydanticLib}.

Lemma lstrip_length s : (length (PyOps.lstrip s) <= length s)%nat.
Proof.
destruct (lstrip_split s) as (sp & Hs & _). rewrite Hs at 2. rewrite length_app. lia.
Qed.

Lemma strip_length s : (length (PyOps.strip s) <= length s)%nat.
Proof.
unfold PyOps.strip. rewrite length_rev.
etrans; [apply lstrip_length|]. rewrite length_rev. apply lstrip_length.
Qed.

Lemma message_field_return v m :
Schemas.message_field v = Return m
<-> 1 <= PyStr.len v <= 1000 /\ m = PyOps.strip v /\ m <> [].
Proof.
unfold Schemas.message_field, Schemas.validate_message.
destruct (PyStr.len v <? 1) eqn:E1.
{ apply Z.ltb_lt in E1. split; [discriminate|lia]. }
destruct (1000 <? PyStr.len v) eqn:E2.
{ apply Z.ltb_lt in E2. split; [discriminate|lia]. }
apply Z.ltb_ge in E1, E2.
destruct (PyOps.strip v) as [|c r].
- split; [discriminate|]. intros (_ & -> & Hne). done.
- split.
  + intros [= <-]. done.
  + intros (_ & -> & _). done.
Qed.

(** X9: the [message] field of a chat request accepts a string exactly when
  it has between 1 and 1000 characters and is not made of whitespace only;
  the accepted value is the string without the whitespace at its ends. A
  string of more than 1000 characters is refused even when stripping it
  would bring it under the limit. *)
Theorem message_field_accepts v :
(1 <= PyStr.len v <= 1000 /\ PyOps.strip v <> [] ->
 Schemas.message_field v = Return (PyOps.strip v))
/\ (PyStr.len v < 1 \/ 1000 < PyStr.len v \/ PyOps.strip v = [] ->
    exists text, Schemas.message_field v = Raise (Exc ValidationError text)).
Proof.
split.
- intros (Hlen & Hne). by apply message_field_return.
- intros Hbad. unfold Schemas.message_field, Schemas.validate_message.
  destruct (PyStr.len v <? 1) eqn:E1; [eauto|].
  destruct (1000 <? PyStr.len v) eqn:E2; [eauto|].
  apply Z.ltb_ge in E1, E2.
  destruct Hbad as [ ? | [ ? | Hs ] ]; [lia|lia|rewrite Hs; eauto].
Qed.

(** X10: a message that the chat request accepted is not empty, has at most
  1000 characters and no whitespace at its ends, and is accepted unchanged
  when it is submitted again. *)
Theorem accepted_message_is_clean v m :
Schemas.message_field v = Return m ->
m <> []
/\ PyStr.len m <= 1000
/\ trimmed m
/\ Schemas.message_field m = Return m.
Proof.
intros Hm. apply message_field_return in Hm as (Hlen & -> & Hne).
assert (PyStr.len (PyOps.strip v) <= 1000) as Hlen'.
{ unfold PyStr.len in *. pose proof (strip_length v). lia. }
split; [done|]. split; [done|]. split; [apply strip_is_trimmed|].
apply message_field_return. rewrite strip_idempotent.
split; [|done]. split; [|done].
unfold PyStr.len. destruct (PyOps.strip v); [done|]. simpl. lia.
Qed.

End RequestFacts.

Lemma message_field_accepts_witness :
  Schemas.message_field (pyd := MiniJson.strict) (u8 "  Hola, quiero una cita  ")
  = Return (PyOps.strip (u8 "  Hola, quiero una cita  "))
  /\ exists text,
      Schemas.message_field (pyd := MiniJson.strict) (u8 "   ")
      = Raise (Exc ValidationError text).
Proof.
  split.
  - apply (proj1 (message_field_accepts (pyd := MiniJson.strict)
                    (u8 "  Hola, quiero una cita  "))).
    split; [vm_compute; split; discriminate|vm_compute; discriminate].
  - apply (proj2 (message_field_accepts (pyd := MiniJson.strict) (u8 "   "))).
    right. right. vm_compute. reflexivity.
Defined.

Lemma accepted_message_is_clean_witness :
  u8 "Hola" <> []
  /\ PyStr.len (u8 "Hola") <= 1000
  /\ trimmed (u8 "Hola")
  /\ Schemas.message_field (pyd := MiniJson.strict) (u8 "Hola") = Return (u8 "Hola").
Proof.
  apply (accepted_message_is_clean (pyd := MiniJson.strict) (u8 " Hola ")).
  vm_compute. reflexivity.
Defined.

(** ** The chat endpoint *)

Section ChatFacts.
Context {pyd : PydanticLib}.
Variable settings : Settings.
Variable uuid4 : nat -> pystr.
Variable current_date : pystr.
Variable py_str : json -> pystr.
Variable llm_plan : AgentInput -> list (ToolInvocation * pystr) -> AgentDecision.
Variable execute_tool : ToolInvocation -> pystr.
Variable stopped_response : json.
Variable py_int : pystr -> option Z.
Variable call_member :
pystr -> pystr -> option pystr -> option Z -> option (list (pystr * json)) ->
AgentService -> outcome json * AgentService.

Local Abbreviation endpoint := (chat py_int call_member).
Local Abbreviation agent :=
(process_message settings uuid4 current_date py_str llm_plan execute_tool
   stopped_response).

Lemma process_message_returns message sid uid ctx a :
exists r, (agent message sid uid ctx a).1.1 = Return r.
Proof.
unfold process_message.
destruct (process_message_try _ _ _ _ _ _ _ _ _ _ _ _) as [[[r|e] rounds] a1]; [eauto|].
destruct (or_generate uuid4 sid a1). eauto.
Qed.

Lemma agent_service_getattr_missing attr :
attr ∉ agent_service_module_names ->
agent_service_getattr attr
= Raise (Exc AttributeError
           (u8 "module 'app.services.agent_service' has no attribute '"
            ++ attr ++ u8 "'")).
Proof.
intros Hout. unfold agent_service_getattr. by rewrite bool_decide_eq_false_2.
Qed.

Lemma process_message_is_no_module_name :
u8 "process_message" ∉ agent_service_module_names.
Proof. apply (bool_decide_unpack _). vm_compute. exact I. Qed.

(** X11: the chat endpoint never reaches the agent. In endpoints.py the name
  [agent_service] is the module [app.services.agent_service], which has no
  attribute [process_message]: for every request, header and state of the
  service, and whatever a call of a member of the module would do, the
  endpoint raises an HTTP 500 error that carries the text of the
  [AttributeError], and the session table is left as it was. The method
  [AgentService.process_message] itself would have returned a reply for
  the same arguments. *)
Theorem chat_never_reaches_the_agent request x_user_id a :
endpoint request x_user_id a
= (Raise (Exc (HTTPException 500)
            (u8 "Error procesando el mensaje: module 'app.services.agent_service' has no attribute 'process_message'")),
   a)
/\ exists r,
    (agent (req_message request) (req_session_id request)
       (resolve_user_id py_int x_user_id (req_user_id request))
       (req_user_context request) a).1.1 = Return r.
Proof.
split; [|apply process_message_returns].
unfold chat.
rewrite (agent_service_getattr_missing _ process_message_is_no_module_name).
vm_compute. reflexivity.
Qed.

(** The user id that the chat endpoint passes on. A header that reads
  as a non-zero integer wins over the id of the request body; when the
  header is absent, empty, not an integer or zero, a non-zero id of the
  body is used; when neither gives a non-zero id, the agent receives no
  usable id (none, or the zero of the header). *)
Theorem resolve_user_id_precedence x_user_id request_user_id :
(forall h n, x_user_id = Some h -> h <> [] -> py_int h = Some n -> n <> 0 ->
   resolve_user_id py_int x_user_id request_user_id = Some n)
/\ (forall b, request_user_id = Some b -> b <> 0 ->
      (x_user_id = None \/ x_user_id = Some []
       \/ exists h, x_user_id = Some h /\ (py_int h = None \/ py_int h = Some 0)) ->
      resolve_user_id py_int x_user_id request_user_id = Some b)
/\ (PyOps.some_int request_user_id = false ->
    (x_user_id = None \/ x_user_id = Some []
     \/ exists h, x_user_id = Some h /\ (py_int h = None \/ py_int h = Some 0)) ->
    PyOps.some_int (resolve_user_id py_int x_user_id request_user_id) = false).
Proof.
unfold resolve_user_id. split; [|split].
- intros h n -> Hh Hn Hnz. destruct h as [|c r]; [done|]. rewrite Hn. simpl.
  by destruct (Z.eqb_spec n 0).
- intros b -> Hb Hx. simpl.
  replace (negb (b =? 0)) with true by (by destruct (Z.eqb_spec b 0)).
  destruct Hx as [->|[->|(h & -> & Hh)]]; [done|done|].
  destruct h as [|c r]; [done|]. by destruct Hh as [-> | ->].
- intros Hb Hx. rewrite Hb, andb_false_r.
  destruct Hx as [->|[->|(h & -> & Hh)]]; [done|done|].
  destruct h as [|c r]; [done|]. by destruct Hh as [-> | ->].
Qed.

End ChatFacts.

Lemma resolve_user_id_precedence_witness :
  resolve_user_id (fun _ => Some 12) (Some (u8 "12")) (Some 7) = Some 12
  /\ resolve_user_id (fun _ => None) (Some (u8 "doce")) (Some 7) = Some 7
  /\ PyOps.some_int (resolve_user_id (fun _ => Some 0) (Some (u8 "0")) None) = false.
Proof.
  split; [|split].
  - apply (proj1 (resolve_user_id_precedence (fun _ => Some 12) (Some (u8 "12")) (Some 7))
             (u8 "12") 12); [reflexivity|vm_compute; discriminate|reflexivity|lia].
  - apply (proj1 (proj2 (resolve_user_id_precedence (fun _ => None) (Some (u8 "doce"))
                           (Some 7))) 7); [reflexivity|lia|].
    right. right. exists (u8 "doce"). split; [reflexivity|by left].
  - apply (proj2 (proj2 (resolve_user_id_precedence (fun _ => Some 0) (Some (u8 "0")) None)));
      [reflexivity|].
    right. right. exists (u8 "0"). split; [reflexivity|by right].
Defined.

(** ** More on the follow-up analysis *)

Section AnalysisMore.
Context {codec : JsonCodec} {pyd : PydanticLib}.
Variable llm : pystr -> pystr -> outcome ChatCompletion.
Variable utcnow : Z.

Lemma set_set_same k v d : Dict.set k v (Dict.set k v d) = Dict.set k v d.
Proof.
induction d as [|[k' v'] d IH]; simpl.
- by rewrite eqb_refl.
- destruct (PyStr.eqb k k') eqn:E; simpl.
  + by rewrite eqb_refl.
  + by rewrite E, IH.
Qed.

Lemma nivel_after_atencion v d :
Dict.lookup (u8 "nivel_urgencia") (Dict.set (u8 "requiere_atencion") v d)
= Dict.lookup (u8 "nivel_urgencia") d.
Proof. rewrite lookup_set. eval_key_tests. done. Qed.

Lemma escalar_unfold data d :
escalar data (JObj d)
= Return (JObj
    (if Py.eq_str (default JNull (Dict.lookup (u8 "nivel_urgencia") d)) (u8 "bajo")
     then if reporta_mal data
          then Dict.set (u8 "requiere_atencion") (JBool true)
                 (Dict.set (u8 "nivel_urgencia") (JStr (u8 "medio")) d)
          else if sintomas_extensos data
          then Dict.set (u8 "requiere_atencion") (JBool true) d
          else d
     else d)).
Proof.
unfold escalar, escalar_por_estado, escalar_por_sintomas.
destruct (Py.eq_str (default JNull (Dict.lookup (u8 "nivel_urgencia") d)) (u8 "bajo"))
  eqn:E.
- destruct (reporta_mal data), (sintomas_extensos data); simpl; rewrite ?E; simpl;
    rewrite ?nivel_after_atencion, ?lookup_set_eq, ?E; reflexivity.
- destruct (reporta_mal data), (sintomas_extensos data); simpl; rewrite ?E; simpl;
    rewrite ?E; reflexivity.
Qed.

(** X12: the escalation rules are idempotent: applied to a dictionary they
  give a dictionary on which applying them again changes nothing. *)
Theorem escalar_idempotent data d :
exists d',
  escalar data (JObj d) = Return (JObj d')
  /\ escalar data (JObj d') = Return (JObj d').
Proof.
eexists. split; [apply escalar_unfold|]. rewrite escalar_unfold.
destruct (Py.eq_str (default JNull (Dict.lookup (u8 "nivel_urgencia") d)) (u8 "bajo"))
  eqn:E; [|by rewrite E].
destruct (reporta_mal data).
- rewrite nivel_after_atencion, lookup_set_eq. reflexivity.
- destruct (sintomas_extensos data); [|by rewrite E].
  rewrite nivel_after_atencion, E. by rewrite set_set_same.
Qed.

(** X13: the escalation rules only ever act on an urgency of "bajo", and
  then only for a survey that reports "mal" or long symptoms: an answer of
  the model with any other urgency, or for any other survey, reaches the
  caller exactly as the model gave it. *)
Theorem analyze_passes_through data raw rest n d r0 :
llm system_message (construir_prompt_analisis data)
= Return {| choices := Some raw :: rest; usage_total_tokens := Some n |} ->
json_loads raw = Some (JObj d) ->
Pydantic.AnalisisResultado_fields d = inr r0 ->
nivel_urgencia r0 <> u8 "bajo"
\/ (estado_paciente (respuesta data) <> u8 "mal" /\ sintomas_extensos data = false) ->
escalar data (JObj d) = Return (JObj d)
/\ analyze llm utcnow data = Return r0.
Proof.
intros Hllm Hok Hr0 Hcase.
assert (escalar data (JObj d) = Return (JObj d)) as He.
{ rewrite escalar_unfold.
  destruct (Py.eq_str (default JNull (Dict.lookup (u8 "nivel_urgencia") d)) (u8 "bajo"))
    eqn:E; [|done].
  destruct Hcase as [Hu|[Hmal Hext]].
  - exfalso. apply Hu. apply fields_inr in Hr0 as (Hf & _).
    unfold Pydantic.required in Hf.
    destruct (Dict.lookup (u8 "nivel_urgencia") d) as [[]|]; simpl in *; try discriminate.
    apply eqb_eq in E. congruence.
  - rewrite Hext. destruct (reporta_mal data) eqn:Em; [|done].
    apply reporta_mal_iff in Em. done. }
split; [done|].
rewrite (analyze_valid_json llm utcnow data raw rest n _ Hllm Hok).
rewrite (parsear_valid_dict raw data d d Hok He). by rewrite Hr0.
Qed.

Lemma unit_interval_bounds v q :
Pydantic.validate_unit_interval v = Some q -> Qle_bool 0 q = true /\ Qle_bool q 1 = true.
Proof.
unfold Pydantic.validate_unit_interval.
destruct (Pydantic.validate_float v) as [q'|]; simpl; [|discriminate].
destruct (Qle_bool 0 q') eqn:E1, (Qle_bool q' 1) eqn:E2; simpl; try discriminate.
by intros [= <-].
Qed.

Lemma from_probability v r :
Pydantic.AnalisisResultado_from v = Return r ->
Qle_bool 0 (probabilidad_complicacion r) = true
/\ Qle_bool (probabilidad_complicacion r) 1 = true.
Proof.
unfold Pydantic.AnalisisResultado_from. destruct v; try discriminate.
destruct (Pydantic.AnalisisResultado_fields fields) as [errs|r'] eqn:E; [discriminate|].
intros [= <-]. apply fields_inr in E as (_ & _ & _ & _ & _ & _ & E & _).
unfold Pydantic.required in E.
destruct (Dict.lookup (u8 "probabilidad_complicacion") fields) as [x|]; [|discriminate].
simpl in E. by apply (unit_interval_bounds x).
Qed.

(** X14: every result that [parsear_respuesta_ia] returns, from the model or
  from its fallback, has a complication probability between 0 and 1. *)
Theorem parsear_probability_in_unit_interval raw data r :
parsear_respuesta_ia raw data = Return r ->
(0 <= probabilidad_complicacion r)%Q /\ (probabilidad_complicacion r <= 1)%Q.
Proof.
intros Hr.
assert (Qle_bool 0 (probabilidad_complicacion r) = true
        /\ Qle_bool (probabilidad_complicacion r) 1 = true) as [H0 H1];
  [|split; by apply Qle_bool_iff].
unfold parsear_respuesta_ia, try_clauses in Hr.
match type of Hr with
| match ?body with _ => _ end = _ => destruct body as [r'|e] eqn:Hbody
end.
- injection Hr as ->.
  unfold loads in Hbody. destruct (json_loads raw) as [v|]; [|discriminate].
  simpl in Hbody.
  destruct (escalar_por_estado data v) as [v1|]; [|discriminate]. simpl in Hbody.
  destruct (escalar_por_sintomas data v1) as [v2|]; [|discriminate]. simpl in Hbody.
  by apply (from_probability v2).
- simpl in Hr. destruct (is_JSONDecodeError e); [|discriminate].
  injection Hr as <-. by split.
Qed.

(** The webhook is scheduled exactly when the analysis succeeds: one
  payload, carrying the id of the survey and the very result returned to
  the caller. When the analysis fails, nothing is scheduled and what the
  caller gets is an HTTP 500 error. *)
Theorem webhook_scheduled_iff_success data :
match analizar_respuesta_seguimiento llm utcnow data with
| (Return r, tasks) =>
  tasks = [ {| wp_seguimiento_id := seguimiento_id data;
               wp_analisis := r;
               wp_timestamp := utcnow |} ]
| (Raise e, tasks) => tasks = [] /\ exc_cls e = HTTPException 500
end.
Proof.
unfold analizar_respuesta_seguimiento. by destruct (_ ≫= _).
Qed.

(** X15: when the text of the LLM is valid JSON but not an object (a list, a
  string, a number, [null]), [parsear_respuesta_ia] raises an attribute or
  type error that its JSON fallback does not catch, and the entry point
  raises an HTTP 500 error. *)
Theorem non_object_json_is_error_500 data raw rest n v :
llm system_message (construir_prompt_analisis data)
= Return {| choices := Some raw :: rest; usage_total_tokens := Some n |} ->
json_loads raw = Some v ->
(forall d, v <> JObj d) ->
exists e,
  parsear_respuesta_ia raw data = Raise e
  /\ (exc_cls e = AttributeError \/ exc_cls e = TypeError)
  /\ analyze llm utcnow data = Raise (error_500 e).
Proof.
intros Hllm Hok Hv.
rewrite (analyze_valid_json llm utcnow data raw rest n _ Hllm Hok).
unfold parsear_respuesta_ia, loads, escalar_por_estado, escalar_por_sintomas.
rewrite Hok. simpl.
destruct v; try (exfalso; by eapply Hv);
  destruct (reporta_mal data), (sintomas_extensos data); simpl;
  eexists; (split; [reflexivity|]); (split; [|reflexivity]); simpl; auto.
Qed.

(** X16: the service never hands on a text that cannot be decoded: what it
  returns is either the text of the LLM, which it has decoded, or its own
  fallback text; and it never lets a JSON decoding error out. *)
Theorem servicio_returns_valid_json data :
json_loads (json_dumps (fallback_dict (paciente_nombre data)))
= Some (fallback_dict (paciente_nombre data)) ->
match servicio llm data with
| Return text => exists v, json_loads text = Some v
| Raise e => is_JSONDecodeError e = false
end.
Proof.
intros Hrt. unfold servicio, analizar_seguimiento_post_tratamiento, try_clauses.
destruct (llm system_message (construir_prompt_analisis data)) as [resp|e]; simpl.
- destruct (choices resp) as [|[content|] rest]; simpl; [done| |done].
  unfold loads. destruct (json_loads content) as [v|] eqn:E; simpl.
  + destruct (usage_total_tokens resp); simpl; [eauto|done].
  + unfold _get_fallback_response. eauto.
- destruct (is_JSONDecodeError e) eqn:E; simpl; [|done].
  unfold _get_fallback_response. eauto.
Qed.

(** X17: a completion that carries no usage figures makes the analysis fail
  with an HTTP 500 error even when its content is valid JSON: reading the
  token count for the log raises inside the [try] block. *)
Theorem missing_usage_is_error_500 data raw rest v :
llm system_message (construir_prompt_analisis data)
= Return {| choices := Some raw :: rest; usage_total_tokens := None |} ->
json_loads raw = Some v ->
servicio llm data = Raise (Py.no_attribute JNull (u8 "total_tokens"))
/\ analizar_respuesta_seguimiento llm utcnow data
   = (Raise (error_500 (Py.no_attribute JNull (u8 "total_tokens"))), []).
Proof.
intros Hllm Hok.
assert (servicio llm data = Raise (Py.no_attribute JNull (u8 "total_tokens"))) as Hs.
{ unfold servicio, analizar_seguimiento_post_tratamiento.
  rewrite Hllm. simpl. unfold loads. rewrite Hok. reflexivity. }
split; [done|]. unfold servicio in Hs. unfold analizar_respuesta_seguimiento.
rewrite Hs. reflexivity.
Qed.

End AnalysisMore.

(** ** More on the session store and [process_message] *)

Section StoreFacts.
Variable uuid4 : nat -> pystr.

Lemma get_or_create_session_state sid uid a :
let key := (get_or_create_session uuid4 sid uid a).1 in
let a1 := (get_or_create_session uuid4 sid uid a).2 in
key = (or_generate uuid4 sid a).1
/\ uuids_drawn a1 = uuids_drawn (or_generate uuid4 sid a).2
/\ sessions a1
   = match sessions a !! key with
     | Some _ => sessions a
     | None => <[key := new_session key uid]> (sessions a)
     end.
Proof.
simpl. unfold get_or_create_session.
destruct sid as [[|c s]|]; simpl;
  match goal with |- context [sessions a !! ?k] => destruct (sessions a !! k) eqn:E end;
  simpl; rewrite ?E; done.
Qed.

(** X18: [get_or_create_session] never drops or replaces a session that is
  already in the table, adds at most one, and the key it returns always
  names a session of the table afterwards. *)
Theorem get_or_create_session_keeps_sessions sid uid a :
let key := (get_or_create_session uuid4 sid uid a).1 in
let a1 := (get_or_create_session uuid4 sid uid a).2 in
sessions a ⊆ sessions a1
/\ (get_active_sessions_count a <= get_active_sessions_count a1
    <= S (get_active_sessions_count a))%nat
/\ is_Some (sessions a1 !! key).
Proof.
destruct (get_or_create_session_state sid uid a) as (_ & _ & Hs).
simpl in *. unfold get_active_sessions_count. rewrite Hs.
destruct (sessions a !! (get_or_create_session uuid4 sid uid a).1) eqn:E.
- split; [done|]. split; [lia|]. rewrite E. eauto.
- split; [by apply insert_subseteq|].
  rewrite (map_size_insert_None _ _ _ E), lookup_insert_eq. split; [lia|eauto].
Qed.

(** X19: [clear_session] removes the named session and nothing else: its
  history is empty afterwards, every other session is untouched, the count
  of sessions goes down by one when the session existed and the table is
  unchanged when it did not, and clearing twice is clearing once. *)
Theorem clear_session_removes_only_that_session sid (a : AgentService) :
get_session_history sid (clear_session sid a) = []
/\ (forall k, k <> sid -> sessions (clear_session sid a) !! k = sessions a !! k)
/\ (is_Some (sessions a !! sid) ->
    S (get_active_sessions_count (clear_session sid a)) = get_active_sessions_count a)
/\ (sessions a !! sid = None -> clear_session sid a = a)
/\ clear_session sid (clear_session sid a) = clear_session sid a.
Proof.
unfold get_session_history, get_active_sessions_count, clear_session. simpl.
split; [by rewrite lookup_delete_eq|].
split; [intros k Hk; by rewrite lookup_delete_ne|].
split; [|split].
- intros Hin. rewrite (map_size_delete_Some _ _ Hin).
  pose proof (map_size_ne_0_lookup_2 (sessions a) sid Hin). lia.
- intros Hn. destruct a as [m n]. simpl in *. by rewrite delete_id.
- by rewrite delete_delete_eq.
Qed.

Lemma memory_view_snoc msgs r text :
memory_view (msgs ++ [ {| role := r; content := text |} ])
= memory_view msgs ++ match r with SYSTEM => [] | _ => [(r, text)] end.
Proof. unfold memory_view. rewrite omap_app. by destruct r. Qed.

Lemma add_message_ok k r text s : session_ok k s -> session_ok k (add_message r text s).
Proof.
intros [Hid Hmem]. split; [done|].
unfold add_message. simpl. rewrite memory_view_snoc, <- Hmem.
destruct r; simpl; [done|done|by rewrite app_nil_r].
Qed.

Lemma update_session_ok k r text a :
sessions_ok a -> sessions_ok (update_session k (add_message r text) a).
Proof.
intros Hok i s. unfold update_session. simpl.
destruct (decide (k = i)) as [->|Hne].
- rewrite lookup_alter_eq. destruct (sessions a !! i) as [s0|] eqn:E; [|done].
  intros [= <-]. apply add_message_ok. by apply (Hok i).
- rewrite lookup_alter_ne by done. apply Hok.
Qed.

Lemma get_or_create_session_ok sid uid a :
sessions_ok a -> sessions_ok (get_or_create_session uuid4 sid uid a).2.
Proof.
intros Hok. destruct (get_or_create_session_state sid uid a) as (_ & _ & Hs).
simpl in Hs. unfold sessions_ok. rewrite Hs.
destruct (sessions a !! _); [done|].
apply map_Forall_insert_2; [|done]. by split.
Qed.

Lemma or_generate_sessions sid a : sessions (or_generate uuid4 sid a).2 = sessions a.
Proof. by destruct sid as [[|c s]|]. Qed.

End StoreFacts.

Section ProcessFacts.
Context {pyd : PydanticLib}.
Variable settings : Settings.
Variable uuid4 : nat -> pystr.
Variable current_date : pystr.
Variable py_str : json -> pystr.
Variable llm_plan : AgentInput -> list (ToolInvocation * pystr) -> AgentDecision.
Variable execute_tool : ToolInvocation -> pystr.
Variable stopped_response : json.

Local Abbreviation process :=
(process_message settings uuid4 current_date py_str llm_plan execute_tool
   stopped_response).
Local Abbreviation process_try :=
(process_message_try settings uuid4 current_date py_str llm_plan execute_tool
   stopped_response).

(** The state in which [process_message] leaves the service, and the reply,
  in terms of the session it works on. *)
Lemma process_message_state message sid uid ctx a :
let key := (get_or_create_session uuid4 sid uid a).1 in
let a2 := update_session key (add_message USER message)
            (get_or_create_session uuid4 sid uid a).2 in
match (process_try message sid uid ctx a).1.1 with
| Return r =>
  (process message sid uid ctx a).1.1 = Return r
  /\ cr_session_id r = key
  /\ cr_metadata r
     = [ (u8 "message_count",
          JInt (Z.of_nat (length (get_session_history key
                                    (process message sid uid ctx a).2))));
         (u8 "user_id", PyOps.opt_int uid) ]
  /\ (process message sid uid ctx a).2
     = update_session key (add_message ASSISTANT (cr_message r)) a2
| Raise e =>
  (process message sid uid ctx a).1.1
  = Return {| cr_message := disculpa;
              cr_session_id := (or_generate uuid4 sid a2).1;
              cr_metadata := [ (u8 "error", JStr (exc_str e)) ] |}
  /\ (process message sid uid ctx a).2 = (or_generate uuid4 sid a2).2
end.
Proof.
simpl. unfold process_message, process_message_try.
destruct (get_or_create_session uuid4 sid uid a) as [key a1]. simpl.
destruct (agent_ainvoke _ _ _ _ _) as [resp k].
destruct (_ ≫= _) as [text|e]; simpl.
- done.
- by destruct (or_generate uuid4 sid _).
Qed.

Lemma history_after_update key r text a :
is_Some (sessions a !! key) ->
get_session_history key (update_session key (add_message r text) a)
= get_session_history key a ++ [ {| role := r; content := text |} ].
Proof.
intros [s Hs]. unfold get_session_history, update_session. simpl.
by rewrite lookup_alter_eq, Hs.
Qed.

Lemma history_created sid uid a :
get_session_history (get_or_create_session uuid4 sid uid a).1
  (get_or_create_session uuid4 sid uid a).2
= get_session_history (get_or_create_session uuid4 sid uid a).1 a.
Proof.
destruct (get_or_create_session_state uuid4 sid uid a) as (_ & _ & Hs). simpl in Hs.
unfold get_session_history. rewrite Hs.
destruct (sessions a !! _) eqn:E; [by rewrite E|].
by rewrite lookup_insert_eq.
Qed.

Lemma other_sessions_created sid uid a k :
k <> (get_or_create_session uuid4 sid uid a).1 ->
sessions (get_or_create_session uuid4 sid uid a).2 !! k = sessions a !! k.
Proof.
intros Hk. destruct (get_or_create_session_state uuid4 sid uid a) as (_ & _ & Hs).
simpl in Hs. rewrite Hs. destruct (sessions a !! _); [done|].
by rewrite lookup_insert_ne.
Qed.

(** Once the user message is in, the session has its old history followed by
  that message, and the other sessions are those of before. *)
Lemma state_after_user_message message sid uid a :
let key := (get_or_create_session uuid4 sid uid a).1 in
let a2 := update_session key (add_message USER message)
            (get_or_create_session uuid4 sid uid a).2 in
get_session_history key a2
= get_session_history key a ++ [ {| role := USER; content := message |} ]
/\ is_Some (sessions a2 !! key)
/\ forall k, k <> key -> sessions a2 !! k = sessions a !! k.
Proof.
simpl. pose proof (get_or_create_session_lookup uuid4 sid uid a) as Hin.
split; [|split].
- rewrite (history_after_update _ _ _ _ Hin). f_equal. apply history_created.
- unfold update_session. simpl. rewrite lookup_alter_eq.
  destruct Hin as [s ->]. simpl. eauto.
- intros k Hk. unfold update_session. simpl. rewrite lookup_alter_ne by done.
  by apply other_sessions_created.
Qed.


End ProcessFacts.

Section ProcessInvariants.
Context {pyd : PydanticLib}.
Variable settings : Settings.
Variable uuid4 : nat -> pystr.
Variable current_date : pystr.
Variable py_str : json -> pystr.
Variable llm_plan : AgentInput -> list (ToolInvocation * pystr) -> AgentDecision.
Variable execute_tool : ToolInvocation -> pystr.
Variable stopped_response : json.

Local Abbreviation process :=
(process_message settings uuid4 current_date py_str llm_plan execute_tool
   stopped_response).
Local Abbreviation process_try :=
(process_message_try settings uuid4 current_date py_str llm_plan execute_tool
   stopped_response).

(** X21: the session table stays well formed. If every session is stored
  under its own id and its memory holds exactly the user and assistant
  messages of its history, in order, then the same is true after
  [process_message], whether it succeeds or fails, and after
  [clear_session]. *)
Theorem sessions_stay_well_formed message sid uid ctx a :
sessions_ok a ->
sessions_ok (process message sid uid ctx a).2
/\ forall k, sessions_ok (clear_session k a).
Proof.
intros Hok. split.
- pose proof (process_message_state settings uuid4 current_date py_str llm_plan
                execute_tool stopped_response message sid uid ctx a) as Hst.
  simpl in Hst.
  assert (sessions_ok (update_session (get_or_create_session uuid4 sid uid a).1
                         (add_message USER message)
                         (get_or_create_session uuid4 sid uid a).2)) as H2
      by (by apply update_session_ok, get_or_create_session_ok).
  destruct ((process_try message sid uid ctx a).1.1) as [r|e].
  + destruct Hst as (_ & _ & _ & ->). by apply update_session_ok.
  + destruct Hst as (_ & ->). unfold sessions_ok. by rewrite or_generate_sessions.
- intros k. unfold sessions_ok, clear_session. simpl. by apply map_Forall_delete.
Qed.

(** X22: a failed call without a session id loses the conversation. The
  user message is filed under the first generated id, but the reply carries
  a second generated id; when that second id is a fresh one, it names no
  session, so a retry with the id of the reply starts from an empty
  history. *)
Theorem failed_call_without_session_id_returns_another_id message sid uid ctx a e :
sid = None \/ sid = Some [] ->
(process_try message sid uid ctx a).1.1 = Raise e ->
exists r,
  (process message sid uid ctx a).1.1 = Return r
  /\ cr_session_id r = uuid4 (S (uuids_drawn a))
  /\ (get_or_create_session uuid4 sid uid a).1 = uuid4 (uuids_drawn a)
  /\ last (get_session_history (uuid4 (uuids_drawn a)) (process message sid uid ctx a).2)
     = Some {| role := USER; content := message |}
  /\ (uuid4 (S (uuids_drawn a)) <> uuid4 (uuids_drawn a) ->
      sessions a !! uuid4 (S (uuids_drawn a)) = None ->
      get_session_history (cr_session_id r) (process message sid uid ctx a).2 = []).
Proof.
intros Habs Hfail.
pose proof (process_message_state settings uuid4 current_date py_str llm_plan
              execute_tool stopped_response message sid uid ctx a) as Hst.
destruct (state_after_user_message uuid4 message sid uid a) as (Hhist & _ & Hother).
cbv zeta in Hhist, Hother. simpl in Hst. rewrite Hfail in Hst. destruct Hst as (Hr & Hstate).
destruct (get_or_create_session_state uuid4 sid uid a) as (Hkey & Hdrawn & _).
simpl in Hkey, Hdrawn. rewrite (or_generate_absent uuid4 sid a Habs) in Hkey, Hdrawn.
simpl in Hkey, Hdrawn. rewrite Hkey in *.
rewrite (or_generate_absent uuid4 sid _ Habs) in Hr. simpl in Hr. rewrite Hdrawn in Hr.
eexists. split; [exact Hr|]. simpl. split; [done|]. split; [done|]. split.
- rewrite Hstate. unfold get_session_history in *. rewrite or_generate_sessions.
  rewrite Hhist. apply last_snoc.
- intros Hne Hfresh. rewrite Hstate. unfold get_session_history.
  rewrite or_generate_sessions, (Hother _ Hne), Hfresh. done.
Qed.

(** X23: the chat history handed to the agent already contains the message
  being processed: with a positive [CONVERSATION_HISTORY_LIMIT] its last
  entry is the current user message, which the agent also receives as its
  input; and the history never has more than the window's entries. *)
Theorem chat_history_ends_with_current_message message sid uid ctx a :
let key := (get_or_create_session uuid4 sid uid a).1 in
let a2 := update_session key (add_message USER message)
            (get_or_create_session uuid4 sid uid a).2 in
let inp := build_agent_input settings current_date py_str message uid ctx key a2 in
(length (ai_chat_history inp)
 <= WindowMemory.window_size (CONVERSATION_HISTORY_LIMIT settings))%nat
/\ (0 < CONVERSATION_HISTORY_LIMIT settings ->
    last (ai_chat_history inp) = Some (USER, message)).
Proof.
intros key a2 inp. subst inp. unfold build_agent_input. simpl. split.
- rewrite window_length. lia.
- intros Hk. subst a2. unfold update_session. simpl. rewrite lookup_alter_eq.
  destruct (get_or_create_session_lookup uuid4 sid uid a) as [s Hs].
  subst key. rewrite Hs. simpl.
  unfold WindowMemory.load_memory_variables, WindowMemory.add_user_message,
    WindowMemory.window_size, last_n.
  replace (0 <? CONVERSATION_HISTORY_LIMIT settings) with true
    by (symmetry; by apply Z.ltb_lt).
  rewrite length_app. simpl. rewrite drop_app_le by lia. apply last_snoc.
Qed.

End ProcessInvariants.

(** ** More on the tool catalog *)

Section ToolMore.
Variable transport : Request -> HttpResult.
Variable py_str : json -> pystr.
Variable str_upper : pystr -> pystr.

Local Abbreviation run := (arun transport py_str str_upper).

(** X24: a search without any usable criterion is answered on the spot:
  [buscar_paciente] without DNI, id or name, and [consultar_citas] without
  patient or doctor id (an id of zero and an empty string count as
  missing), return their fixed message whatever the backend is, that is
  without calling it. *)
Theorem missing_criteria_are_answered_locally dni pid nombre mid estado :
PyOps.some_int pid = false ->
(PyOps.some_str dni = false -> PyOps.some_str nombre = false ->
 run (BuscarPaciente dni pid nombre)
 = Return (u8 "❌ Debes proporcionar al menos un criterio de búsqueda (DNI, ID o nombre)"))
/\ (PyOps.some_int mid = false ->
    run (ConsultarCitas pid mid estado)
    = Return (u8 "❌ Debes proporcionar al menos un ID de paciente o médico")).
Proof.
intros Hpid. split.
- intros Hdni Hnombre. cbn [arun].
  unfold BuscarPacienteTool_arun, buscar_paciente_body.
  by rewrite Hpid, Hdni, Hnombre.
- intros Hmid. cbn [arun]. unfold ConsultarCitasTool_arun, consultar_citas_body.
  by rewrite Hpid, Hmid.
Qed.

(** X25: which criterion a search uses. [buscar_paciente] with a non-zero
  patient id ignores DNI and name, and with a DNI but no id ignores the
  name. [consultar_citas] with a non-zero patient id ignores the doctor id,
  and when it searches by doctor it ignores the status filter. *)
Theorem search_criteria_precedence dni pid nombre mid estado :
(PyOps.some_int pid = true ->
 run (BuscarPaciente dni pid nombre) = run (BuscarPaciente None pid None)
 /\ run (ConsultarCitas pid mid estado) = run (ConsultarCitas pid None estado))
/\ (PyOps.some_int pid = false ->
    (PyOps.some_str dni = true ->
     run (BuscarPaciente dni pid nombre) = run (BuscarPaciente dni None None))
    /\ (PyOps.some_int mid = true ->
        run (ConsultarCitas pid mid estado) = run (ConsultarCitas None mid None))).
Proof.
split.
- intros Hpid. cbn [arun].
  unfold BuscarPacienteTool_arun, buscar_paciente_body,
    ConsultarCitasTool_arun, consultar_citas_body.
  by rewrite Hpid.
- intros Hpid. split.
  + intros Hdni. cbn [arun]. unfold BuscarPacienteTool_arun, buscar_paciente_body.
    rewrite Hpid, Hdni. reflexivity.
  + intros Hmid. cbn [arun]. unfold ConsultarCitasTool_arun, consultar_citas_body.
    rewrite Hpid, Hmid. reflexivity.
Qed.

Lemma make_request_ok v method endpoint data params :
(forall r, transport r = HttpOk v) ->
_make_request transport method endpoint data params = Return v.
Proof. intros Hok. unfold _make_request. by rewrite Hok. Qed.

Lemma success_and_data_false body :
not_successful body -> success_and_data (JObj body) = Return false.
Proof.
unfold not_successful, success_and_data. simpl.
destruct (Py.truthy (default JNull (Dict.lookup (u8 "success") body))); [|done].
by intros [?| ->].
Qed.

Lemma falsy_has_no_items v k :
Py.truthy v = false -> exists e, Py.getitem v k = Raise e.
Proof.
destruct v as [|b|z|q|s|l|d]; cbn [Py.truthy Py.getitem]; eauto.
destruct d; [cbn; eauto|discriminate].
Qed.

(** X26: no tool reports success unless the backend said so: when the answer
  of the backend is an object whose ["success"] or whose ["data"] is
  missing or falsy, the text returned by any tool does not begin with the
  check mark. *)
Theorem unsuccessful_answer_is_not_reported_as_success body c :
(forall r, transport r = HttpOk (JObj body)) ->
not_successful body ->
exists text, run c = Return text /\ PyStr.startswith (u8 "✅") text = false.
Proof.
intros Hok Hbad. pose proof (success_and_data_false body Hbad) as Hsd.
destruct c; cbn [arun];
  unfold BuscarPacienteTool_arun, ConsultarCitasTool_arun, ConsultarHistorialTool_arun,
    ConsultarDisponibilidadTool_arun, ListarMedicosTool_arun, ValidarMedicoTool_arun,
    DeterminarTipoUsuarioTool_arun, SugerirHorariosTool_arun, RegistrarCitaTool_arun,
    ConfirmarCitaTool_arun, RegistrarInteraccionTool_arun,
    buscar_paciente_body, consultar_citas_body, consultar_historial_body,
    consultar_disponibilidad_body, listar_medicos_body, validar_medico_body,
    determinar_tipo_usuario_body, sugerir_horarios_body, registrar_cita_body,
    confirmar_cita_body, registrar_interaccion_body,
    get_paciente, buscar_paciente_por_dni, get_pacientes, get_citas_paciente,
    get_citas_medico, get_historial_resumen, get_disponibilidad_medico, get_medicos,
    get_medico, determinar_tipo_usuario, sugerir_horarios, registrar_cita,
    confirmar_cita, registrar_interaccion;
  repeat match goal with
         | |- context [if PyOps.some_int ?x then _ else _] => destruct (PyOps.some_int x)
         | |- context [if PyOps.some_str ?x then _ else _] => destruct (PyOps.some_str x)
         end;
  rewrite ?(make_request_ok (JObj body)) by exact Hok;
  cbn [mbind outcome_bind]; rewrite ?Hsd;
  cbn [mbind outcome_bind guarded try_clauses select_clause is_Exception exc_str
       message_or getf Py.get_or Py.get];
  try (eexists; split; [reflexivity | vm_compute; reflexivity]).
(* registrar_interaccion_ia looks at ["success"] alone *)
destruct (Py.truthy (default JNull (Dict.lookup (u8 "success") body))) eqn:Es.
- destruct Hbad as [Hbad|Hbad]; [congruence|].
  cbn [Py.getitem]. destruct (Dict.lookup (u8 "data") body) as [x|] eqn:Ed.
  + cbn [mbind outcome_bind]. unfold itemf. simpl in Hbad.
    destruct (falsy_has_no_items x (u8 "id_interaccion") Hbad) as (e & ->).
    cbn [mbind outcome_bind guarded try_clauses select_clause is_Exception].
    eexists; split; [reflexivity | vm_compute; reflexivity].
  + cbn [mbind outcome_bind guarded try_clauses select_clause is_Exception].
    eexists; split; [reflexivity | vm_compute; reflexivity].
- cbn [mbind outcome_bind guarded try_clauses select_clause is_Exception].
  eexists; split; [reflexivity | vm_compute; reflexivity].
Qed.

End ToolMore.

(** ** Instances on concrete inputs *)

Lemma truncate_text_fits_witness :
  PyStr.len (Helpers.truncate_text (u8 "Dolor de muela") 8)
  = Z.min (PyStr.len (u8 "Dolor de muela")) 8
  /\ (PyStr.len (u8 "Dolor de muela") <= 8 ->
      Helpers.truncate_text (u8 "Dolor de muela") 8 = u8 "Dolor de muela")
  /\ (8 < PyStr.len (u8 "Dolor de muela") ->
      Helpers.truncate_text (u8 "Dolor de muela") 8
      = take (Z.to_nat (8 - 3)) (u8 "Dolor de muela") ++ u8 "...").
Proof. apply (truncate_text_fits (u8 "Dolor de muela") 8). lia. Defined.

Lemma truncate_text_idempotent_witness :
  Helpers.truncate_text (Helpers.truncate_text (u8 "Dolor de muela") 8) 8
  = Helpers.truncate_text (u8 "Dolor de muela") 8.
Proof. apply (truncate_text_idempotent (u8 "Dolor de muela") 8). lia. Defined.

Lemma truncate_text_small_limit_witness :
  Helpers.truncate_text (u8 "Hola mundo") 2
  = take (length (u8 "Hola mundo") - Z.to_nat (3 - 2)) (u8 "Hola mundo") ++ u8 "..."
  /\ PyStr.len (Helpers.truncate_text (u8 "Hola mundo") 2)
     = Z.max (PyStr.len (u8 "Hola mundo") - (3 - 2)) 0 + 3
  /\ 2 < PyStr.len (Helpers.truncate_text (u8 "Hola mundo") 2).
Proof.
  apply (truncate_text_small_limit (u8 "Hola mundo") 2).
  - lia.
  - vm_compute. reflexivity.
Defined.

Lemma analyze_passes_through_witness :
  escalar (Demo.encuesta (u8 "bien") None false) (JObj Demo.respuesta_baja)
  = Return (JObj Demo.respuesta_baja)
  /\ analyze (codec := MiniJson.codec) (pyd := MiniJson.strict)
       (Demo.llm_says (MiniJson.dumps (JObj Demo.respuesta_baja))) 0
       (Demo.encuesta (u8 "bien") None false)
     = Return {| nivel_urgencia := u8 "bajo"; requiere_atencion := false;
                 sentimiento_general := u8 "positivo"; sintomas_detectados := [];
                 recomendacion := u8 "Sin acciones"; resumen := u8 "Recuperación normal";
                 probabilidad_complicacion := (1 # 10)%Q;
                 necesita_cita_urgente := false |}.
Proof.
  apply (analyze_passes_through (codec := MiniJson.codec) (pyd := MiniJson.strict)
           (Demo.llm_says (MiniJson.dumps (JObj Demo.respuesta_baja))) 0
           (Demo.encuesta (u8 "bien") None false)
           (MiniJson.dumps (JObj Demo.respuesta_baja)) [] 120
           Demo.respuesta_baja).
  - reflexivity.
  - vm_compute. reflexivity.
  - vm_compute. reflexivity.
  - right. split.
    + intros H. vm_compute in H. discriminate.
    + vm_compute. reflexivity.
Defined.

Lemma parsear_probability_in_unit_interval_witness :
  (0 <= probabilidad_complicacion
          {| nivel_urgencia := u8 "bajo"; requiere_atencion := false;
             sentimiento_general := u8 "positivo"; sintomas_detectados := [];
             recomendacion := u8 "Sin acciones"; resumen := u8 "Recuperación normal";
             probabilidad_complicacion := (1 # 10)%Q;
             necesita_cita_urgente := false |})%Q
  /\ (probabilidad_complicacion
        {| nivel_urgencia := u8 "bajo"; requiere_atencion := false;
           sentimiento_general := u8 "positivo"; sintomas_detectados := [];
           recomendacion := u8 "Sin acciones"; resumen := u8 "Recuperación normal";
           probabilidad_complicacion := (1 # 10)%Q;
           necesita_cita_urgente := false |} <= 1)%Q.
Proof.
  apply (parsear_probability_in_unit_interval (codec := MiniJson.codec)
           (pyd := MiniJson.strict)
           (MiniJson.dumps (JObj Demo.respuesta_baja))
           (Demo.encuesta (u8 "bien") None false)).
  vm_compute. reflexivity.
Defined.

Lemma non_object_json_is_error_500_witness :
  exists e,
    parsear_respuesta_ia (codec := MiniJson.codec) (pyd := MiniJson.strict)
      (u8 "[]") (Demo.encuesta (u8 "bien") None false) = Raise e
    /\ (exc_cls e = AttributeError \/ exc_cls e = TypeError)
    /\ analyze (codec := MiniJson.codec) (pyd := MiniJson.strict)
         (Demo.llm_says (u8 "[]")) 0 (Demo.encuesta (u8 "bien") None false)
       = Raise (error_500 e).
Proof.
  apply (non_object_json_is_error_500 (codec := MiniJson.codec) (pyd := MiniJson.strict)
           (Demo.llm_says (u8 "[]")) 0 (Demo.encuesta (u8 "bien") None false)
           (u8 "[]") [] 120 (JArr [])).
  - reflexivity.
  - vm_compute. reflexivity.
  - discriminate.
Defined.

Lemma servicio_returns_valid_json_witness :
  match servicio (codec := MiniJson.codec) Demo.llm_down
          (Demo.encuesta (u8 "bien") None false) with
  | Return text => exists v, json_loads (JsonCodec := MiniJson.codec) text = Some v
  | Raise e => is_JSONDecodeError e = false
  end.
Proof.
  apply (servicio_returns_valid_json (codec := MiniJson.codec) Demo.llm_down
           (Demo.encuesta (u8 "bien") None false)).
  vm_compute. reflexivity.
Defined.

Lemma missing_usage_is_error_500_witness :
  servicio (codec := MiniJson.codec)
    (fun _ _ => Return {| choices := [Some (MiniJson.dumps (JObj Demo.respuesta_baja))];
                          usage_total_tokens := None |})
    (Demo.encuesta (u8 "bien") None false)
  = Raise (Py.no_attribute JNull (u8 "total_tokens"))
  /\ analizar_respuesta_seguimiento (codec := MiniJson.codec) (pyd := MiniJson.strict)
       (fun _ _ => Return {| choices := [Some (MiniJson.dumps (JObj Demo.respuesta_baja))];
                             usage_total_tokens := None |})
       0 (Demo.encuesta (u8 "bien") None false)
     = (Raise (error_500 (Py.no_attribute JNull (u8 "total_tokens"))), []).
Proof.
  apply (missing_usage_is_error_500 (codec := MiniJson.codec) (pyd := MiniJson.strict)
           (fun _ _ => Return {| choices := [Some (MiniJson.dumps (JObj Demo.respuesta_baja))];
                                 usage_total_tokens := None |})
           0 (Demo.encuesta (u8 "bien") None false)
           (MiniJson.dumps (JObj Demo.respuesta_baja)) [] (JObj Demo.respuesta_baja)).
  - reflexivity.
  - vm_compute. reflexivity.
Defined.

Lemma clear_session_removes_only_that_session_witness :
  S (get_active_sessions_count
       (clear_session (u8 "s1")
          {| sessions := {[ u8 "s1" := new_session (u8 "s1") None ]}; uuids_drawn := 0 |}))
  = get_active_sessions_count
      {| sessions := {[ u8 "s1" := new_session (u8 "s1") None ]}; uuids_drawn := 0 |}.
Proof.
  apply (proj1 (proj2 (proj2 (clear_session_removes_only_that_session (u8 "s1")
           {| sessions := {[ u8 "s1" := new_session (u8 "s1") None ]};
              uuids_drawn := 0 |})))).
  vm_compute. eauto.
Defined.

Lemma sessions_stay_well_formed_witness :
  sessions_ok
    (process_message (pyd := MiniJson.strict) default_settings Demo.uuid_demo
       (u8 "2025-01-15") Demo.py_str_demo Demo.llm_fails (fun _ => [])
       Demo.stopped_demo (u8 "Hola") None (Some 7) None Demo.empty_service).2
  /\ forall k, sessions_ok (clear_session k Demo.empty_service).
Proof.
  apply (sessions_stay_well_formed (pyd := MiniJson.strict) default_settings
           Demo.uuid_demo (u8 "2025-01-15") Demo.py_str_demo Demo.llm_fails
           (fun _ => []) Demo.stopped_demo (u8 "Hola") None (Some 7) None
           Demo.empty_service).
  apply map_Forall_empty.
Defined.

Lemma failed_call_without_session_id_returns_another_id_witness :
  exists r,
    (process_message (pyd := MiniJson.strict) default_settings Demo.uuid_demo
       (u8 "2025-01-15") Demo.py_str_demo Demo.llm_fails (fun _ => [])
       Demo.stopped_demo (u8 "Hola") None (Some 7) None Demo.empty_service).1.1
    = Return r
    /\ cr_session_id r = Demo.uuid_demo (S (uuids_drawn Demo.empty_service))
    /\ (get_or_create_session Demo.uuid_demo None (Some 7) Demo.empty_service).1
       = Demo.uuid_demo (uuids_drawn Demo.empty_service)
    /\ last (get_session_history (Demo.uuid_demo (uuids_drawn Demo.empty_service))
               (process_message (pyd := MiniJson.strict) default_settings Demo.uuid_demo
                  (u8 "2025-01-15") Demo.py_str_demo Demo.llm_fails (fun _ => [])
                  Demo.stopped_demo (u8 "Hola") None (Some 7) None
                  Demo.empty_service).2)
       = Some {| role := USER; content := u8 "Hola" |}
    /\ (Demo.uuid_demo (S (uuids_drawn Demo.empty_service))
        <> Demo.uuid_demo (uuids_drawn Demo.empty_service) ->
        sessions Demo.empty_service !! Demo.uuid_demo (S (uuids_drawn Demo.empty_service))
        = None ->
        get_session_history (cr_session_id r)
          (process_message (pyd := MiniJson.strict) default_settings Demo.uuid_demo
             (u8 "2025-01-15") Demo.py_str_demo Demo.llm_fails (fun _ => [])
             Demo.stopped_demo (u8 "Hola") None (Some 7) None Demo.empty_service).2
        = []).
Proof.
  apply (failed_call_without_session_id_returns_another_id (pyd := MiniJson.strict)
           default_settings Demo.uuid_demo (u8 "2025-01-15") Demo.py_str_demo
           Demo.llm_fails (fun _ => []) Demo.stopped_demo (u8 "Hola") None (Some 7) None
           Demo.empty_service
           (Exc (LibraryError (u8 "RateLimitError")) (u8 "rate limit"))).
  - by left.
  - vm_compute. reflexivity.
Defined.

Lemma missing_criteria_are_answered_locally_witness :
  (PyOps.some_str None = false -> PyOps.some_str (Some []) = false ->
   arun Demo.backend_down Demo.py_str_demo Demo.upper_demo
     (BuscarPaciente None (Some 0) (Some []))
   = Return (u8 "❌ Debes proporcionar al menos un criterio de búsqueda (DNI, ID o nombre)"))
  /\ (PyOps.some_int None = false ->
      arun Demo.backend_down Demo.py_str_demo Demo.upper_demo
        (ConsultarCitas (Some 0) None (Some (u8 "pendiente")))
      = Return (u8 "❌ Debes proporcionar al menos un ID de paciente o médico")).
Proof.
  apply (missing_criteria_are_answered_locally Demo.backend_down Demo.py_str_demo
           Demo.upper_demo None (Some 0) (Some []) None (Some (u8 "pendiente"))).
  reflexivity.
Defined.

Lemma unsuccessful_answer_is_not_reported_as_success_witness :
  exists text,
    arun (fun _ => HttpOk (JObj [ (u8 "success", JBool false);
                                  (u8 "message", JStr (u8 "Paciente no encontrado")) ]))
      Demo.py_str_demo Demo.upper_demo (ConsultarHistorial 7) = Return text
    /\ PyStr.startswith (u8 "✅") text = false.
Proof.
  apply (unsuccessful_answer_is_not_reported_as_success
           (fun _ => HttpOk (JObj [ (u8 "success", JBool false);
                                    (u8 "message", JStr (u8 "Paciente no encontrado")) ]))
           Demo.py_str_demo Demo.upper_demo
           [ (u8 "success", JBool false);
             (u8 "message", JStr (u8 "Paciente no encontrado")) ]
           (ConsultarHistorial 7)).
  - intros r. reflexivity.
  - left. vm_compute. reflexivity.
Defined.

Lemma unreachable_backend_is_reported_witness :
  exists text,
    arun Demo.backend_down Demo.py_str_demo Demo.upper_demo (ListarMedicos None)
    = Return text
    /\ PyStr.startswith (u8 "❌") text = true.
Proof.
  apply (unreachable_backend_is_reported Demo.backend_down Demo.py_str_demo
           Demo.upper_demo (u8 "timeout") (ListarMedicos None)).
  - intros r. reflexivity.
  - intros H. vm_compute in H. discriminate.
Defined.
